(** * Leave-request ledger: lifecycle engine, duplicate guard, monthly
      statistics and overdue-escalation scanner

    A shallow embedding of [src/code.js] (the Apps Script implementation of
    the leave-request system) and the properties of its request lifecycle.

    Modelling conventions.
    - A sheet is the list of its rows, row [k] of the sheet being element
      [k - 1] of the list; row 1 is the header row, which the code never
      reads, so every scan starts at row 2.
    - A row is a record with one typed field per column ([*_COL]).
    - A JavaScript [Date] is its time value in milliseconds, read in the
      script's time zone, which is taken to have a fixed offset (no daylight
      saving); an empty or unparsable date cell is [None] (Invalid Date).
    - A JavaScript number is a rational, an infinity or NaN; what the script
      computes is rounded to binary64. The two zeros are not told apart.
    - A string is the sequence of bytes of its UTF-8 encoding.
    - A plain object is the finite map of its own properties; [JS.get] is
      the lookup [object[key]], which finds a member of [Object.prototype]
      when the object has no such property of its own. *)

From Stdlib Require Import ZArith QArith Qabs Ascii String List Bool Lia.
From stdpp Require Import gmap strings list fin_maps pretty.

Local Open Scope string_scope.
Local Open Scope Z_scope.

(** ** JavaScript values used by the script *)

Module JS.

(** *** Numbers

    A finite number is the rational it denotes. The numbers the script
    meets are binary64 numbers: a result that has no exact binary64 value
    is rounded by [round64]. The two zeros are one. *)

Inductive Number : Type :=
| Finite (q : Q)
| Infinity (negative : bool)
| NaN.

Definition isNaN (n : Number) : bool :=
  match n with NaN => true | _ => false end.

Definition zero : Number := Finite 0.
Definition half : Number := Finite (1 # 2).

(** The integer nearest to [num / den], the even one of two that are equally
    near; [den] is positive. *)
Definition roundHalfEven (num den : Z) : Z :=
  let floor := num / den in
  match 2 * (num mod den) ?= den with
  | Lt => floor
  | Gt => floor + 1
  | Eq => if Z.even floor then floor else floor + 1
  end.

(** The binary64 number nearest to [num / den], ties to the even
    significand. The magnitude is taken in units of 2^-1074, the least
    positive binary64 number; [j] is the exponent, in that unit, of the last
    place of a significand of 53 bits. From 2^1024 on the result is an
    infinity. *)
Definition roundRatio (num : Z) (den : positive) : Number :=
  let n := Z.abs num * 2 ^ 1074 in
  let d := Zpos den in
  let j := Z.max (Z.log2 (n / d)) 52 - 52 in
  let m := roundHalfEven n (d * 2 ^ j) in
  if 2 ^ 2098 <=? m * 2 ^ j then Infinity (num <? 0)
  else Finite (Qred (Z.sgn num * (m * 2 ^ j) # 2 ^ 1074)).

Definition round64 (q : Q) : Number :=
  roundRatio (Qnum (Qred q)) (Qden (Qred q)).

(** [a + b] on numbers. *)
Definition add (a b : Number) : Number :=
  match a, b with
  | NaN, _ | _, NaN => NaN
  | Infinity s, Infinity s' => if Bool.eqb s s' then Infinity s else NaN
  | Infinity s, _ | _, Infinity s => Infinity s
  | Finite x, Finite y => round64 (x + y)
  end.

(** [a == b] on numbers: NaN equals nothing. *)
Definition eqb (a b : Number) : bool :=
  match a, b with
  | Finite x, Finite y => Qeq_bool x y
  | Infinity s, Infinity s' => Bool.eqb s s'
  | _, _ => false
  end.

(** [a < b] on numbers: false as soon as one side is NaN. *)
Definition ltb (a b : Number) : bool :=
  match a, b with
  | Finite x, Finite y => negb (Qle_bool y x)
  | Infinity true, Finite _ | Finite _, Infinity false => true
  | Infinity true, Infinity false => true
  | _, _ => false
  end.

(** Truthiness of a number: everything but 0 and NaN. *)
Definition truthy (n : Number) : bool :=
  match n with
  | Finite q => negb (Qeq_bool q 0)
  | Infinity _ => true
  | NaN => false
  end.

(** *** Strings

    A string is held as the bytes of its UTF-8 encoding; the white space
    that [trim] strips and [parseFloat] skips is the [WhiteSpace] and
    [LineTerminator] of ECMAScript in that encoding. *)

(** The white space characters of one byte: TAB, LF, VT, FF, CR and the
    space. *)
Definition isWhiteSpace (c : ascii) : bool :=
  let n := nat_of_ascii c in
  ((9 <=? n)%nat && (n <=? 13)%nat) || (n =? 32)%nat.

(** The white space character of two bytes: U+00A0. *)
Definition isWhiteSpace2 (c1 c2 : ascii) : bool :=
  ((nat_of_ascii c1 =? 194) && (nat_of_ascii c2 =? 160))%nat.

(** The white space characters of three bytes: U+1680, U+2000 to U+200A,
    U+2028, U+2029, U+202F, U+205F, U+3000 and U+FEFF. *)
Definition isWhiteSpace3 (c1 c2 c3 : ascii) : bool :=
  let n1 := nat_of_ascii c1 in
  let n2 := nat_of_ascii c2 in
  let n3 := nat_of_ascii c3 in
  ((n1 =? 225) && (n2 =? 154) && (n3 =? 128))%nat
  || ((n1 =? 226) && (n2 =? 128)
      && (((128 <=? n3) && (n3 <=? 138)) || (n3 =? 168) || (n3 =? 169)
          || (n3 =? 175)))%nat
  || ((n1 =? 226) && (n2 =? 129) && (n3 =? 159))%nat
  || ((n1 =? 227) && (n2 =? 128) && (n3 =? 128))%nat
  || ((n1 =? 239) && (n2 =? 187) && (n3 =? 191))%nat.

(** [s.trimStart()] *)
Fixpoint trimStart (s : string) : string :=
  match s with
  | EmptyString => EmptyString
  | String c1 s1 =>
      if isWhiteSpace c1 then trimStart s1
      else
        match s1 with
        | EmptyString => s
        | String c2 s2 =>
            if isWhiteSpace2 c1 c2 then trimStart s2
            else
              match s2 with
              | EmptyString => s
              | String c3 s3 =>
                  if isWhiteSpace3 c1 c2 c3 then trimStart s3 else s
              end
        end
  end.

(** [s.trimEnd()]: the text up to the point from which only white space
    follows. *)
Fixpoint trimEnd (s : string) : string :=
  match s with
  | EmptyString => EmptyString
  | String c s' =>
      match trimStart s with
      | EmptyString => EmptyString
      | _ => String c (trimEnd s')
      end
  end.

(** [s.trim()] *)
Definition trim (s : string) : string := trimEnd (trimStart s).

(** Truthiness of a string: non-empty. *)
Definition nonEmpty (s : string) : bool :=
  match s with EmptyString => false | _ => true end.

(** [s.startsWith(p)] *)
Definition startsWith (p s : string) : bool := String.prefix p s.

(** *** parseFloat

    The longest prefix of the input, leading white space skipped, that is a
    [StrDecimalLiteral]: an optional sign, then [Infinity], or digits with
    an optional fraction and an optional exponent. The result is the
    binary64 number nearest to the decimal value of that prefix. *)

Definition isDigit (c : ascii) : bool :=
  let n := nat_of_ascii c in (48 <=? n)%nat && (n <=? 57)%nat.

Definition digitValue (c : ascii) : Z := Z.of_nat (nat_of_ascii c) - 48.

(** Reads a run of decimal digits: its value as an integer, how many digits
    were read, and the rest of the input. *)
Fixpoint readDigits (acc : Z) (count : nat) (s : string) : Z * nat * string :=
  match s with
  | String c s' =>
      if isDigit c then readDigits (10 * acc + digitValue c) (S count) s'
      else (acc, count, s)
  | EmptyString => (acc, count, s)
  end.

(** The exponent part, when one is present: [e] or [E], an optional sign
    and at least one digit. *)
Definition readExponent (s : string) : Z :=
  match s with
  | String c s' =>
      if (Ascii.eqb c "e" || Ascii.eqb c "E")%char then
        match s' with
        | String c' s'' =>
            if Ascii.eqb c' "+" then
              let '(e, n, _) := readDigits 0 0 s'' in
              match n with O => 0 | _ => e end
            else if Ascii.eqb c' "-" then
              let '(e, n, _) := readDigits 0 0 s'' in
              match n with O => 0 | _ => - e end
            else
              let '(e, n, _) := readDigits 0 0 s' in
              match n with O => 0 | _ => e end
        | EmptyString => 0
        end
      else 0
  | EmptyString => 0
  end.

(** [m * 10 ^ e] as a rational in lowest terms. *)
Definition scale10 (m e : Z) : Q :=
  if 0 <=? e then Qred (inject_Z (m * 10 ^ e))
  else Qred (Qmake m (Z.to_pos (10 ^ (- e)))).

(** The decimal value of the literal [s] begins with, if it begins with
    one. *)
Definition readUnsigned (s : string) : option Q :=
  let '(ip, ni, rest) := readDigits 0 0 s in
  let whole :=
    match ni with
    | O => None
    | _ => Some (scale10 ip (readExponent rest))
    end in
  match rest with
  | String c rest' =>
      if Ascii.eqb c "." then
        let '(fp, nf, rest'') := readDigits 0 0 rest' in
        match ni, nf with
        | O, O => None
        | _, _ =>
            let m := ip * 10 ^ Z.of_nat nf + fp in
            Some (scale10 m (readExponent rest'' - Z.of_nat nf))
        end
      else whole
  | EmptyString => whole
  end.

Definition readUnsignedLiteral (s : string) : Number :=
  if startsWith "Infinity" s then Infinity false
  else match readUnsigned s with
       | Some q => round64 q
       | None => NaN
       end.

Definition negate (n : Number) : Number :=
  match n with
  | Finite q => Finite (Qred (- q))
  | Infinity s => Infinity (negb s)
  | NaN => NaN
  end.

Definition parseFloat (s : string) : Number :=
  let t := trimStart s in
  match t with
  | String c t' =>
      if Ascii.eqb c "+" then readUnsignedLiteral t'
      else if Ascii.eqb c "-" then negate (readUnsignedLiteral t')
      else readUnsignedLiteral t
  | EmptyString => readUnsignedLiteral t
  end.

(** *** Plain objects

    [object[key]] finds an own property of the object or, failing that, a
    member of [Object.prototype]: one of these functions or, under
    [__proto__], the prototype itself. All of them are truthy. *)

Definition objectPrototypeMembers : list string :=
  ["constructor"; "__defineGetter__"; "__defineSetter__"; "hasOwnProperty";
   "__lookupGetter__"; "__lookupSetter__"; "isPrototypeOf";
   "propertyIsEnumerable"; "toString"; "valueOf"; "__proto__";
   "toLocaleString"].

Definition isObjectPrototypeMember (key : string) : bool :=
  existsb (String.eqb key) objectPrototypeMembers.

Inductive Property (A : Type) : Type :=
| Own (a : A)
| Inherited (member : string)
| Undefined.
Arguments Own {A} a.
Arguments Inherited {A} member.
Arguments Undefined {A}.

(** [object[key]], [own] being the own properties of the object. *)
Definition get {A : Type} (own : gmap string A) (key : string) : Property A :=
  match own !! key with
  | Some a => Own a
  | None => if isObjectPrototypeMember key then Inherited key else Undefined
  end.

(** The [name] of a member of [Object.prototype]: [constructor] is the
    function [Object], the other functions are named as their keys, and the
    prototype has no name. *)
Definition memberName (member : string) : option string :=
  if String.eqb member "__proto__" then None
  else if String.eqb member "constructor" then Some "Object"
  else Some member.

(** *** Values that are not numbers

    What a lookup can hand on in place of a number: a member of
    [Object.prototype]. Its rendering as a text ([function ...], or
    [[object Object]] for the prototype) is no numeral. *)

Inductive Value : Type :=
| Num (n : Number)
| Member (member : string).

(** [v == n] for a number [n]: a member compares as its rendering, which
    converts to NaN. *)
Definition equalsNumber (v : Value) (n : Number) : bool :=
  match v with
  | Num x => eqb x n
  | Member _ => false
  end.

(** A running total: a number as long as only numbers were added, and from
    the first other value on the text [+=] makes, the renderings of the
    total so far and of the values added since, one after the other. The
    renderings themselves are not modelled. *)
Inductive Total : Type :=
| Sum (n : Number)
| Text (parts : list Value).

(** [total += v] *)
Definition plus (total : Total) (v : Value) : Total :=
  match total, v with
  | Sum x, Num y => Sum (add x y)
  | Sum x, Member _ => Text [Num x; v]
  | Text parts, _ => Text (parts ++ [v])
  end.

End JS.

Coercion JS.Num : JS.Number >-> JS.Value.
Coercion JS.Sum : JS.Number >-> JS.Total.


(** ** Dates *)

(** A time value: milliseconds on the script's local time line. *)
Definition Millis : Type := Z.

Module Date.

Definition MS_PER_MINUTE : Z := 60000.
Definition MS_PER_HOUR : Z := 3600000.
Definition MS_PER_DAY : Z := 86400000.

(** Number of whole days since the epoch day. *)
Definition dayNumber (t : Millis) : Z := t / MS_PER_DAY.

(** [d.setHours(h, m, 0, 0)]: same calendar day, given wall-clock time. *)
Definition setHours (h m : Z) (t : Millis) : Millis :=
  dayNumber t * MS_PER_DAY + h * MS_PER_HOUR + m * MS_PER_MINUTE.

(** [d.setDate(d.getDate() + n)]: the same wall-clock time [n] days later. *)
Definition addDays (n : Z) (t : Millis) : Millis := t + n * MS_PER_DAY.

(** The proleptic Gregorian calendar date of a day number, as
    (year, month 1..12, day 1..31). *)
Definition civilFromDays (z : Z) : Z * Z * Z :=
  let z := z + 719468 in
  let era := z / 146097 in
  let doe := z - era * 146097 in
  let yoe := (doe - doe / 1460 + doe / 36524 - doe / 146096) / 365 in
  let y := yoe + era * 400 in
  let doy := doe - (365 * yoe + yoe / 4 - yoe / 100) in
  let mp := (5 * doy + 2) / 153 in
  let d := doy - (153 * mp + 2) / 5 + 1 in
  let m := if mp <? 10 then mp + 3 else mp - 9 in
  (if m <=? 2 then y + 1 else y, m, d).

(** The day number of a calendar date. *)
Definition daysFromCivil (y m d : Z) : Z :=
  let y := if m <=? 2 then y - 1 else y in
  let era := y / 400 in
  let yoe := y - era * 400 in
  let doy := (153 * (if 2 <? m then m - 3 else m + 9) + 2) / 5 + d - 1 in
  let doe := yoe * 365 + yoe / 4 - yoe / 100 + doy in
  era * 146097 + doe - 719468.

(** [d.getFullYear()] *)
Definition getFullYear (t : Millis) : Z :=
  let '(y, _, _) := civilFromDays (dayNumber t) in y.

(** [d.getMonth()], 0 for January. *)
Definition getMonth (t : Millis) : Z :=
  let '(_, m, _) := civilFromDays (dayNumber t) in m - 1.

(** [new Date(year, month - 1, day, h, mi)] *)
Definition make (year month day h mi : Z) : Millis :=
  daysFromCivil year month day * MS_PER_DAY + h * MS_PER_HOUR + mi * MS_PER_MINUTE.

(** [a < b] and [a > b] where either side may be an invalid date or [null]:
    a comparison with NaN is false. *)
Definition ltb (a b : option Millis) : bool :=
  match a, b with
  | Some x, Some y => x <? y
  | _, _ => false
  end.

Definition gtb (a b : option Millis) : bool := ltb b a.

(** Truthiness of a date cell: it holds a date. *)
Definition present (a : option Millis) : bool :=
  match a with Some _ => true | None => false end.

(** [a.getTime() === b.getTime()] *)
Definition sameTime (a b : option Millis) : bool :=
  match a, b with
  | Some x, Some y => x =? y
  | _, _ => false
  end.

End Date.

(** ** The ledger *)

(** Sheet (partition) names. *)
Definition PERMISSION_SHEET_NAME : string := "ច្បាប់ចេញក្រៅ".
Definition LEAVE_SHEET_NAME : string := "ច្បាប់ឈប់សម្រាក".
Definition HOME_LEAVE_SHEET_NAME : string := "ច្បាប់ទៅផ្ទះ".
Definition ALL_LEAVE_SHEETS : list string :=
  [PERMISSION_SHEET_NAME; LEAVE_SHEET_NAME; HOME_LEAVE_SHEET_NAME].

Definition DEFAULT_ADMIN_NAME : string := "Admin".

(** The content of a "number of days" cell: a number, or a text such as one
    of the half-day tokens. *)
Inductive DayValue : Type :=
| DayNumber (q : Q)
| DayText (s : string).

(** The content of a document-photo cell or payload field: a plain text, or
    the JSON text of an array whose entries are strings or [null]. *)
Inductive DocValue : Type :=
| DocText (s : string)
| DocJson (items : list (option string)).

Module Row.

Record t : Type := mk {
  timestamp : Millis;                     (* TIMESTAMP_COL = 1 *)
  requestId : string;                     (* REQUEST_ID_COL = 2 *)
  employeeId : string;                    (* EMPLOYEE_ID_COL = 3 *)
  employeeName : string;                  (* EMPLOYEE_NAME_COL = 4 *)
  leaveType : string;                     (* LEAVE_TYPE_COL = 5 *)
  startDate : option Millis;              (* START_DATE_COL = 6 *)
  endDate : option Millis;                (* END_DATE_COL = 7 *)
  days : DayValue;                        (* DAYS_COL = 8 *)
  reason : string;                        (* REASON_COL = 9 *)
  status : string;                        (* STATUS_COL = 10 *)
  approver : string;                      (* APPROVER_COL = 11 *)
  selfiePhoto : string;                   (* SELFIE_PHOTO_COL = 12 *)
  approvalTimestamp : option Millis;      (* APPROVAL_TIMESTAMP_COL = 13 *)
  docPhoto : DocValue;                    (* DOC_PHOTO_COL = 14 *)
  locationLink : string;                  (* LOCATION_LINK_COL = 15 *)
  checkInTimestamp : option Millis;       (* CHECKIN_TIMESTAMP_COL = 16 *)
  checkInPhoto : string;                  (* CHECKIN_PHOTO_COL = 17 *)
  checkInLocationLink : string;           (* CHECKIN_LOCATION_LINK_COL = 18 *)
  notificationSent : string;              (* NOTIFICATION_SENT_COL = 19 *)
  paymentReceipt : string;                (* PAYMENT_RECEIPT_COL = 20 *)
  adminCheckinNote : string               (* ADMIN_CHECKIN_NOTE_COL = 21 *)
}.

(** [getRange(row, COL).setValue(v)], one setter per column that is written. *)
Definition set_leaveType (v : string) (r : t) : t :=
  mk (timestamp r) (requestId r) (employeeId r) (employeeName r) v
     (startDate r) (endDate r) (days r) (reason r) (status r) (approver r)
     (selfiePhoto r) (approvalTimestamp r) (docPhoto r) (locationLink r)
     (checkInTimestamp r) (checkInPhoto r) (checkInLocationLink r)
     (notificationSent r) (paymentReceipt r) (adminCheckinNote r).
Definition set_startDate (v : option Millis) (r : t) : t :=
  mk (timestamp r) (requestId r) (employeeId r) (employeeName r) (leaveType r)
     v (endDate r) (days r) (reason r) (status r) (approver r)
     (selfiePhoto r) (approvalTimestamp r) (docPhoto r) (locationLink r)
     (checkInTimestamp r) (checkInPhoto r) (checkInLocationLink r)
     (notificationSent r) (paymentReceipt r) (adminCheckinNote r).
Definition set_endDate (v : option Millis) (r : t) : t :=
  mk (timestamp r) (requestId r) (employeeId r) (employeeName r) (leaveType r)
     (startDate r) v (days r) (reason r) (status r) (approver r)
     (selfiePhoto r) (approvalTimestamp r) (docPhoto r) (locationLink r)
     (checkInTimestamp r) (checkInPhoto r) (checkInLocationLink r)
     (notificationSent r) (paymentReceipt r) (adminCheckinNote r).
Definition set_days (v : DayValue) (r : t) : t :=
  mk (timestamp r) (requestId r) (employeeId r) (employeeName r) (leaveType r)
     (startDate r) (endDate r) v (reason r) (status r) (approver r)
     (selfiePhoto r) (approvalTimestamp r) (docPhoto r) (locationLink r)
     (checkInTimestamp r) (checkInPhoto r) (checkInLocationLink r)
     (notificationSent r) (paymentReceipt r) (adminCheckinNote r).
Definition set_reason (v : string) (r : t) : t :=
  mk (timestamp r) (requestId r) (employeeId r) (employeeName r) (leaveType r)
     (startDate r) (endDate r) (days r) v (status r) (approver r)
     (selfiePhoto r) (approvalTimestamp r) (docPhoto r) (locationLink r)
     (checkInTimestamp r) (checkInPhoto r) (checkInLocationLink r)
     (notificationSent r) (paymentReceipt r) (adminCheckinNote r).
Definition set_status (v : string) (r : t) : t :=
  mk (timestamp r) (requestId r) (employeeId r) (employeeName r) (leaveType r)
     (startDate r) (endDate r) (days r) (reason r) v (approver r)
     (selfiePhoto r) (approvalTimestamp r) (docPhoto r) (locationLink r)
     (checkInTimestamp r) (checkInPhoto r) (checkInLocationLink r)
     (notificationSent r) (paymentReceipt r) (adminCheckinNote r).
Definition set_approver (v : string) (r : t) : t :=
  mk (timestamp r) (requestId r) (employeeId r) (employeeName r) (leaveType r)
     (startDate r) (endDate r) (days r) (reason r) (status r) v
     (selfiePhoto r) (approvalTimestamp r) (docPhoto r) (locationLink r)
     (checkInTimestamp r) (checkInPhoto r) (checkInLocationLink r)
     (notificationSent r) (paymentReceipt r) (adminCheckinNote r).
Definition set_selfiePhoto (v : string) (r : t) : t :=
  mk (timestamp r) (requestId r) (employeeId r) (employeeName r) (leaveType r)
     (startDate r) (endDate r) (days r) (reason r) (status r) (approver r)
     v (approvalTimestamp r) (docPhoto r) (locationLink r)
     (checkInTimestamp r) (checkInPhoto r) (checkInLocationLink r)
     (notificationSent r) (paymentReceipt r) (adminCheckinNote r).
Definition set_approvalTimestamp (v : option Millis) (r : t) : t :=
  mk (timestamp r) (requestId r) (employeeId r) (employeeName r) (leaveType r)
     (startDate r) (endDate r) (days r) (reason r) (status r) (approver r)
     (selfiePhoto r) v (docPhoto r) (locationLink r)
     (checkInTimestamp r) (checkInPhoto r) (checkInLocationLink r)
     (notificationSent r) (paymentReceipt r) (adminCheckinNote r).
Definition set_docPhoto (v : DocValue) (r : t) : t :=
  mk (timestamp r) (requestId r) (employeeId r) (employeeName r) (leaveType r)
     (startDate r) (endDate r) (days r) (reason r) (status r) (approver r)
     (selfiePhoto r) (approvalTimestamp r) v (locationLink r)
     (checkInTimestamp r) (checkInPhoto r) (checkInLocationLink r)
     (notificationSent r) (paymentReceipt r) (adminCheckinNote r).
Definition set_checkInTimestamp (v : option Millis) (r : t) : t :=
  mk (timestamp r) (requestId r) (employeeId r) (employeeName r) (leaveType r)
     (startDate r) (endDate r) (days r) (reason r) (status r) (approver r)
     (selfiePhoto r) (approvalTimestamp r) (docPhoto r) (locationLink r)
     v (checkInPhoto r) (checkInLocationLink r)
     (notificationSent r) (paymentReceipt r) (adminCheckinNote r).
Definition set_checkInPhoto (v : string) (r : t) : t :=
  mk (timestamp r) (requestId r) (employeeId r) (employeeName r) (leaveType r)
     (startDate r) (endDate r) (days r) (reason r) (status r) (approver r)
     (selfiePhoto r) (approvalTimestamp r) (docPhoto r) (locationLink r)
     (checkInTimestamp r) v (checkInLocationLink r)
     (notificationSent r) (paymentReceipt r) (adminCheckinNote r).
Definition set_checkInLocationLink (v : string) (r : t) : t :=
  mk (timestamp r) (requestId r) (employeeId r) (employeeName r) (leaveType r)
     (startDate r) (endDate r) (days r) (reason r) (status r) (approver r)
     (selfiePhoto r) (approvalTimestamp r) (docPhoto r) (locationLink r)
     (checkInTimestamp r) (checkInPhoto r) v
     (notificationSent r) (paymentReceipt r) (adminCheckinNote r).
Definition set_notificationSent (v : string) (r : t) : t :=
  mk (timestamp r) (requestId r) (employeeId r) (employeeName r) (leaveType r)
     (startDate r) (endDate r) (days r) (reason r) (status r) (approver r)
     (selfiePhoto r) (approvalTimestamp r) (docPhoto r) (locationLink r)
     (checkInTimestamp r) (checkInPhoto r) (checkInLocationLink r)
     v (paymentReceipt r) (adminCheckinNote r).
Definition set_adminCheckinNote (v : string) (r : t) : t :=
  mk (timestamp r) (requestId r) (employeeId r) (employeeName r) (leaveType r)
     (startDate r) (endDate r) (days r) (reason r) (status r) (approver r)
     (selfiePhoto r) (approvalTimestamp r) (docPhoto r) (locationLink r)
     (checkInTimestamp r) (checkInPhoto r) (checkInLocationLink r)
     (notificationSent r) (paymentReceipt r) v.

End Row.

(** ** Duration parser *)

Definition dayValueMap : gmap string JS.Number :=
  <["មួយព្រឹក" := JS.half]>
    (<["មួយរសៀល" := JS.half]>
       (<["ពេលយប់" := JS.half]> ∅)).

(** [dayValueMap[dayValue]]: the property key of a number is its numeral,
    which is neither a key of the map nor the name of an inherited member. *)
Definition dayValueMap_get (dayValue : DayValue) : JS.Property JS.Number :=
  match dayValue with
  | DayText s => JS.get dayValueMap s
  | DayNumber _ => JS.Undefined
  end.

(** [parseFloat(dayValue)]: a number is converted to its numeral and read
    back, which gives the number again. *)
Definition parseFloat (dayValue : DayValue) : JS.Number :=
  match dayValue with
  | DayText s => JS.parseFloat s
  | DayNumber q => JS.round64 q
  end.

(** What [getNumericDayValue] returns is a number unless the text names an
    inherited member, which is truthy and so returned as it is. *)
Definition getNumericDayValue (dayValue : DayValue) : JS.Value :=
  let parsed :=
    let numericValue := parseFloat dayValue in
    JS.Num (if JS.isNaN numericValue then JS.zero else numericValue) in
  match dayValueMap_get dayValue with
  | JS.Own v => if JS.truthy v then JS.Num v else parsed
  | JS.Inherited member => JS.Member member
  | JS.Undefined => parsed
  end.


(** ** External collaborators

    The blob store, the parsing of a date text by [new Date(text)], the
    great-circle distance (floating-point trigonometry) and the rendering of
    a number in a template literal are services of the platform. *)

Class Services : Type := {
  (** the state of the file store *)
  Drive : Type;
  (** [saveImageToDrive(base64Data, fileName, folderId)]: the URL of the new
      file, or [null] when the upload fails *)
  saveImageToDrive : string -> string -> string -> Drive -> option string * Drive;
  (** [new Date(text)] *)
  parseDate : string -> option Millis;
  (** [calculateDistance(lat1, lon1, lat2, lon2)] in metres *)
  calculateDistance : JS.Number -> JS.Number -> JS.Number -> JS.Number -> JS.Number;
  (** [`${n}`] *)
  numberToString : JS.Number -> string
}.

Definition SELFIE_DRIVE_FOLDER_ID : string := "1FfrIA-8qQOZw_DtyyQX92w-WKNfCABxM".
Definition DOCUMENT_DRIVE_FOLDER_ID : string := "1wfUbYwh6SKEqBAxhwyf5q1VMyHxLKuYn".
Definition PAYMENT_RECEIPT_DRIVE_FOLDER_ID : string := "1wfUbYwh6SKEqBAxhwyf5q1VMyHxLKuYn".

Definition CHECKIN_TARGET_LATITUDE : JS.Number :=
  JS.Finite (11414483377915474 # 1000000000000000).
Definition CHECKIN_TARGET_LONGITUDE : JS.Number :=
  JS.Finite (104763828818174 # 1000000000000).
Definition CHECKIN_ALLOWED_RADIUS_METERS : JS.Number := JS.Finite 85.

(** ** Payloads, results and notifications *)

Module LeaveDetails.
Record t : Type := mk {
  requestId : string;
  employeeId : string;
  employeeName : string;
  leaveType : string;
  startDate : string;
  endDate : string;
  numberOfDays : DayValue;
  reason : string;
  selfieImageData : string;
  documentImageData : DocValue;
  paymentReceiptImageData : string;
  latitude : JS.Number;
  longitude : JS.Number
}.
End LeaveDetails.

Module CheckInData.
Record t : Type := mk {
  requestId : string;
  selfieData : string;
  latitude : JS.Number;
  longitude : JS.Number
}.
End CheckInData.

Record Stats : Type := mkStats {
  totalRequests : nat;
  totalDays : JS.Total;
  permissionCount : nat;
  leaveCount : nat
}.

(** The error results of the operations, one per message of the source. *)
Inductive Error : Type :=
| StatusArgumentsRequired      (* "Request ID and new status are required." *)
| AlreadyProcessed             (* "This request has already been processed." *)
| NotFoundForStatusUpdate      (* "Request ID not found for status update." *)
| DeletionIdRequired           (* "Request ID is required for deletion." *)
| NotFoundForDeletion          (* "Request ID not found for deletion." *)
| UpdateIdRequired             (* "Request ID is required for an update." *)
| NotFoundForUpdate (requestId : string)
                               (* "Request with ID ... not found." *)
| InvalidLeaveDetails          (* "...: Invalid leave details provided." *)
| InvalidCheckInData           (* "Invalid check-in data." *)
| CheckInTooFar (distance : JS.Number)
                               (* "Check-in failed: ... (...m)" *)
| CheckInLocationMissing       (* "Check-in failed: Location data is missing. ..." *)
| NotFoundForCheckIn           (* "Request not found for check-in." *)
| AdminCheckInArgumentsRequired (* "Request ID and Admin Role are required." *)
| NotFoundForAdminCheckIn.     (* "Request not found for admin check-in." *)

(** [{ status: "success", ... }] with its message or request id, or
    [{ status: "error", message }]. *)
Inductive Result : Type :=
| Success (info : string)
| Failure (e : Error).

(** What a message sent through [sendTelegramNotification] reports. *)
Inductive Message : Type :=
| NewRequest (requestId : string) (details : LeaveDetails.t)
    (selfieUrl locationLink paymentReceiptUrl : string) (monthlyStats : Stats)
| StatusDecided (employeeName employeeId requestId newStatus
    approverDisplayName rejectionReason : string)
| Resubmitted (employeeName employeeId requestId : string)
| CheckedIn (employeeName employeeId requestId photoUrl locationLink : string)
| AdminCheckedIn (employeeName employeeId requestId adminRole : string)
| Overdue (newNotificationStatus employeeName employeeId reason : string)
    (dayValue : DayValue) (approvalTimestamp : option Millis) (photoUrl : string).

Record EmployeeInfo : Type := mkEmployeeInfo {
  name : string;
  photoUrl : string
}.

(** ** The world the script runs in *)

Record World `{Services} : Type := mkWorld {
  spreadsheet : gmap string (list Row.t);
  sent : list Message;
  employeeCache : option (gmap string EmployeeInfo);
  employeeSheet : gmap string EmployeeInfo;
  drive : Drive
}.

Section Engine.
Context `{Services}.

Definition with_spreadsheet (ss : gmap string (list Row.t)) (w : World) : World :=
  mkWorld _ ss (sent w) (employeeCache w) (employeeSheet w) (drive w).

Definition with_drive (d : Drive) (w : World) : World :=
  mkWorld _ (spreadsheet w) (sent w) (employeeCache w) (employeeSheet w) d.

Definition with_cache (c : option (gmap string EmployeeInfo)) (w : World) : World :=
  mkWorld _ (spreadsheet w) (sent w) c (employeeSheet w) (drive w).

(** [sendTelegramNotification(message)]: delivery never fails the caller. *)
Definition sendTelegramNotification (m : Message) (w : World) : World :=
  mkWorld _ (spreadsheet w) (app (sent w) [m]) (employeeCache w) (employeeSheet w)
    (drive w).

(** [CacheService.getScriptCache().remove(CACHE_EMPLOYEE_KEY)] *)
Definition removeCache (w : World) : World := with_cache None w.

End Engine.

(** *** Sheets *)

Definition blankRow : Row.t :=
  Row.mk 0 "" "" "" "" None None (DayText "") "" "" "" "" None (DocText "") ""
    None "" "" "" "" "".

#[export] Instance Row_inhabited : Inhabited Row.t := populate blankRow.

(** [array.findIndex(p)] *)
Fixpoint findIndex {A : Type} (p : A -> bool) (l : list A) : option nat :=
  match l with
  | [] => None
  | x :: l' => if p x then Some O else option_map S (findIndex p l')
  end.

Module Found.
Record t : Type := mk { sheet : string; row : nat }.
End Found.

(** [sheet.getLastRow()] *)
Definition getLastRow (sheet : list Row.t) : nat := length sheet.

(** [sheet.getRange(2, 1, sheet.getLastRow() - 1, n).getValues()] *)
Definition getValues (sheet : list Row.t) : list Row.t := drop 1 sheet.

Fixpoint findRequestRowIn (names : list string)
    (ss : gmap string (list Row.t)) (requestId : string) : option Found.t :=
  match names with
  | [] => None
  | sheetName :: names' =>
      match ss !! sheetName with
      | Some sheet =>
          if (1 <? getLastRow sheet)%nat then
            match findIndex (fun r => String.eqb (Row.requestId r) requestId)
                    (getValues sheet) with
            | Some rowIndex => Some (Found.mk sheetName (rowIndex + 2))
            | None => findRequestRowIn names' ss requestId
            end
          else findRequestRowIn names' ss requestId
      | None => findRequestRowIn names' ss requestId
      end
  end.

Definition findRequestRow (ss : gmap string (list Row.t)) (requestId : string)
    : option Found.t :=
  findRequestRowIn ALL_LEAVE_SHEETS ss requestId.

(** The cells of row [found.row] of [found.sheet]; empty cells below the
    data. *)
Definition getRow (found : Found.t) (ss : gmap string (list Row.t)) : Row.t :=
  (ss !!! Found.sheet found) !!! (Found.row found - 1)%nat.

(** [found.sheet.getRange(found.row, COL).setValue(v)], [set] being the
    setter of the column. A found row always lies within the sheet. *)
Definition setValue (found : Found.t) (set : Row.t -> Row.t)
    (ss : gmap string (list Row.t)) : gmap string (list Row.t) :=
  alter (alter set (Found.row found - 1)%nat) (Found.sheet found) ss.

(** [found.sheet.deleteRow(found.row)] *)
Definition deleteRow (found : Found.t) (ss : gmap string (list Row.t))
    : gmap string (list Row.t) :=
  alter (delete (Found.row found - 1)%nat) (Found.sheet found) ss.

Section Lifecycle.
Context `{Services}.

Definition setCell (found : Found.t) (set : Row.t -> Row.t) (w : World) : World :=
  with_spreadsheet (setValue found set (spreadsheet w)) w.

Definition updateRequestStatus (now : Millis)
    (requestId newStatus approverRole rejectionReason : string) (w : World)
    : Result * World :=
  if negb (JS.nonEmpty requestId) || negb (JS.nonEmpty newStatus) then
    (Failure StatusArgumentsRequired, w)
  else
    match findRequestRow (spreadsheet w) requestId with
    | Some found =>
        let currentStatus := Row.status (getRow found (spreadsheet w)) in
        if negb (String.eqb currentStatus "Pending") then
          (Failure AlreadyProcessed, w)
        else
          let w := setCell found (Row.set_status newStatus) w in
          let approverDisplayName :=
            if JS.nonEmpty approverRole then approverRole
            else DEFAULT_ADMIN_NAME in
          let w := setCell found (Row.set_approver approverDisplayName) w in
          let w := setCell found (Row.set_approvalTimestamp (Some now)) w in
          let w :=
            if String.eqb newStatus "Rejected" && JS.nonEmpty rejectionReason
            then setCell found (Row.set_adminCheckinNote rejectionReason) w
            else w in
          let w := removeCache w in
          let employeeName := Row.employeeName (getRow found (spreadsheet w)) in
          let employeeId := Row.employeeId (getRow found (spreadsheet w)) in
          let w :=
            sendTelegramNotification
              (StatusDecided employeeName employeeId requestId newStatus
                 approverDisplayName
                 (if String.eqb newStatus "Rejected" then rejectionReason
                  else ""))
              w in
          (Success ("Request " +:+ requestId +:+ " status updated."), w)
    | None => (Failure NotFoundForStatusUpdate, w)
    end.

Definition deleteLeaveRequest (requestId : string) (w : World) : Result * World :=
  if negb (JS.nonEmpty requestId) then (Failure DeletionIdRequired, w)
  else
    match findRequestRow (spreadsheet w) requestId with
    | Some found =>
        let w := with_spreadsheet (deleteRow found (spreadsheet w)) w in
        let w := removeCache w in
        (Success ("Request " +:+ requestId +:+ " deleted."), w)
    | None => (Failure NotFoundForDeletion, w)
    end.

End Lifecycle.


(** ** Stats aggregator *)

Definition zeroStats : Stats := mkStats 0 JS.zero 0 0.

Definition sameMonth (requestDate : option Millis) (now : Millis) : bool :=
  match requestDate with
  | Some d =>
      (Date.getMonth d =? Date.getMonth now)
      && (Date.getFullYear d =? Date.getFullYear now)
  | None => false
  end.

(** The body of the loop over the rows of one sheet. *)
Definition countRow (now : Millis) (employeeId : string) (stats : Stats)
    (row : Row.t) : Stats :=
  let rowEmployeeId := JS.trim (Row.employeeId row) in
  if String.eqb rowEmployeeId employeeId then
    let requestDate := Row.startDate row in
    let status := Row.status row in
    if sameMonth requestDate now && String.eqb status "Approved" then
      let days := getNumericDayValue (Row.days row) in
      let leaveType := Row.leaveType row in
      mkStats (S (totalRequests stats)) (JS.plus (totalDays stats) days)
        (if String.eqb leaveType PERMISSION_SHEET_NAME
         then S (permissionCount stats) else permissionCount stats)
        (if String.eqb leaveType PERMISSION_SHEET_NAME then leaveCount stats
         else if String.eqb leaveType LEAVE_SHEET_NAME
              then S (leaveCount stats) else leaveCount stats)
    else stats
  else stats.

Definition countSheet (now : Millis) (employeeId : string)
    (ss : gmap string (list Row.t)) (stats : Stats) (sheetName : string) : Stats :=
  match ss !! sheetName with
  | Some sheet =>
      if (1 <? getLastRow sheet)%nat
      then fold_left (countRow now employeeId) (getValues sheet) stats
      else stats
  | None => stats
  end.

Definition getMonthlyLeaveStats (now : Millis) (employeeId : string)
    (ss : gmap string (list Row.t)) : Stats :=
  fold_left (countSheet now employeeId ss) ALL_LEAVE_SHEETS zeroStats.

(** ** Escalation scanner: the decision for one row *)

Definition PLACEHOLDER_PHOTO : string :=
  "https://placehold.co/100x100/EFEFEF/AAAAAA&text=No+Img".

(** The value of [newNotificationStatus] once the row has been examined;
    [None] also when the row is skipped. *)
Definition escalation (now : Millis) (row : Row.t) : option string :=
  let status := Row.status row in
  let checkInTimestamp := Row.checkInTimestamp row in
  let notificationSent := Row.notificationSent row in
  if Date.present checkInTimestamp || negb (String.eqb status "Approved") then None
  else
    let numericDays := getNumericDayValue (Row.days row) in
    let startDate := option_map (Date.setHours 0 0) (Row.startDate row) in
    let approvalTimestamp := Row.approvalTimestamp row in
    if JS.equalsNumber numericDays JS.half then
      let morningApprovalDeadline := option_map (Date.setHours 8 31) startDate in
      let checkinDeadline1130 := option_map (Date.setHours 11 30) startDate in
      let checkinDeadline1430 := option_map (Date.setHours 14 30) startDate in
      if Date.ltb approvalTimestamp morningApprovalDeadline then
        if Date.gtb (Some now) checkinDeadline1430
           && String.eqb notificationSent "OverdueHalfDay_1"
        then Some "OverdueHalfDay_2"
        else if Date.gtb (Some now) checkinDeadline1130
                && negb (JS.nonEmpty notificationSent)
        then Some "OverdueHalfDay_1"
        else None
      else None
    else
      let overdueDayDeadline :=
        option_map (fun d => Date.setHours 5 0 (Date.addDays 1 d)) startDate in
      let overdueTimeDeadline := option_map (Date.setHours 18 0) startDate in
      if Date.gtb (Some now) overdueDayDeadline
         && negb (String.eqb notificationSent "OverdueDay")
      then Some "OverdueDay"
      else if Date.gtb (Some now) overdueTimeDeadline
              && Date.ltb (Some now) overdueDayDeadline
              && negb (JS.nonEmpty notificationSent)
      then Some "OverdueTime"
      else None.

(** ** Duplicate guard *)

(** The loop over the rows: [continue] on the request being edited, [return]
    on the first other match. *)
Fixpoint duplicateIn (employeeId : string) (requestDate : option Millis)
    (currentRequestId : string) (data : list Row.t) : bool :=
  match data with
  | [] => false
  | row :: data' =>
      let existingRequestId := Row.requestId row in
      let existingEmployeeId := JS.trim (Row.employeeId row) in
      if String.eqb existingEmployeeId employeeId then
        let existingDate := option_map (Date.setHours 0 0) (Row.startDate row) in
        if Date.sameTime existingDate requestDate then
          if JS.nonEmpty currentRequestId
             && String.eqb existingRequestId currentRequestId
          then duplicateIn employeeId requestDate currentRequestId data'
          else true
        else duplicateIn employeeId requestDate currentRequestId data'
      else duplicateIn employeeId requestDate currentRequestId data'
  end.

Section Operations.
Context `{Services}.

(** The [isDuplicate] field of the result; [requestId] is the optional id of
    the request being edited, empty when absent. *)
Definition checkForDuplicateRequests (employeeId startDate leaveType
    requestId : string) (ss : gmap string (list Row.t)) : bool :=
  match ss !! leaveType with
  | Some sheet =>
      if (getLastRow sheet <? 2)%nat then false
      else
        let requestDate := option_map (Date.setHours 0 0) (parseDate startDate) in
        duplicateIn employeeId requestDate requestId (getValues sheet)
  | None => false
  end.

(** *** Attachments *)

Definition isBase64Image (str : string) : bool := JS.startsWith "data:image" str.

Definition docTruthy (d : DocValue) : bool :=
  match d with
  | DocText s => JS.nonEmpty s
  | DocJson _ => true
  end.

(** The [map] over the images with its uploads, [index] being the position
    of the first entry; entries mapped to [null] are already dropped. *)
Fixpoint saveImages (images : list (option string)) (index : nat)
    (baseFileName folderId : string) (d : Drive) : list string * Drive :=
  match images with
  | [] => ([], d)
  | image :: images' =>
      let '(url, d) :=
        match image with
        | Some base64Data =>
            if isBase64Image base64Data then
              saveImageToDrive base64Data
                (baseFileName +:+ "_" +:+ pretty (index + 1)%nat) folderId d
            else if JS.startsWith "http" base64Data then (Some base64Data, d)
            else (None, d)
        | None => (None, d)
        end in
      let '(urls, d) := saveImages images' (S index) baseFileName folderId d in
      (match url with Some u => u :: urls | None => urls end, d)
  end.

Definition saveMultipleImagesToDrive (imageDataJson : DocValue)
    (baseFileName folderId : string) (d : Drive) : DocValue * Drive :=
  let images :=
    match imageDataJson with
    | DocJson items => items
    | DocText s => if isBase64Image s then [Some s] else []
    end in
  match images with
  | [] => (DocText "", d)
  | _ =>
      let '(urls, d) := saveImages images 0 baseFileName folderId d in
      (DocJson (map Some urls), d)
  end.

(** A [null] written to a cell leaves it empty. *)
Definition orEmpty (url : option string) : string := default "" url.

(** *** Submission *)

Definition submitLeaveRequest (now : Millis) (leaveDetails : LeaveDetails.t)
    (w : World) : Result * World :=
  if negb (JS.nonEmpty (LeaveDetails.leaveType leaveDetails))
     || negb (JS.nonEmpty (LeaveDetails.employeeId leaveDetails))
  then (Failure InvalidLeaveDetails, w)
  else
    let employeeId := LeaveDetails.employeeId leaveDetails in
    let leaveType := LeaveDetails.leaveType leaveDetails in
    let locationLink :=
      if JS.truthy (LeaveDetails.latitude leaveDetails)
         && JS.truthy (LeaveDetails.longitude leaveDetails)
      then "http://maps.google.com/maps?q="
           +:+ numberToString (LeaveDetails.latitude leaveDetails) +:+ ","
           +:+ numberToString (LeaveDetails.longitude leaveDetails)
      else "" in
    (* ss.getSheetByName(leaveType) || ss.insertSheet(leaveType) *)
    let w :=
      match spreadsheet w !! leaveType with
      | Some _ => w
      | None => with_spreadsheet (<[leaveType := []]> (spreadsheet w)) w
      end in
    let timestamp := now in
    let requestId := "REQ-" +:+ pretty timestamp in
    let '(selfieUrl, w) :=
      if JS.nonEmpty (LeaveDetails.selfieImageData leaveDetails)
         && isBase64Image (LeaveDetails.selfieImageData leaveDetails)
      then
        let '(url, d) :=
          saveImageToDrive (LeaveDetails.selfieImageData leaveDetails)
            ("Selfie_" +:+ employeeId +:+ "_" +:+ requestId)
            SELFIE_DRIVE_FOLDER_ID (drive w) in
        (orEmpty url, with_drive d w)
      else ("", w) in
    let '(documentUrlsJson, w) :=
      if docTruthy (LeaveDetails.documentImageData leaveDetails) then
        let '(urls, d) :=
          saveMultipleImagesToDrive (LeaveDetails.documentImageData leaveDetails)
            ("Document_" +:+ employeeId +:+ "_" +:+ requestId)
            DOCUMENT_DRIVE_FOLDER_ID (drive w) in
        (urls, with_drive d w)
      else (DocText "", w) in
    let '(paymentReceiptUrl, w) :=
      if JS.nonEmpty (LeaveDetails.paymentReceiptImageData leaveDetails) then
        let '(url, d) :=
          saveImageToDrive (LeaveDetails.paymentReceiptImageData leaveDetails)
            ("Payment_" +:+ employeeId +:+ "_" +:+ requestId)
            PAYMENT_RECEIPT_DRIVE_FOLDER_ID (drive w) in
        (orEmpty url, with_drive d w)
      else ("", w) in
    let monthlyStats := getMonthlyLeaveStats now employeeId (spreadsheet w) in
    (* sheet.appendRow([...]) *)
    let newRow :=
      Row.mk timestamp requestId employeeId
        (LeaveDetails.employeeName leaveDetails) leaveType
        (parseDate (LeaveDetails.startDate leaveDetails))
        (parseDate (LeaveDetails.endDate leaveDetails))
        (LeaveDetails.numberOfDays leaveDetails)
        (LeaveDetails.reason leaveDetails) "Pending" "" selfieUrl None
        documentUrlsJson locationLink None "" "" "" paymentReceiptUrl "" in
    let w :=
      with_spreadsheet
        (alter (fun sheet : list Row.t => app sheet [newRow]) leaveType
           (spreadsheet w)) w in
    let w :=
      sendTelegramNotification
        (NewRequest requestId leaveDetails selfieUrl locationLink
           paymentReceiptUrl monthlyStats) w in
    (Success requestId, w).

(** *** Edit and resubmit *)

Definition updateLeaveRequest (details : LeaveDetails.t) (w : World)
    : Result * World :=
  let requestId := LeaveDetails.requestId details in
  let employeeId := LeaveDetails.employeeId details in
  if negb (JS.nonEmpty requestId) then (Failure UpdateIdRequired, w)
  else
    match findRequestRow (spreadsheet w) requestId with
    | None => (Failure (NotFoundForUpdate requestId), w)
    | Some found =>
        let selfieUrl := LeaveDetails.selfieImageData details in
        let '(selfieUrl, w) :=
          if isBase64Image selfieUrl then
            let '(url, d) :=
              saveImageToDrive selfieUrl
                ("Selfie_" +:+ employeeId +:+ "_" +:+ requestId +:+ "_updated")
                SELFIE_DRIVE_FOLDER_ID (drive w) in
            (orEmpty url, with_drive d w)
          else (selfieUrl, w) in
        let documentUrlsJson := LeaveDetails.documentImageData details in
        let '(documentUrlsJson, w) :=
          match documentUrlsJson with
          | DocText s =>
              if isBase64Image s then
                let '(newUrl, d) :=
                  saveImageToDrive s
                    ("Document_" +:+ employeeId +:+ "_" +:+ requestId
                     +:+ "_updated_1")
                    DOCUMENT_DRIVE_FOLDER_ID (drive w) in
                (DocJson [newUrl], with_drive d w)
              else if JS.nonEmpty s && JS.startsWith "[" s then
                let '(urls, d) :=
                  saveMultipleImagesToDrive documentUrlsJson
                    ("Document_" +:+ employeeId +:+ "_" +:+ requestId
                     +:+ "_updated")
                    DOCUMENT_DRIVE_FOLDER_ID (drive w) in
                (urls, with_drive d w)
              else (documentUrlsJson, w)
          | DocJson _ =>
              let '(urls, d) :=
                saveMultipleImagesToDrive documentUrlsJson
                  ("Document_" +:+ employeeId +:+ "_" +:+ requestId
                   +:+ "_updated")
                  DOCUMENT_DRIVE_FOLDER_ID (drive w) in
              (urls, with_drive d w)
          end in
        let w := setCell found (Row.set_leaveType (LeaveDetails.leaveType details)) w in
        let w := setCell found
                   (Row.set_startDate (parseDate (LeaveDetails.startDate details))) w in
        let w := setCell found
                   (Row.set_endDate (parseDate (LeaveDetails.endDate details))) w in
        let w := setCell found (Row.set_days (LeaveDetails.numberOfDays details)) w in
        let w := setCell found (Row.set_reason (LeaveDetails.reason details)) w in
        let w := setCell found (Row.set_selfiePhoto selfieUrl) w in
        let w := setCell found (Row.set_docPhoto documentUrlsJson) w in
        let w := setCell found (Row.set_status "Pending") w in
        let w := setCell found (Row.set_approver "") w in
        let w := setCell found (Row.set_approvalTimestamp None) w in
        let w := setCell found (Row.set_adminCheckinNote "") w in
        let w :=
          sendTelegramNotification
            (Resubmitted (LeaveDetails.employeeName details) employeeId requestId)
            w in
        (Success requestId, w)
    end.

(** *** Check-in *)

Definition submitCheckIn (now : Millis) (checkInData : CheckInData.t)
    (w : World) : Result * World :=
  let requestId := CheckInData.requestId checkInData in
  let latitude := CheckInData.latitude checkInData in
  let longitude := CheckInData.longitude checkInData in
  if negb (JS.nonEmpty requestId)
     || negb (JS.nonEmpty (CheckInData.selfieData checkInData))
  then (Failure InvalidCheckInData, w)
  else if negb (JS.truthy latitude && JS.truthy longitude) then
    (Failure CheckInLocationMissing, w)
  else
    let locationLink :=
      "https://maps.google.com/?q=" +:+ numberToString latitude +:+ ","
      +:+ numberToString longitude in
    let distance :=
      calculateDistance latitude longitude CHECKIN_TARGET_LATITUDE
        CHECKIN_TARGET_LONGITUDE in
    if JS.ltb CHECKIN_ALLOWED_RADIUS_METERS distance then
      (Failure (CheckInTooFar distance), w)
    else
      match findRequestRow (spreadsheet w) requestId with
      | Some found =>
          let employeeId := Row.employeeId (getRow found (spreadsheet w)) in
          let fileName := "CheckIn_" +:+ employeeId +:+ "_" +:+ requestId in
          let '(photoUrl, d) :=
            saveImageToDrive (CheckInData.selfieData checkInData) fileName
              SELFIE_DRIVE_FOLDER_ID (drive w) in
          let photoUrl := orEmpty photoUrl in
          let w := with_drive d w in
          let w := setCell found (Row.set_checkInTimestamp (Some now)) w in
          let w := setCell found (Row.set_checkInPhoto photoUrl) w in
          let w := setCell found (Row.set_checkInLocationLink locationLink) w in
          let employeeName := Row.employeeName (getRow found (spreadsheet w)) in
          let w :=
            sendTelegramNotification
              (CheckedIn employeeName employeeId requestId photoUrl locationLink)
              w in
          (Success "Check-in successful.", w)
      | None => (Failure NotFoundForCheckIn, w)
      end.

Definition adminSubmitCheckIn (now : Millis) (requestId adminRole : string)
    (w : World) : Result * World :=
  if negb (JS.nonEmpty requestId) || negb (JS.nonEmpty adminRole) then
    (Failure AdminCheckInArgumentsRequired, w)
  else
    match findRequestRow (spreadsheet w) requestId with
    | Some found =>
        let employeeName := Row.employeeName (getRow found (spreadsheet w)) in
        let employeeId := Row.employeeId (getRow found (spreadsheet w)) in
        let w := setCell found (Row.set_checkInTimestamp (Some now)) w in
        let w := setCell found
                   (Row.set_adminCheckinNote ("Checked in by: " +:+ adminRole)) w in
        let w := setCell found (Row.set_checkInLocationLink "N/A (Admin)") w in
        let w :=
          sendTelegramNotification
            (AdminCheckedIn employeeName employeeId requestId adminRole) w in
        (Success "Admin check-in successful.", w)
    | None => (Failure NotFoundForAdminCheckIn, w)
    end.

(** *** Escalation scanner *)

(** The message built for an escalating row. *)
Definition overdueMessage (employeeMap : gmap string EmployeeInfo)
    (row : Row.t) (newNotificationStatus : string) : Message :=
  let employeeId := JS.trim (Row.employeeId row) in
  let photoUrl :=
    match employeeMap !! employeeId with
    | Some employeeInfo =>
        if JS.nonEmpty (photoUrl employeeInfo)
        then photoUrl employeeInfo else PLACEHOLDER_PHOTO
    | None => PLACEHOLDER_PHOTO
    end in
  Overdue newNotificationStatus (Row.employeeName row) employeeId
    (Row.reason row) (Row.days row) (Row.approvalTimestamp row) photoUrl.

(** The loop over the snapshot [values], [i] being the index of its first
    row: one message and one write of the mark per escalating row. *)
Fixpoint scanRows (now : Millis) (employeeMap : gmap string EmployeeInfo)
    (values : list Row.t) (i : nat) (w : World) : World :=
  match values with
  | [] => w
  | row :: values' =>
      let w :=
        match escalation now row with
        | Some newNotificationStatus =>
            let w :=
              sendTelegramNotification
                (overdueMessage employeeMap row newNotificationStatus) w in
            setCell (Found.mk PERMISSION_SHEET_NAME (i + 2))
              (Row.set_notificationSent newNotificationStatus) w
        | None => w
        end in
      scanRows now employeeMap values' (S i) w
  end.

Definition checkForOverdueCheckIns (now : Millis) (w : World) : World :=
  let '(employeeMap, w) :=
    match employeeCache w with
    | Some employeeMap => (employeeMap, w)
    | None => (employeeSheet w, with_cache (Some (employeeSheet w)) w)
    end in
  match spreadsheet w !! PERMISSION_SHEET_NAME with
  | Some sheet =>
      if (getLastRow sheet <? 2)%nat then w
      else scanRows now employeeMap (getValues sheet) 0 w
  | None => w
  end.

(** *** The operations as one step function *)

Inductive Outcome : Type := Approved | Rejected.

Definition outcomeName (outcome : Outcome) : string :=
  match outcome with
  | Approved => "Approved"
  | Rejected => "Rejected"
  end.

Inductive Operation : Type :=
| Submit (leaveDetails : LeaveDetails.t)
| Decide (requestId : string) (outcome : Outcome) (actor reason : string)
| Resubmit (details : LeaveDetails.t)
| CheckIn (checkInData : CheckInData.t)
| AdminCheckIn (requestId adminRole : string)
| Delete (requestId : string)
| Scan.

Definition step (now : Millis) (op : Operation) (w : World) : World :=
  match op with
  | Submit leaveDetails => snd (submitLeaveRequest now leaveDetails w)
  | Decide requestId outcome actor reason =>
      snd (updateRequestStatus now requestId (outcomeName outcome) actor reason w)
  | Resubmit details => snd (updateLeaveRequest details w)
  | CheckIn checkInData => snd (submitCheckIn now checkInData w)
  | AdminCheckIn requestId adminRole =>
      snd (adminSubmitCheckIn now requestId adminRole w)
  | Delete requestId => snd (deleteLeaveRequest requestId w)
  | Scan => checkForOverdueCheckIns now w
  end.

(** A sequence of operations, each with the time at which it runs. *)
Definition run (ops : list (Millis * Operation)) (w : World) : World :=
  fold_left (fun w timed => step (fst timed) (snd timed) w) ops w.

End Operations.


(** ** Vocabulary of the duration parser's properties *)








(** The decimal numeral with the given digits, and the integer it denotes. *)
Definition digitChar (d : nat) : ascii := ascii_of_nat (48 + d).
Arguments digitChar : simpl never.

Fixpoint numeral (digits : list nat) : string :=
  match digits with
  | [] => EmptyString
  | d :: digits' => String (digitChar d) (numeral digits')
  end.



(** The binary64 numbers: a significand below 2^53 and an exponent from
    -1074 to 971, written with the unit 2^-1074. *)
Definition binary64 (q : Q) : Prop :=
  exists m j : Z,
    Z.abs m < 2 ^ 53 /\ 0 <= j <= 2045 /\ (q == (m * 2 ^ j # 2 ^ 1074))%Q.







(** The step of [trimStart]. *)
Inductive Trims : string -> string -> Prop :=
| Trims_done (s : string) : JS.trimStart s = s -> Trims s s
| Trims_1 c1 s1 t : JS.isWhiteSpace c1 = true -> Trims s1 t -> Trims (String c1 s1) t
| Trims_2 c1 c2 s2 t :
    JS.isWhiteSpace c1 = false -> JS.isWhiteSpace2 c1 c2 = true ->
    Trims s2 t -> Trims (String c1 (String c2 s2)) t
| Trims_3 c1 c2 c3 s3 t :
    JS.isWhiteSpace c1 = false -> JS.isWhiteSpace2 c1 c2 = false ->
    JS.isWhiteSpace3 c1 c2 c3 = true ->
    Trims s3 t -> Trims (String c1 (String c2 (String c3 s3))) t.

(** ** Vocabulary of the duplicate guard's properties *)

(** Both dates are valid and fall on the same calendar day. *)
Definition sameDay (a b : option Millis) : Prop :=
  exists t t', a = Some t /\ b = Some t'
               /\ Date.setHours 0 0 t = Date.setHours 0 0 t'.

(** The row is the request being edited: an id to exclude was supplied and
    it is the row's. *)
Definition isExcluded (excludeRequestId : string) (row : Row.t) : Prop :=
  excludeRequestId <> "" /\ Row.requestId row = excludeRequestId.

(** ** Vocabulary of the stats aggregator's properties *)

(** The row is included in the statistics of [employeeId] for the month of
    [now]. *)
Definition qualifies (now : Millis) (employeeId : string) (row : Row.t) : bool :=
  String.eqb (JS.trim (Row.employeeId row)) employeeId
  && sameMonth (Row.startDate row) now
  && String.eqb (Row.status row) "Approved".

(** The data rows of the named sheets, in the order in which a loop over the
    names and then over the rows reads them. *)
Definition rowsOf (names : list string) (ss : gmap string (list Row.t))
    : list Row.t :=
  flat_map (fun sheetName =>
              match ss !! sheetName with
              | Some sheet => getValues sheet
              | None => []
              end) names.

(** The data rows of all partitions. *)
Definition scannedRows (ss : gmap string (list Row.t)) : list Row.t :=
  rowsOf ALL_LEAVE_SHEETS ss.

Definition hasLeaveType (leaveType : string) (row : Row.t) : bool :=
  String.eqb (Row.leaveType row) leaveType.

(** The durations of the rows, added up in order from [start]. *)
Definition sumDays (start : JS.Total) (rows : list Row.t) : JS.Total :=
  fold_left (fun total row => JS.plus total (getNumericDayValue (Row.days row)))
    rows start.

(** ** Vocabulary of the resubmission's properties *)

(** The payload carries no inline image: neither the selfie nor a document
    is a [data:image] text, so nothing is uploaded. *)
Definition noInlineImages (details : LeaveDetails.t) : Prop :=
  isBase64Image (LeaveDetails.selfieImageData details) = false
  /\ match LeaveDetails.documentImageData details with
     | DocText s => isBase64Image s = false
     | DocJson items => forall s, In (Some s) items -> isBase64Image s = false
     end.

(** The entries of a document list that are kept as they are. *)
Definition keptUrls (items : list (option string)) : list string :=
  flat_map (fun item =>
              match item with
              | Some s => if JS.startsWith "http" s then [s] else []
              | None => []
              end) items.

(** What a resubmission stores for a document field without inline image. *)
Definition storedDocuments (doc : DocValue) : DocValue :=
  match doc with
  | DocText s =>
      if JS.nonEmpty s && JS.startsWith "[" s then DocText "" else DocText s
  | DocJson [] => DocText ""
  | DocJson items => DocJson (map Some (keptUrls items))
  end.

(** The row as a resubmission leaves it, [selfieUrl] and [documentUrlsJson]
    being what is stored for the attachments. *)
Definition resubmittedRow `{Services} (details : LeaveDetails.t)
    (selfieUrl : string) (documentUrlsJson : DocValue) (row : Row.t) : Row.t :=
  Row.mk (Row.timestamp row) (Row.requestId row) (Row.employeeId row)
    (Row.employeeName row)
    (LeaveDetails.leaveType details)
    (parseDate (LeaveDetails.startDate details))
    (parseDate (LeaveDetails.endDate details))
    (LeaveDetails.numberOfDays details)
    (LeaveDetails.reason details)
    "Pending" ""
    selfieUrl
    None
    documentUrlsJson
    (Row.locationLink row) (Row.checkInTimestamp row) (Row.checkInPhoto row)
    (Row.checkInLocationLink row) (Row.notificationSent row)
    (Row.paymentReceipt row)
    "".

(** ** Vocabulary of the scanner's properties *)

(** The messages one run of the scanner sends for a row, and the row it
    leaves. *)
Definition notificationsFor (employeeMap : gmap string EmployeeInfo)
    (now : Millis) (row : Row.t) : list Message :=
  match escalation now row with
  | Some newNotificationStatus =>
      [overdueMessage employeeMap row newNotificationStatus]
  | None => []
  end.

Definition scanRow (now : Millis) (row : Row.t) : Row.t :=
  match escalation now row with
  | Some newNotificationStatus =>
      Row.set_notificationSent newNotificationStatus row
  | None => row
  end.

(** The position of a mark in the tier order; 0 for no mark. *)
Definition tierRank (mark : string) : nat :=
  if String.eqb mark "OverdueHalfDay_1" then 1
  else if String.eqb mark "OverdueHalfDay_2" then 2
  else if String.eqb mark "OverdueTime" then 3
  else if String.eqb mark "OverdueDay" then 4
  else 0.

(** An Approved request without check-in, for the day that starts at
    [midnight]. *)
Definition awaitsCheckIn (midnight : Millis) (row : Row.t) : Prop :=
  Row.status row = "Approved"
  /\ Row.checkInTimestamp row = None
  /\ exists startDate, Row.startDate row = Some startDate
                       /\ Date.setHours 0 0 startDate = midnight.

Definition isHalfDay (row : Row.t) : bool :=
  JS.equalsNumber (getNumericDayValue (Row.days row)) JS.half.

(** ** Vocabulary of the lifecycle's properties *)

(** How an operation may change the status of an existing row. *)
Definition statusChange (op : Operation) (before after : string) : Prop :=
  after = before
  \/ match op with
     | Decide _ outcome _ _ => before = "Pending" /\ after = outcomeName outcome
     | Resubmit _ => after = "Pending"
     | _ => False
     end.

(** The row keeps its request id and its status changes as [op] allows. *)
Definition statusStep (op : Operation) (before after : Row.t) : Prop :=
  Row.requestId after = Row.requestId before
  /\ statusChange op (Row.status before) (Row.status after).

(** The operation is neither a resubmission nor a deletion. *)
Definition keepsDecisions (op : Operation) : Prop :=
  match op with
  | Resubmit _ | Delete _ => False
  | _ => True
  end.

(** The row was decided: its status is Approved or Rejected. *)
Definition isDecided (row : Row.t) : Prop :=
  Row.status row = "Approved" \/ Row.status row = "Rejected".

(** Every row of [ss] is found at the same place in [ss'], related by [R]. *)
Definition rowsRelated (R : Row.t -> Row.t -> Prop)
    (ss ss' : gmap string (list Row.t)) : Prop :=
  forall sheetName sheet k row,
    ss !! sheetName = Some sheet -> sheet !! k = Some row ->
    exists sheet' row',
      ss' !! sheetName = Some sheet' /\ sheet' !! k = Some row' /\ R row row'.

(** ** Vocabulary of the check-in's properties *)

(** The row as the employee's check-in leaves it. *)
Definition checkedInRow (now : Millis) (photoUrl locationLink : string)
    (row : Row.t) : Row.t :=
  Row.mk (Row.timestamp row) (Row.requestId row) (Row.employeeId row)
    (Row.employeeName row) (Row.leaveType row) (Row.startDate row)
    (Row.endDate row) (Row.days row) (Row.reason row) (Row.status row)
    (Row.approver row) (Row.selfiePhoto row) (Row.approvalTimestamp row)
    (Row.docPhoto row) (Row.locationLink row)
    (Some now) photoUrl locationLink
    (Row.notificationSent row) (Row.paymentReceipt row)
    (Row.adminCheckinNote row).

(** The row as the admin-assisted check-in leaves it. *)
Definition adminCheckedInRow (now : Millis) (adminRole : string)
    (row : Row.t) : Row.t :=
  Row.mk (Row.timestamp row) (Row.requestId row) (Row.employeeId row)
    (Row.employeeName row) (Row.leaveType row) (Row.startDate row)
    (Row.endDate row) (Row.days row) (Row.reason row) (Row.status row)
    (Row.approver row) (Row.selfiePhoto row) (Row.approvalTimestamp row)
    (Row.docPhoto row) (Row.locationLink row)
    (Some now) (Row.checkInPhoto row) "N/A (Admin)"
    (Row.notificationSent row) (Row.paymentReceipt row)
    ("Checked in by: " +:+ adminRole).

(** The check-in data pass the input and location checks. *)
Definition validCheckIn `{Services} (checkInData : CheckInData.t) : Prop :=
  CheckInData.requestId checkInData <> ""
  /\ CheckInData.selfieData checkInData <> ""
  /\ JS.truthy (CheckInData.latitude checkInData) = true
  /\ JS.truthy (CheckInData.longitude checkInData) = true
  /\ JS.ltb CHECKIN_ALLOWED_RADIUS_METERS
       (calculateDistance (CheckInData.latitude checkInData)
          (CheckInData.longitude checkInData) CHECKIN_TARGET_LATITUDE
          CHECKIN_TARGET_LONGITUDE) = false.

Definition checkInLink `{Services} (checkInData : CheckInData.t) : string :=
  "https://maps.google.com/?q="
  +:+ numberToString (CheckInData.latitude checkInData) +:+ ","
  +:+ numberToString (CheckInData.longitude checkInData).

(** ** A sample platform and sample data *)

Module Sample.

(** A date-only text [YYYY-MM-DD], read as midnight of that day. *)
Definition parseIsoDate (s : string) : option Millis :=
  let '(y, ny, r1) := JS.readDigits 0 0 s in
  match r1 with
  | String c1 r1' =>
      let '(m, nm, r2) := JS.readDigits 0 0 r1' in
      match r2 with
      | String c2 r2' =>
          let '(d, nd, r3) := JS.readDigits 0 0 r2' in
          if Ascii.eqb c1 "-" && Ascii.eqb c2 "-" && (ny =? 4)%nat
             && (nm =? 2)%nat && (nd =? 2)%nat && negb (JS.nonEmpty r3)
          then Some (Date.make y m d 0 0) else None
      | EmptyString => None
      end
  | EmptyString => None
  end.

(** A file store that answers the successive uploads with the URLs queued in
    its state, and fails once the queue is empty. *)
Definition services : Services := {|
  Drive := list (option string);
  saveImageToDrive := fun _ _ _ d =>
    match d with
    | [] => (None, [])
    | url :: d' => (url, d')
    end;
  parseDate := parseIsoDate;
  calculateDistance := fun _ _ _ _ => JS.Finite 0;
  numberToString := fun _ => "0"
|}.

Definition world (ss : gmap string (list Row.t)) (d : list (option string))
    : @World services :=
  @mkWorld services ss [] None ∅ d.

(** A request row with the given identity, day, duration and decision. *)
Definition request (requestId employeeId leaveType : string)
    (startDate : Millis) (days : DayValue) (status : string)
    (approvalTimestamp : option Millis) : Row.t :=
  Row.mk startDate requestId employeeId "Dara" leaveType (Some startDate)
    (Some startDate) days "family" status
    (match approvalTimestamp with Some _ => "Admin" | None => "" end) ""
    approvalTimestamp (DocText "") "" None "" "" "" "" "".

Definition details (requestId employeeId leaveType startDate : string)
    (numberOfDays : DayValue) (selfieImageData : string) : LeaveDetails.t :=
  LeaveDetails.mk requestId employeeId "Dara" leaveType startDate startDate
    numberOfDays "family" selfieImageData (DocText "") "" JS.NaN JS.NaN.

(** One Approved request of E123 for 2024-05-01 in the Leave partition. *)
Definition leaveLedger : gmap string (list Row.t) :=
  {[ LEAVE_SHEET_NAME :=
       [blankRow;
        request "REQ-1" "E123" LEAVE_SHEET_NAME (Date.make 2024 5 1 0 0)
          (DayNumber 1) "Approved" (Some (Date.make 2024 4 30 9 0))] ]}.

(** Three Approved requests of E1 in May 2024 with durations 1, half a day
    and 2, one Approved request in April 2024, and a request of E2. *)
Definition statsLedger : gmap string (list Row.t) :=
  {[ PERMISSION_SHEET_NAME :=
       [blankRow;
        request "REQ-10" "E1" PERMISSION_SHEET_NAME (Date.make 2024 5 2 0 0)
          (DayNumber 1) "Approved" (Some (Date.make 2024 5 1 9 0));
        request "REQ-11" " E1 " PERMISSION_SHEET_NAME (Date.make 2024 5 9 0 0)
          (DayText "មួយព្រឹក") "Approved" (Some (Date.make 2024 5 8 9 0));
        request "REQ-12" "E2" PERMISSION_SHEET_NAME (Date.make 2024 5 9 0 0)
          (DayNumber 1) "Approved" (Some (Date.make 2024 5 8 9 0))];
     LEAVE_SHEET_NAME :=
       [blankRow;
        request "REQ-13" "E1" LEAVE_SHEET_NAME (Date.make 2024 4 20 0 0)
          (DayNumber 3) "Approved" (Some (Date.make 2024 4 19 9 0));
        request "REQ-14" "E1" LEAVE_SHEET_NAME (Date.make 2024 5 20 0 0)
          (DayText "2") "Approved" (Some (Date.make 2024 5 19 9 0));
        request "REQ-15" "E1" LEAVE_SHEET_NAME (Date.make 2024 5 27 0 0)
          (DayNumber 1) "Pending" None] ]}.

(** One Pending full-day Permission request of E1 for 2024-05-01. *)
Definition pendingLedger : gmap string (list Row.t) :=
  {[ PERMISSION_SHEET_NAME :=
       [blankRow;
        request "REQ-20" "E1" PERMISSION_SHEET_NAME (Date.make 2024 5 1 0 0)
          (DayNumber 1) "Pending" None] ]}.

(** An Approved, annotated request and an edit of it that carries a new
    inline selfie. *)
Definition approvedLedger : gmap string (list Row.t) :=
  {[ PERMISSION_SHEET_NAME :=
       [blankRow;
        Row.set_adminCheckinNote "Checked in by: Admin"
          (request "REQ-30" "E1" PERMISSION_SHEET_NAME (Date.make 2024 5 1 0 0)
             (DayNumber 1) "Approved" (Some (Date.make 2024 4 30 9 0)))] ]}.

Definition editWithSelfie : LeaveDetails.t :=
  details "REQ-30" "E1" PERMISSION_SHEET_NAME "2024-05-02" (DayNumber 2)
    "data:image/jpeg;base64,AAAA".

Definition editWithUrl : LeaveDetails.t :=
  details "REQ-30" "E1" PERMISSION_SHEET_NAME "2024-05-02" (DayNumber 2)
    "https://drive.example/selfie-1".

(** An Approved request of E1 that was checked in at noon of 2024-05-01,
    and a check-in payload for it. *)
Definition checkedInLedger : gmap string (list Row.t) :=
  {[ PERMISSION_SHEET_NAME :=
       [blankRow;
        checkedInRow (Date.make 2024 5 1 12 0) "https://drive.example/first"
          "https://maps.google.com/?q=1,1"
          (request "REQ-40" "E1" PERMISSION_SHEET_NAME (Date.make 2024 5 1 0 0)
             (DayNumber 1) "Approved" (Some (Date.make 2024 4 30 9 0)))] ]}.

Definition checkInPayload (requestId : string) : CheckInData.t :=
  CheckInData.mk requestId "data:image/jpeg;base64,BBBB"
    CHECKIN_TARGET_LATITUDE CHECKIN_TARGET_LONGITUDE.

(** A full-day and a half-day Permission request of E1 for 2024-05-01,
    approved that morning at 09:00 and at 08:00. *)
Definition fullDayRequest : Row.t :=
  request "REQ-50" "E1" PERMISSION_SHEET_NAME (Date.make 2024 5 1 0 0)
    (DayNumber 1) "Approved" (Some (Date.make 2024 5 1 9 0)).

Definition halfDayRequest : Row.t :=
  request "REQ-51" "E1" PERMISSION_SHEET_NAME (Date.make 2024 5 1 0 0)
    (DayText "មួយព្រឹក") "Approved" (Some (Date.make 2024 5 1 8 0)).

End Sample.

(** * Queries, webhook, employee directory and admin dashboard

    The read side of [src/code.js] ([getRequestStatus], [getUserStatus],
    [getLeaveRequestDetails]), the Telegram webhook [doPost] with the
    buttons [submitLeaveRequest] attaches to its notification, the employee
    check ([checkEmployeeId], [verifyEmployeeAndGetStatus]) and the admin
    dashboard ([getLeaveRequests], [getDashboardStats],
    [getAdminDashboardData]). *)

(** ** Text utilities *)

Module Text.

(** [s.split(separator)] for a separator of one character. *)
Fixpoint split (separator : ascii) (s : string) : list string :=
  match s with
  | EmptyString => [EmptyString]
  | String c s' =>
      if Ascii.eqb c separator then EmptyString :: split separator s'
      else match split separator s' with
           | part :: parts => String c part :: parts
           | [] => [String c EmptyString]
           end
  end.

(** [s.padStart(targetLength, "0")] *)
Definition padStart (targetLength : nat) (s : string) : string :=
  String.concat "" (repeat "0" (targetLength - String.length s)) +:+ s.

(** The character [c] occurs in [s]. *)
Fixpoint contains (c : ascii) (s : string) : bool :=
  match s with
  | EmptyString => false
  | String c' s' => Ascii.eqb c' c || contains c s'
  end.

End Text.

(** ** ISO renderings of a date *)

Module Iso.

(** The year of an ISO text: four digits, or a sign and six digits outside
    0000..9999. *)
Definition year (y : Z) : string :=
  if (0 <=? y) && (y <=? 9999) then Text.padStart 4 (pretty y)
  else (if y <? 0 then "-" else "+") +:+ Text.padStart 6 (pretty (Z.abs y)).

(** [d.toISOString()], the script's time zone being [timezoneOffset]
    milliseconds ahead of UTC. *)
Definition toISOString (timezoneOffset : Z) (t : Millis) : string :=
  let utc := t - timezoneOffset in
  let '(y, m, d) := Date.civilFromDays (Date.dayNumber utc) in
  let rest := utc mod Date.MS_PER_DAY in
  year y +:+ "-" +:+ Text.padStart 2 (pretty m) +:+ "-"
  +:+ Text.padStart 2 (pretty d) +:+ "T"
  +:+ Text.padStart 2 (pretty (rest / Date.MS_PER_HOUR)) +:+ ":"
  +:+ Text.padStart 2 (pretty (rest mod Date.MS_PER_HOUR / Date.MS_PER_MINUTE))
  +:+ ":"
  +:+ Text.padStart 2 (pretty (rest mod Date.MS_PER_MINUTE / 1000)) +:+ "."
  +:+ Text.padStart 3 (pretty (rest mod 1000)) +:+ "Z".

(** [d.toISOString().split("T")[0]] *)
Definition datePart (timezoneOffset : Z) (t : Millis) : string :=
  default "" (Text.split "T" (toISOString timezoneOffset t) !! 0%nat).

End Iso.

(** ** Status of one request *)

Module RequestStatus.

(** The answers of [getRequestStatus]. *)
Inductive t : Type :=
| IdRequired       (* { status: "Error", message: "No Request ID provided." } *)
| NotFound         (* { status: "Not Found" } *)
| AdminCheckedIn (leaveType : string)
| Rejected (leaveType reason : string)
| Plain (statusValue leaveType : string).

End RequestStatus.

Definition getRequestStatus (requestId : string)
    (ss : gmap string (list Row.t)) : RequestStatus.t :=
  if negb (JS.nonEmpty requestId) then RequestStatus.IdRequired
  else
    match findRequestRow ss requestId with
    | Some found =>
        let rowData := getRow found ss in
        let statusValue := Row.status rowData in
        let leaveType := Row.leaveType rowData in
        let checkInTimestamp := Row.checkInTimestamp rowData in
        let adminCheckinNote := Row.adminCheckinNote rowData in
        if String.eqb statusValue "Approved" && Date.present checkInTimestamp
           && JS.nonEmpty adminCheckinNote
        then RequestStatus.AdminCheckedIn leaveType
        else if String.eqb statusValue "Rejected" then
          RequestStatus.Rejected leaveType
            (if JS.nonEmpty adminCheckinNote then adminCheckinNote else "")
        else RequestStatus.Plain statusValue leaveType
    | None => RequestStatus.NotFound
    end.

(** ** Status of an employee *)

Module UserStatus.

(** The answers of [getUserStatus]. *)
Inductive t : Type :=
| IdRequired       (* { status: "Error", message: "Employee ID is required." } *)
| Pending (requestId : string)
| Approved (requestId : string)
| AdminCheckedIn (requestId : string)
| Rejected (requestId reason : string)
| Clear.

(** The four variables the scan fills. *)
Record Slots : Type := mkSlots {
  pendingRequest : option string;
  approvedUncheckedRequest : option string;
  adminCheckedInRequest : option string;
  rejectedRequest : option (string * string)
}.

Definition noSlots : Slots := mkSlots None None None None.

End UserStatus.

(** The loop over the rows of one sheet, [rows] being the data rows from
    the last to the first; it stops at the first Pending row. *)
Fixpoint scanUserRows (employeeId : string) (rows : list Row.t)
    (slots : UserStatus.Slots) : UserStatus.Slots :=
  match rows with
  | [] => slots
  | row :: rows' =>
      let reqEmployeeId := JS.trim (Row.employeeId row) in
      if String.eqb reqEmployeeId employeeId then
        let reqId := Row.requestId row in
        let reqStatus := Row.status row in
        let leaveType := Row.leaveType row in
        let checkInTimestamp := Row.checkInTimestamp row in
        let adminCheckinNote := Row.adminCheckinNote row in
        if String.eqb reqStatus "Pending" then
          UserStatus.mkSlots (Some reqId)
            (UserStatus.approvedUncheckedRequest slots)
            (UserStatus.adminCheckedInRequest slots)
            (UserStatus.rejectedRequest slots)
        else
          let rejectedRequest :=
            match UserStatus.rejectedRequest slots with
            | None =>
                if String.eqb reqStatus "Rejected"
                then Some (reqId,
                           if JS.nonEmpty adminCheckinNote
                           then adminCheckinNote else "")
                else None
            | Some r => Some r
            end in
          let adminCheckedInRequest :=
            match UserStatus.adminCheckedInRequest slots with
            | None =>
                if String.eqb reqStatus "Approved"
                   && String.eqb leaveType PERMISSION_SHEET_NAME
                   && Date.present checkInTimestamp
                   && JS.nonEmpty adminCheckinNote
                then Some reqId else None
            | Some r => Some r
            end in
          let approvedUncheckedRequest :=
            match UserStatus.approvedUncheckedRequest slots with
            | None =>
                if String.eqb reqStatus "Approved"
                   && String.eqb leaveType PERMISSION_SHEET_NAME
                   && negb (Date.present checkInTimestamp)
                then Some reqId else None
            | Some r => Some r
            end in
          scanUserRows employeeId rows'
            (UserStatus.mkSlots (UserStatus.pendingRequest slots)
               approvedUncheckedRequest adminCheckedInRequest rejectedRequest)
      else scanUserRows employeeId rows' slots
  end.

(** The loop over the sheets; it stops after the sheet in which a Pending
    request was found. *)
Fixpoint scanUserSheets (employeeId : string) (names : list string)
    (ss : gmap string (list Row.t)) (slots : UserStatus.Slots)
    : UserStatus.Slots :=
  match names with
  | [] => slots
  | sheetName :: names' =>
      let slots :=
        match ss !! sheetName with
        | Some sheet =>
            if (1 <? getLastRow sheet)%nat
            then scanUserRows employeeId (rev (getValues sheet)) slots
            else slots
        | None => slots
        end in
      match UserStatus.pendingRequest slots with
      | Some _ => slots
      | None => scanUserSheets employeeId names' ss slots
      end
  end.

Definition getUserStatus (employeeId : string)
    (ss : gmap string (list Row.t)) : UserStatus.t :=
  if negb (JS.nonEmpty employeeId) then UserStatus.IdRequired
  else
    let slots :=
      scanUserSheets employeeId ALL_LEAVE_SHEETS ss UserStatus.noSlots in
    match UserStatus.pendingRequest slots with
    | Some reqId => UserStatus.Pending reqId
    | None =>
        match UserStatus.approvedUncheckedRequest slots with
        | Some reqId => UserStatus.Approved reqId
        | None =>
            match UserStatus.adminCheckedInRequest slots with
            | Some reqId => UserStatus.AdminCheckedIn reqId
            | None =>
                match UserStatus.rejectedRequest slots with
                | Some (reqId, reason) => UserStatus.Rejected reqId reason
                | None => UserStatus.Clear
                end
            end
        end
    end.

(** ** Details of one request *)

Module Details.

Record t : Type := mk {
  employeeId : string;
  employeeName : string;
  leaveType : string;
  startDate : string;
  endDate : string;
  numberOfDays : DayValue;
  reason : string;
  status : string;
  approver : string;
  selfiePhotoUrl : string;
  approvalTimestamp : string;
  documentPhotoUrl : DocValue;
  locationLink : string;
  checkInTimestamp : string;
  checkInPhotoUrl : string;
  checkInLocationLink : string;
  paymentReceiptUrl : string
}.

(** The answers of [getLeaveRequestDetails]; a failure is the exception
    that the [catch] turns into "Error fetching details: ...". *)
Inductive Result : Type :=
| IdRequired       (* "Request ID is required." *)
| NotFound         (* "Request details not found." *)
| InvalidTimeValue (* RangeError of [toISOString] on an invalid date *)
| RowIsNotDefined  (* ReferenceError: the name [row] is not declared *)
| Found (details : t).

End Details.

Definition getLeaveRequestDetails (timezoneOffset : Z) (requestId : string)
    (ss : gmap string (list Row.t)) : Details.Result :=
  if negb (JS.nonEmpty requestId) then Details.IdRequired
  else
    match findRequestRow ss requestId with
    | Some found =>
        let rowData := getRow found ss in
        match Row.startDate rowData with
        | None => Details.InvalidTimeValue
        | Some startDate =>
            match Row.endDate rowData with
            | None => Details.InvalidTimeValue
            | Some endDate =>
                let approvalTimestamp :=
                  match Row.approvalTimestamp rowData with
                  | Some t => Iso.toISOString timezoneOffset t
                  | None => ""
                  end in
                match Row.checkInTimestamp rowData with
                | Some _ => Details.RowIsNotDefined
                | None =>
                    Details.Found
                      (Details.mk (Row.employeeId rowData)
                         (Row.employeeName rowData) (Row.leaveType rowData)
                         (Iso.datePart timezoneOffset startDate)
                         (Iso.datePart timezoneOffset endDate)
                         (Row.days rowData) (Row.reason rowData)
                         (Row.status rowData) (Row.approver rowData)
                         (Row.selfiePhoto rowData) approvalTimestamp
                         (Row.docPhoto rowData)
                         (Row.locationLink rowData) ""
                         (Row.checkInPhoto rowData)
                         (Row.checkInLocationLink rowData)
                         (Row.paymentReceipt rowData))
                end
            end
        end
    | None => Details.NotFound
    end.

(** ** Telegram webhook *)

Definition ADMIN_ROLES : gmap string string :=
  <["110011DR" := "ជំនួយការពិសេសលោកគ្រូដារ៉ូ"]>
    (<["mmk110011" := "គណៈគ្រប់គ្រង លោកគ្រូ ពៅ ដារ៉ូ"]> ∅).

(** The [callback_data] of the two buttons under the notification of a new
    request. *)
Module Keyboard.

Definition adminKey : string := "mmk110011".

Definition approve (requestId : string) : string :=
  "approve_" +:+ requestId +:+ "_" +:+ adminKey.

Definition reject (requestId : string) : string :=
  "reject_" +:+ requestId +:+ "_" +:+ adminKey.
End Keyboard.

(** The [callback_query] of an update: the data of the pressed button and
    the message that carries the button. *)
Module CallbackQuery.

Record t : Type := mk {
  data : string;
  chatId : Z;
  messageId : Z;
  text : string
}.
End CallbackQuery.

(** What [editTelegramMessage] is asked to show in place of the message:
    the original text followed by the decision, or by the failure. *)
Inductive Edit : Type :=
| ActionDone (chatId messageId : Z) (originalText action approverName : string)
| ActionFailed (chatId messageId : Z) (originalText : string)
    (result : option Error).

Section Webhook.
Context `{Services}.

(** [doPost(e)]: [callbackQuery] is the [callback_query] of the posted
    update, [None] when the update has none or cannot be read. The ledger
    part of the answer is the world; the answer to Telegram is always
    [{ status: "ok" }]. Keys that [ADMIN_ROLES] inherits from
    [Object.prototype] are outside the model. *)
Definition doPost (now : Millis) (callbackQuery : option CallbackQuery.t)
    (w : World) : option Edit * World :=
  match callbackQuery with
  | Some q =>
      let data := CallbackQuery.data q in
      let chatId := CallbackQuery.chatId q in
      let messageId := CallbackQuery.messageId q in
      let dataParts := Text.split "_" data in
      let action := default "" (dataParts !! 0%nat) in
      (* a missing part is [undefined], as falsy as the empty text *)
      let requestId := default "" (dataParts !! 1%nat) in
      let adminKey := dataParts !! 2%nat in
      let approverName :=
        default DEFAULT_ADMIN_NAME (adminKey ≫= (fun k => ADMIN_ROLES !! k)) in
      let '(result, w) :=
        if String.eqb action "approve" then
          let '(r, w) :=
            updateRequestStatus now requestId "Approved" approverName "" w in
          (Some r, w)
        else if String.eqb action "reject" then
          let '(r, w) :=
            updateRequestStatus now requestId "Rejected" approverName
              "Rejected via Telegram" w in
          (Some r, w)
        else (None, w) in
      match result with
      | Some (Success _) =>
          (Some (ActionDone chatId messageId (CallbackQuery.text q) action
                   approverName), w)
      | Some (Failure e) =>
          (Some (ActionFailed chatId messageId (CallbackQuery.text q) (Some e)),
           w)
      | None =>
          (Some (ActionFailed chatId messageId (CallbackQuery.text q) None), w)
      end
  | None => (None, w)
  end.

End Webhook.

(** ** Employee check *)

(** The answers of [checkEmployeeId]. An id that names a member of
    [Object.prototype] is answered like a known one, with the [name] of
    that member (none for the prototype itself) and no photo. *)
Inductive EmployeeCheck : Type :=
| EmployeeIdMissing    (* the message that asks for an id *)
| EmployeeIdUnknown    (* the message that the id is not right *)
| EmployeeKnown (name photoUrl : string)
| EmployeeInherited (name : option string).

(** The answers of [verifyEmployeeAndGetStatus]. *)
Inductive Verification : Type :=
| NotVerified (employeeCheck : EmployeeCheck)
| StatusUnavailable
| Verified (name photoUrl : string) (leaveStatus : UserStatus.t)
| VerifiedInherited (name : option string) (leaveStatus : UserStatus.t).

Section Directory.
Context `{Services}.

(** [checkEmployeeId({ employeeId })]: the directory is read from the cache,
    which is filled from the employee sheet when it is empty. The directory
    is a plain object, [employeeSheet w] and the cache holding its own
    properties. *)
Definition checkEmployeeId (employeeId : string) (w : World)
    : EmployeeCheck * World :=
  if negb (JS.nonEmpty employeeId) || negb (JS.nonEmpty (JS.trim employeeId))
  then (EmployeeIdMissing, w)
  else
    let trimmedEmployeeId := JS.trim employeeId in
    let '(employeeMap, w) :=
      match employeeCache w with
      | Some employeeMap => (employeeMap, w)
      | None => (employeeSheet w, with_cache (Some (employeeSheet w)) w)
      end in
    match JS.get employeeMap trimmedEmployeeId with
    | JS.Own employeeInfo =>
        (EmployeeKnown (name employeeInfo) (photoUrl employeeInfo), w)
    | JS.Inherited member => (EmployeeInherited (JS.memberName member), w)
    | JS.Undefined => (EmployeeIdUnknown, w)
    end.

Definition verifyEmployeeAndGetStatus (employeeId : string) (w : World)
    : Verification * World :=
  if negb (JS.nonEmpty employeeId) then (NotVerified EmployeeIdMissing, w)
  else
    let '(employeeCheck, w) := checkEmployeeId employeeId w in
    match employeeCheck with
    | EmployeeKnown name photoUrl =>
        let leaveStatus := getUserStatus employeeId (spreadsheet w) in
        match leaveStatus with
        | UserStatus.IdRequired => (StatusUnavailable, w)
        | _ => (Verified name photoUrl leaveStatus, w)
        end
    | EmployeeInherited name =>
        let leaveStatus := getUserStatus employeeId (spreadsheet w) in
        match leaveStatus with
        | UserStatus.IdRequired => (StatusUnavailable, w)
        | _ => (VerifiedInherited name leaveStatus, w)
        end
    | _ => (NotVerified employeeCheck, w)
    end.

End Directory.

(** ** Admin dashboard *)

(** [array.slice(start, end)] for integer bounds. *)
Definition slice {A : Type} (startIndex endIndex : Z) (l : list A) : list A :=
  let len := Z.of_nat (length l) in
  let k :=
    if startIndex <? 0 then Z.max (len + startIndex) 0
    else Z.min startIndex len in
  let final :=
    if endIndex <? 0 then Z.max (len + endIndex) 0 else Z.min endIndex len in
  take (Z.to_nat (final - k)) (drop (Z.to_nat k) l).

(** [array.sort((a, b) => key(b) - key(a))]: the sort is stable, so among
    equal keys the earlier element stays first. *)
Fixpoint insertDescending {A : Type} (key : A -> Z) (x : A) (sorted : list A)
    : list A :=
  match sorted with
  | [] => [x]
  | y :: rest =>
      if key x <? key y then y :: insertDescending key x rest
      else x :: sorted
  end.

Definition sortDescending {A : Type} (key : A -> Z) (l : list A) : list A :=
  foldr (insertDescending key) [] l.

(** [[...new Set(l)]]: the first occurrence of every value, in order. *)
Fixpoint uniqueFrom (seen l : list Z) : list Z :=
  match l with
  | [] => []
  | x :: l' =>
      if existsb (Z.eqb x) seen then uniqueFrom seen l'
      else x :: uniqueFrom (x :: seen) l'
  end.

Module Request.

(** One entry of the list [getLeaveRequests] returns. An ISO text is
    represented by what it denotes: [timestamp], [approvalTimestamp] and
    [checkInTimestamp] by the time value of the [toISOString] text ([None]
    for the empty text), [startDate] and [endDate] by the day number, in
    UTC, of the date text [toISOString().split("T")[0]]. *)
Record t : Type := mk {
  timestamp : Millis;
  requestId : string;
  employeeId : string;
  employeeName : option string;          (* [None] is [undefined] *)
  leaveType : string;
  startDate : Z;
  endDate : Z;
  numberOfDays : DayValue;
  reason : string;
  status : string;
  approver : string;
  selfiePhotoUrl : string;
  approvalTimestamp : option Millis;
  documentPhotoUrl : DocValue;
  locationLink : string;
  checkInTimestamp : option Millis;
  checkInPhotoUrl : string;
  checkInLocationLink : string;
  paymentReceiptUrl : string;
  photoUrl : option string               (* [None] is [undefined] *)
}.

End Request.

Record DashboardStats : Type := mkDashboardStats {
  pending : nat;
  approved : nat;
  rejected : nat;
  checkedIn : nat;
  overdueTime : nat;
  overdueDay : nat;
  total : nat
}.

(** The [dateFilter] option: the two keywords, the date text of a day, or
    any other text, which is the start date of no request. *)
Inductive DateFilter : Type :=
| TodayAndPending
| AllDates
| OnDay (day : Z)
| OtherText.

Module DashboardOptions.

(** [page] and [limit] are integers when they are given; [filter] is empty
    when it is not given. *)
Record t : Type := mk {
  page : option Z;
  limit : option Z;
  filter : string;
  dateFilter : option DateFilter
}.
End DashboardOptions.

Module Dashboard.

Record t : Type := mk {
  requests : list Request.t;
  stats : DashboardStats;
  uniqueDates : list Z;
  currentPage : Z;
  totalPages : Z;
  totalRequests : nat
}.
End Dashboard.

Section AdminDashboard.
Context `{Services}.

(** The script's time zone is [timezoneOffset] milliseconds ahead of UTC. *)
Variable timezoneOffset : Z.

(** The day number of the date text of [t]. *)
Definition utcDay (t : Millis) : Z := Date.dayNumber (t - timezoneOffset).

(** [new Date(text)] for the date text of [day]: midnight UTC of that day. *)
Definition dateOnly (day : Z) : Millis := day * Date.MS_PER_DAY + timezoneOffset.

(** [employeeInfo.name] and [employeeInfo.photoUrl], where [employeeInfo]
    is [employeeMap[employeeId] || { name: row[...], photoUrl: "" }]. An
    employee id that names a member of [Object.prototype] finds that member
    in the map, which has a [name] of its own kind and no photo. *)
Definition employeeInfo_name (employeeInfo : JS.Property EmployeeInfo)
    (row : Row.t) : option string :=
  match employeeInfo with
  | JS.Own employeeInfo => Some (name employeeInfo)
  | JS.Inherited member => JS.memberName member
  | JS.Undefined => Some (Row.employeeName row)
  end.

Definition employeeInfo_photoUrl (employeeInfo : JS.Property EmployeeInfo)
    : option string :=
  match employeeInfo with
  | JS.Own employeeInfo => Some (photoUrl employeeInfo)
  | JS.Inherited _ => None
  | JS.Undefined => Some ""
  end.

(** The object built for one row; [None] when [toISOString] throws on an
    invalid date. *)
Definition toRequest (employeeMap : gmap string EmployeeInfo) (row : Row.t)
    : option Request.t :=
  let employeeId := JS.trim (Row.employeeId row) in
  let employeeInfo := JS.get employeeMap employeeId in
  match Row.startDate row, Row.endDate row with
  | Some startDate, Some endDate =>
      Some (Request.mk (Row.timestamp row) (Row.requestId row) employeeId
              (employeeInfo_name employeeInfo row) (Row.leaveType row)
              (utcDay startDate) (utcDay endDate) (Row.days row)
              (Row.reason row) (Row.status row) (Row.approver row)
              (Row.selfiePhoto row) (Row.approvalTimestamp row)
              (Row.docPhoto row) (Row.locationLink row)
              (Row.checkInTimestamp row) (Row.checkInPhoto row)
              (Row.checkInLocationLink row) (Row.paymentReceipt row)
              (employeeInfo_photoUrl employeeInfo))
  | _, _ => None
  end.

(** [values.map(row => ...)] *)
Fixpoint toRequests (employeeMap : gmap string EmployeeInfo)
    (values : list Row.t) : option (list Request.t) :=
  match values with
  | [] => Some []
  | row :: values' =>
      match toRequest employeeMap row with
      | Some request =>
          option_map (cons request) (toRequests employeeMap values')
      | None => None
      end
  end.

(** The loop over the sheets. *)
Fixpoint collectRequests (employeeMap : gmap string EmployeeInfo)
    (names : list string) (ss : gmap string (list Row.t))
    (allRequests : list Request.t) : option (list Request.t) :=
  match names with
  | [] => Some allRequests
  | sheetName :: names' =>
      match ss !! sheetName with
      | Some sheet =>
          if (1 <? getLastRow sheet)%nat then
            match toRequests employeeMap (getValues sheet) with
            | Some requests =>
                collectRequests employeeMap names' ss
                  (allRequests ++ requests)%list
            | None => None
            end
          else collectRequests employeeMap names' ss allRequests
      | None => collectRequests employeeMap names' ss allRequests
      end
  end.

(** [getLeaveRequests()]: the [data] of the result, [None] for the error
    result. *)
Definition getLeaveRequests (w : World) : option (list Request.t) * World :=
  let '(employeeMap, w) :=
    match employeeCache w with
    | Some employeeMap => (employeeMap, w)
    | None => (employeeSheet w, with_cache (Some (employeeSheet w)) w)
    end in
  match collectRequests employeeMap ALL_LEAVE_SHEETS (spreadsheet w) [] with
  | Some allRequests =>
      (Some (sortDescending Request.timestamp allRequests), w)
  | None => (None, w)
  end.

(** The body of the loop of [getDashboardStats]. *)
Definition countRequest (now : Millis) (stats : DashboardStats)
    (req : Request.t) : DashboardStats :=
  let todayStart := Date.setHours 0 0 now in
  let eveningTime := Date.setHours 18 0 now in
  let checkedIn' :=
    if Date.present (Request.checkInTimestamp req)
    then S (checkedIn stats) else checkedIn stats in
  let isStatus s := String.eqb (Request.status req) s in
  let pending' := if isStatus "Pending" then S (pending stats) else pending stats in
  let approved' :=
    if isStatus "Pending" then approved stats
    else if isStatus "Approved" then S (approved stats) else approved stats in
  let rejected' :=
    if isStatus "Pending" then rejected stats
    else if isStatus "Approved" then rejected stats
    else if isStatus "Rejected" then S (rejected stats) else rejected stats in
  let startDate := dateOnly (Request.startDate req) in
  let open :=
    String.eqb (Request.leaveType req) PERMISSION_SHEET_NAME
    && isStatus "Approved"
    && negb (Date.present (Request.checkInTimestamp req)) in
  let overdueDay' :=
    if open && (startDate <? todayStart)
    then S (overdueDay stats) else overdueDay stats in
  let overdueTime' :=
    if open && negb (startDate <? todayStart)
       && (startDate =? todayStart) && (eveningTime <? now)
    then S (overdueTime stats) else overdueTime stats in
  mkDashboardStats pending' approved' rejected' checkedIn' overdueTime'
    overdueDay' (total stats).

Definition getDashboardStats (now : Millis) (allRequests : list Request.t)
    : DashboardStats :=
  fold_left (countRequest now) allRequests
    (mkDashboardStats 0 0 0 0 0 0 (length allRequests)).

(** The date filter and the status filter of [getAdminDashboardData]. *)
Definition passesDateFilter (now : Millis) (dateFilter : DateFilter)
    (req : Request.t) : bool :=
  match dateFilter with
  | TodayAndPending =>
      let todayString := utcDay (Date.setHours 0 0 now) in
      (Request.startDate req =? todayString)
      || String.eqb (Request.status req) "Pending"
  | AllDates => true
  | OnDay day => Request.startDate req =? day
  | OtherText => false
  end.

Definition passesFilter (now : Millis) (filter : string) (req : Request.t)
    : bool :=
  let todayStart := Date.setHours 0 0 now in
  let eveningTime := Date.setHours 18 0 now in
  let startDate := dateOnly (Request.startDate req) in
  let open :=
    String.eqb (Request.leaveType req) PERMISSION_SHEET_NAME
    && String.eqb (Request.status req) "Approved"
    && negb (Date.present (Request.checkInTimestamp req)) in
  if String.eqb filter "All" then true
  else if String.eqb filter "CheckedIn"
  then Date.present (Request.checkInTimestamp req)
  else if String.eqb filter "OverdueTime"
  then open && (startDate =? todayStart) && (eveningTime <? now)
  else if String.eqb filter "OverdueDay"
  then open && (startDate <? todayStart)
  else String.eqb (Request.status req) filter
       && negb (Date.present (Request.checkInTimestamp req)).

(** [getAdminDashboardData(options)]: the [data] of the result, [None] for
    the error result; the clock is read once. *)
Definition getAdminDashboardData (now : Millis) (options : DashboardOptions.t)
    (w : World) : option Dashboard.t * World :=
  let page :=
    match DashboardOptions.page options with
    | Some p => if p =? 0 then 1 else p
    | None => 1
    end in
  let limit :=
    match DashboardOptions.limit options with
    | Some l => if l =? 0 then 12 else l
    | None => 12
    end in
  let filter :=
    if JS.nonEmpty (DashboardOptions.filter options)
    then DashboardOptions.filter options else "All" in
  let dateFilter :=
    default TodayAndPending (DashboardOptions.dateFilter options) in
  let '(requestsData, w) := getLeaveRequests w in
  match requestsData with
  | None => (None, w)
  | Some data =>
      let statsData := getDashboardStats now data in
      let uniqueDates :=
        sortDescending dateOnly (uniqueFrom [] (map Request.startDate data)) in
      let dataToPaginate := List.filter (passesDateFilter now dateFilter) data in
      let filteredRequests :=
        List.filter (passesFilter now filter) dataToPaginate in
      let totalRequests := length filteredRequests in
      let totalPages := - ((- Z.of_nat totalRequests) / limit) in
      let startIndex := (page - 1) * limit in
      let endIndex := page * limit in
      let paginatedRequests := slice startIndex endIndex filteredRequests in
      (Some (Dashboard.mk paginatedRequests statsData uniqueDates page
               totalPages totalRequests), w)
  end.

End AdminDashboard.

(** ** Vocabulary of the properties of the queries *)

(** The row as a decision leaves it. *)
Definition decidedRow (now : Millis) (newStatus approverRole
    rejectionReason : string) (row : Row.t) : Row.t :=
  Row.mk (Row.timestamp row) (Row.requestId row) (Row.employeeId row)
    (Row.employeeName row) (Row.leaveType row) (Row.startDate row)
    (Row.endDate row) (Row.days row) (Row.reason row)
    newStatus
    (if JS.nonEmpty approverRole then approverRole else DEFAULT_ADMIN_NAME)
    (Row.selfiePhoto row)
    (Some now)
    (Row.docPhoto row) (Row.locationLink row) (Row.checkInTimestamp row)
    (Row.checkInPhoto row) (Row.checkInLocationLink row)
    (Row.notificationSent row) (Row.paymentReceipt row)
    (if String.eqb newStatus "Rejected" && JS.nonEmpty rejectionReason
     then rejectionReason else Row.adminCheckinNote row).

(** No data row of a partition other than the one at [found] carries
    [requestId]. *)
Definition onlyAt (found : Found.t) (requestId : string)
    (ss : gmap string (list Row.t)) : Prop :=
  forall sheetName sheet k row,
    In sheetName ALL_LEAVE_SHEETS ->
    ss !! sheetName = Some sheet -> sheet !! k = Some row -> (1 <= k)%nat ->
    Row.requestId row = requestId ->
    sheetName = Found.sheet found /\ k = (Found.row found - 1)%nat.

(** The location link a submission stores. *)
Definition submissionLink `{Services} (leaveDetails : LeaveDetails.t) : string :=
  if JS.truthy (LeaveDetails.latitude leaveDetails)
     && JS.truthy (LeaveDetails.longitude leaveDetails)
  then "http://maps.google.com/maps?q="
       +:+ numberToString (LeaveDetails.latitude leaveDetails) +:+ ","
       +:+ numberToString (LeaveDetails.longitude leaveDetails)
  else "".

(** The row a submission appends, the three URLs being what the uploads
    gave. *)
Definition submittedRow `{Services} (now : Millis)
    (leaveDetails : LeaveDetails.t) (selfieUrl : string)
    (documentUrlsJson : DocValue) (paymentReceiptUrl : string) : Row.t :=
  Row.mk now ("REQ-" +:+ pretty now) (LeaveDetails.employeeId leaveDetails)
    (LeaveDetails.employeeName leaveDetails)
    (LeaveDetails.leaveType leaveDetails)
    (parseDate (LeaveDetails.startDate leaveDetails))
    (parseDate (LeaveDetails.endDate leaveDetails))
    (LeaveDetails.numberOfDays leaveDetails)
    (LeaveDetails.reason leaveDetails) "Pending" "" selfieUrl None
    documentUrlsJson (submissionLink leaveDetails) None "" "" ""
    paymentReceiptUrl "".

(** ** Vocabulary of the properties of the employee's status *)

(** The row belongs to the employee: its employee id, trimmed, is the id
    asked for. *)
Definition ownedBy (employeeId : string) (row : Row.t) : bool :=
  String.eqb (JS.trim (Row.employeeId row)) employeeId.

(** The four kinds of row the status scan looks for. *)
Definition isPending (row : Row.t) : bool :=
  String.eqb (Row.status row) "Pending".

Definition awaitsReturn (row : Row.t) : bool :=
  String.eqb (Row.status row) "Approved"
  && String.eqb (Row.leaveType row) PERMISSION_SHEET_NAME
  && negb (Date.present (Row.checkInTimestamp row)).

Definition returnedByAdmin (row : Row.t) : bool :=
  String.eqb (Row.status row) "Approved"
  && String.eqb (Row.leaveType row) PERMISSION_SHEET_NAME
  && Date.present (Row.checkInTimestamp row)
  && JS.nonEmpty (Row.adminCheckinNote row).

Definition isRejected (row : Row.t) : bool :=
  String.eqb (Row.status row) "Rejected".

(** The data rows in the order in which the status scan reads them: the
    partitions in their order, each from its last row to its first. *)
Definition userRows (ss : gmap string (list Row.t)) : list Row.t :=
  flat_map (fun sheetName =>
              rev (match ss !! sheetName with
                   | Some sheet => getValues sheet
                   | None => []
                   end)) ALL_LEAVE_SHEETS.

(** The first row of the employee of the given kind, in that order. *)
Definition firstOf (employeeId : string) (kind : Row.t -> bool)
    (ss : gmap string (list Row.t)) : option Row.t :=
  List.find (fun row => ownedBy employeeId row && kind row) (userRows ss).

(** The row keeps the employee from being clear: it is of one of the four
    kinds. *)
Definition blocks (row : Row.t) : bool :=
  isPending row || awaitsReturn row || returnedByAdmin row || isRejected row.

(** ** Vocabulary of the properties of the webhook *)

(** The edit that reports the result of a decision. *)
Definition buttonResult (chatId messageId : Z)
    (text action approverName : string) (r : Result) : Edit :=
  match r with
  | Success _ => ActionDone chatId messageId text action approverName
  | Failure e => ActionFailed chatId messageId text (Some e)
  end.

(** ** Sample data for the queries and the webhook *)

Module Scenario.

(** 08:00 and 12:00 of 2024-05-02. *)
Definition morning : Millis := Date.make 2024 5 2 8 0.

Definition noon : Millis := Date.make 2024 5 2 12 0.

(** The ledger with one Pending request of E1, and no directory. *)
Definition world : @World Sample.services :=
  Sample.world Sample.pendingLedger [].

(** A new full-day Permission request of E1 for 2024-05-03. *)
Definition newRequest : LeaveDetails.t :=
  Sample.details "" "E1" PERMISSION_SHEET_NAME "2024-05-03" (DayNumber 1) "".

(** The same request for a partition that has no sheet yet. *)
Definition homeRequest : LeaveDetails.t :=
  Sample.details "" "E1" HOME_LEAVE_SHEET_NAME "2024-05-03" (DayNumber 1) "".

(** The header row and the Pending request of the sample ledger. *)
Definition pendingRequest : Row.t :=
  Sample.request "REQ-20" "E1" PERMISSION_SHEET_NAME (Date.make 2024 5 1 0 0)
    (DayNumber 1) "Pending" None.

(** A new Leave request of E123 for 2024-05-03, to be added to the sample
    ledger of the Leave partition. *)
Definition leaveRequest : LeaveDetails.t :=
  Sample.details "" "E123" LEAVE_SHEET_NAME "2024-05-03" (DayNumber 1) "".

Definition leaveWorld : @World Sample.services :=
  Sample.world Sample.leaveLedger [].

Definition approvedLeave : Row.t :=
  Sample.request "REQ-1" "E123" LEAVE_SHEET_NAME (Date.make 2024 5 1 0 0)
    (DayNumber 1) "Approved" (Some (Date.make 2024 4 30 9 0)).

(** A world whose directory knows E1 and whose cache is empty. *)
Definition staffed (ss : gmap string (list Row.t)) : @World Sample.services :=
  @mkWorld Sample.services ss [] None
    {[ "E1" := mkEmployeeInfo "Dara" "https://drive.example/dara" ]} [].

(** A time zone seven hours ahead of UTC, and 19:00 of 2024-05-02. *)
Definition zone : Z := 7 * Date.MS_PER_HOUR.

Definition evening : Millis := Date.make 2024 5 2 19 0.

(** An Approved Permission request without check-in whose start date is
    the date text of 2024-05-02. *)
Definition openRequest : Request.t :=
  Request.mk morning "REQ-60" "E1" (Some "Dara") PERMISSION_SHEET_NAME
    (Date.daysFromCivil 2024 5 2) (Date.daysFromCivil 2024 5 2) (DayNumber 1)
    "family" "Approved" "Admin" "" (Some morning) (DocText "") "" None "" ""
    "" (Some "").

(** A ledger whose second request has an empty start date. *)
Definition brokenLedger : gmap string (list Row.t) :=
  {[ PERMISSION_SHEET_NAME :=
       [blankRow; pendingRequest; Row.set_startDate None pendingRequest] ]}.

(** The second page of two of the dashboard, without filters. *)
Definition secondPage : DashboardOptions.t :=
  DashboardOptions.mk (Some 2) (Some 2) "" (Some AllDates).

End Scenario.

(** ** Vocabulary of the properties of the dashboard *)

Definition hasStatus (status : string) (req : Request.t) : bool :=
  String.eqb (Request.status req) status.

Definition hasCheckIn (req : Request.t) : bool :=
  Date.present (Request.checkInTimestamp req).

(** An Approved Permission request without check-in. *)
Definition isOpen (req : Request.t) : bool :=
  String.eqb (Request.leaveType req) PERMISSION_SHEET_NAME
  && hasStatus "Approved" req && negb (hasCheckIn req).

(** The two overdue conditions of the dashboard. *)
Definition isOverdueDay (timezoneOffset : Z) (now : Millis) (req : Request.t)
    : bool :=
  isOpen req
  && (dateOnly timezoneOffset (Request.startDate req) <? Date.setHours 0 0 now).

Definition isOverdueTime (timezoneOffset : Z) (now : Millis) (req : Request.t)
    : bool :=
  isOpen req
  && (dateOnly timezoneOffset (Request.startDate req) =? Date.setHours 0 0 now)
  && (Date.setHours 18 0 now <? now).

(** The number of requests with a property. *)
Definition countOf (p : Request.t -> bool) (reqs : list Request.t) : nat :=
  length (List.filter p reqs).

(** The requests the dashboard pages through: the date filter, then the
    status filter, with the defaults of absent options. *)
Definition selectedRequests (timezoneOffset : Z) (now : Millis)
    (options : DashboardOptions.t) (data : list Request.t) : list Request.t :=
  List.filter
    (passesFilter timezoneOffset now
       (if JS.nonEmpty (DashboardOptions.filter options)
        then DashboardOptions.filter options else "All"))
    (List.filter
       (passesDateFilter timezoneOffset now
          (default TodayAndPending (DashboardOptions.dateFilter options)))
       data).

(** The list is in descending order of [key]. *)
Fixpoint sortedDescending {A : Type} (key : A -> Z) (l : list A) : Prop :=
  match l with
  | [] => True
  | x :: l' => (forall y, In y l' -> key y <= key x) /\ sortedDescending key l'
  end.

(** The directory the request list is built with: the cache, or the
    employee sheet when the cache is empty. *)
Definition directoryOf `{Services} (w : World) : gmap string EmployeeInfo :=
  default (employeeSheet w) (employeeCache w).

(** Reduces the projections of a world that an operation has rebuilt. *)
Ltac world_step :=
  cbn [fst snd spreadsheet sent employeeCache employeeSheet drive with_drive
       with_spreadsheet with_cache removeCache sendTelegramNotification setCell].

(** * Properties *)

Example parseFloat_1 : JS.parseFloat "1" = JS.Finite 1.
Proof. reflexivity. Qed.
Example parseFloat_2 : JS.parseFloat "  0.5" = JS.Finite (1 # 2).
Proof. reflexivity. Qed.
Example parseFloat_3 : JS.parseFloat "3abc" = JS.Finite 3.
Proof. reflexivity. Qed.
Example parseFloat_4 : JS.parseFloat "-1.25e1x" = JS.Finite (- 25 # 2).
Proof. reflexivity. Qed.
Example parseFloat_5 : JS.parseFloat "abc" = JS.NaN.
Proof. reflexivity. Qed.
Example parseFloat_6 : JS.parseFloat ".5e" = JS.Finite (1 # 2).
Proof. reflexivity. Qed.
Example parseFloat_7 : JS.parseFloat "1." = JS.Finite 1.
Proof. reflexivity. Qed.
Example parseFloat_8 : JS.parseFloat "." = JS.NaN.
Proof. reflexivity. Qed.
Example trim_1 : JS.trim "  E 1 " = "E 1".
Proof. reflexivity. Qed.

Example getNumericDayValue_1 : getNumericDayValue (DayText "ពេលយប់") = JS.half.
Proof. vm_compute. reflexivity. Qed.
Example getNumericDayValue_2 : getNumericDayValue (DayText "x") = JS.zero.
Proof. vm_compute. reflexivity. Qed.
Example date_1 : Date.getMonth (Date.make 2024 5 1 9 0) = 4 /\ Date.getFullYear (Date.make 2024 5 1 9 0) = 2024.
Proof. vm_compute. split; reflexivity. Qed.
Example date_2 : Date.civilFromDays (Date.dayNumber (Date.make 2024 2 29 23 59)) = (2024, 2, 29).
Proof. vm_compute. reflexivity. Qed.
Example date_3 : Date.make 1970 1 1 0 0 = 0.
Proof. vm_compute. reflexivity. Qed.

(** ** Rounding to binary64 *)


Section Rounding.

Variables (n d : Z).
Hypothesis Hn : 0 <= n.
Hypothesis Hd : 0 < d.

Let j := Z.max (Z.log2 (n / d)) 52 - 52.
Let m := JS.roundHalfEven n (d * 2 ^ j).







End Rounding.







Lemma binary64_Qeq (q q' : Q) : (q == q')%Q -> binary64 q -> binary64 q'.
Proof.
  intros Heq (m & j & Hm & Hj & Hq). exists m, j.
  split; [exact Hm|]. split; [exact Hj|]. rewrite <- Heq. exact Hq.
Qed.




(** ** White space *)

Lemma trimStart_Trims (s : string) : Trims s (JS.trimStart s).
Proof.
  remember (String.length s) as n eqn:Hn.
  revert s Hn. induction n as [n IH] using lt_wf_ind. intros s ->.
  destruct s as [|c1 s1]; [constructor; reflexivity|].
  cbn [JS.trimStart].
  destruct (JS.isWhiteSpace c1) eqn:H1.
  { apply Trims_1; [exact H1|].
    apply (IH (String.length s1)); [simpl; lia|reflexivity]. }
  destruct s1 as [|c2 s2].
  { constructor. cbn [JS.trimStart]. rewrite H1. reflexivity. }
  destruct (JS.isWhiteSpace2 c1 c2) eqn:H2.
  { apply Trims_2; [exact H1|exact H2|].
    apply (IH (String.length s2)); [simpl; lia|reflexivity]. }
  destruct s2 as [|c3 s3].
  { constructor. cbn [JS.trimStart]. rewrite H1, H2. reflexivity. }
  destruct (JS.isWhiteSpace3 c1 c2 c3) eqn:H3.
  { apply Trims_3; [exact H1|exact H2|exact H3|].
    apply (IH (String.length s3)); [simpl; lia|reflexivity]. }
  constructor. cbn [JS.trimStart]. rewrite H1, H2, H3. reflexivity.
Qed.

Lemma Trims_trimStart (s t : string) : Trims s t -> JS.trimStart s = t /\ JS.trimStart t = t.
Proof.
  induction 1 as [s Hs|c1 s1 t H1 _ [IH IH']|c1 c2 s2 t H1 H2 _ [IH IH']
                 |c1 c2 c3 s3 t H1 H2 H3 _ [IH IH']].
  - split; exact Hs.
  - split; [|exact IH']. cbn [JS.trimStart]. rewrite H1. exact IH.
  - split; [|exact IH']. cbn [JS.trimStart]. rewrite H1, H2. exact IH.
  - split; [|exact IH']. cbn [JS.trimStart]. rewrite H1, H2, H3. exact IH.
Qed.

Lemma trimStart_idem (s : string) : JS.trimStart (JS.trimStart s) = JS.trimStart s.
Proof. exact (proj2 (Trims_trimStart _ _ (trimStart_Trims s))). Qed.

(** White space in front of a text is skipped. *)
Lemma trimStart_app (ws s : string) :
  JS.trimStart ws = "" -> JS.trimStart (ws +:+ s) = JS.trimStart s.
Proof.
  intros Hws. pose proof (trimStart_Trims ws) as Ht. rewrite Hws in Ht.
  remember "" as e eqn:He.
  induction Ht as [w Hw|c1 s1 t H1 _ IH|c1 c2 s2 t H1 H2 _ IH
                  |c1 c2 c3 s3 t H1 H2 H3 _ IH]; subst.
  - reflexivity.
  - change (String c1 s1 +:+ s) with (String c1 (s1 +:+ s)).
    cbn [JS.trimStart]. rewrite H1. apply IH; [reflexivity|].
    cbn [JS.trimStart] in Hws. rewrite H1 in Hws. exact Hws.
  - change (String c1 (String c2 s2) +:+ s) with (String c1 (String c2 (s2 +:+ s))).
    cbn [JS.trimStart]. rewrite H1, H2. apply IH; [reflexivity|].
    cbn [JS.trimStart] in Hws. rewrite H1, H2 in Hws. exact Hws.
  - change (String c1 (String c2 (String c3 s3)) +:+ s)
      with (String c1 (String c2 (String c3 (s3 +:+ s)))).
    cbn [JS.trimStart]. rewrite H1, H2, H3. apply IH; [reflexivity|].
    cbn [JS.trimStart] in Hws. rewrite H1, H2, H3 in Hws. exact Hws.
Qed.

Lemma trimStart_length (s : string) :
  (String.length (JS.trimStart s) <= String.length s)%nat.
Proof.
  pose proof (trimStart_Trims s) as Ht.
  induction Ht; cbn [String.length] in *; lia.
Qed.

(** A text that [trimStart] leaves alone begins with no white space. *)
Lemma trimStart_fixed (c1 : ascii) (s1 : string) :
  JS.trimStart (String c1 s1) = String c1 s1 ->
  JS.isWhiteSpace c1 = false
  /\ match s1 with
     | String c2 s2 =>
         JS.isWhiteSpace2 c1 c2 = false
         /\ match s2 with
            | String c3 _ => JS.isWhiteSpace3 c1 c2 c3 = false
            | EmptyString => True
            end
     | EmptyString => True
     end.
Proof.
  intros Hfix.
  assert (Hshort : forall t : string,
            (String.length t < String.length (String c1 s1))%nat ->
            JS.trimStart t <> String c1 s1).
  { intros t Hlen Heq. pose proof (trimStart_length t) as Hle.
    rewrite Heq in Hle. lia. }
  cbn [JS.trimStart] in Hfix.
  destruct (JS.isWhiteSpace c1).
  { exfalso. apply (Hshort s1); [simpl; lia|exact Hfix]. }
  split; [reflexivity|]. destruct s1 as [|c2 s2]; [exact I|].
  destruct (JS.isWhiteSpace2 c1 c2).
  { exfalso. apply (Hshort s2); [simpl; lia|exact Hfix]. }
  split; [reflexivity|]. destruct s2 as [|c3 s3]; [exact I|].
  destruct (JS.isWhiteSpace3 c1 c2 c3); [|reflexivity].
  exfalso. apply (Hshort s3); [simpl; lia|exact Hfix].
Qed.

(** What [trimEnd] removes is white space. *)
Lemma trimEnd_split (s : string) :
  exists ws, s = JS.trimEnd s +:+ ws /\ JS.trimStart ws = "".
Proof.
  induction s as [|c s IH]; [exists ""; split; reflexivity|].
  cbn [JS.trimEnd].
  destruct (JS.trimStart (String c s)) as [|d t] eqn:Ht.
  - exists (String c s). split; [reflexivity|exact Ht].
  - destruct IH as (ws & Hs & Hws). exists ws. split; [|exact Hws].
    change (String c (JS.trimEnd s) +:+ ws) with (String c (JS.trimEnd s +:+ ws)).
    rewrite <- Hs. reflexivity.
Qed.

Lemma trimEnd_idem (s : string) : JS.trimEnd (JS.trimEnd s) = JS.trimEnd s.
Proof.
  induction s as [|c s IH]; [reflexivity|].
  cbn [JS.trimEnd].
  destruct (JS.trimStart (String c s)) as [|d t] eqn:Ht; [reflexivity|].
  cbn [JS.trimEnd].
  destruct (JS.trimStart (String c (JS.trimEnd s))) as [|d' t'] eqn:Ht'.
  - exfalso. destruct (trimEnd_split s) as (ws & Hs & Hws).
    assert (Hall : JS.trimStart (String c s) = "").
    { rewrite Hs.
      change (String c (JS.trimEnd s +:+ ws))
        with (String c (JS.trimEnd s) +:+ ws).
      rewrite (trimStart_app _ _ Ht'). exact Hws. }
    rewrite Hall in Ht. discriminate.
  - rewrite IH. reflexivity.
Qed.

Lemma trimStart_trimEnd (s : string) :
  JS.trimStart s = s -> JS.trimStart (JS.trimEnd s) = JS.trimEnd s.
Proof.
  intros Hfix. destruct (trimEnd_split s) as (ws & Hs & _).
  destruct (JS.trimEnd s) as [|c1 p1] eqn:Hp; [reflexivity|].
  rewrite Hs in Hfix.
  change (String c1 p1 +:+ ws) with (String c1 (p1 +:+ ws)) in Hfix.
  apply trimStart_fixed in Hfix. destruct Hfix as [H1 Hrest].
  cbn [JS.trimStart]. rewrite H1.
  destruct p1 as [|c2 p2]; [reflexivity|].
  change (String c2 p2 +:+ ws) with (String c2 (p2 +:+ ws)) in Hrest.
  destruct Hrest as [H2 Hrest]. rewrite H2.
  destruct p2 as [|c3 p3]; [reflexivity|].
  change (String c3 p3 +:+ ws) with (String c3 (p3 +:+ ws)) in Hrest.
  rewrite Hrest. reflexivity.
Qed.

Lemma trim_idem (s : string) : JS.trim (JS.trim s) = JS.trim s.
Proof.
  unfold JS.trim.
  rewrite (trimStart_trimEnd _ (trimStart_idem s)). apply trimEnd_idem.
Qed.

(** ** Duration parser *)


















Lemma append_empty_r (s : string) : s +:+ "" = s.
Proof.
  induction s as [|c s IH]; [reflexivity|].
  change (String c s +:+ "") with (String c (s +:+ "")). rewrite IH. reflexivity.
Qed.









Lemma numeral_head (d : nat) (digits : list nat) (rest : string) :
  (d < 10)%nat ->
  exists s, numeral (d :: digits) +:+ rest = String (digitChar d) s.
Proof. intros _. eexists. reflexivity. Qed.





(** ** Duplicate guard *)

Lemma sameTime_sameDay (a b : option Millis) :
  Date.sameTime (option_map (Date.setHours 0 0) a)
    (option_map (Date.setHours 0 0) b) = true
  <-> sameDay a b.
Proof.
  unfold sameDay. destruct a as [t|], b as [t'|]; simpl.
  - rewrite Z.eqb_eq. split.
    + intros Heq. exists t, t'. auto.
    + intros (x & y & [= <-] & [= <-] & Heq). exact Heq.
  - split; [discriminate|]. intros (x & y & _ & [=] & _).
  - split; [discriminate|]. intros (x & y & [=] & _).
  - split; [discriminate|]. intros (x & y & [=] & _).
Qed.

Lemma excluded_reflect (excludeRequestId : string) (row : Row.t) :
  JS.nonEmpty excludeRequestId
  && String.eqb (Row.requestId row) excludeRequestId = true
  <-> isExcluded excludeRequestId row.
Proof.
  unfold isExcluded. rewrite andb_true_iff, String.eqb_eq.
  destruct excludeRequestId; simpl; split; intros [Ha Hb]; split;
    congruence || auto.
Qed.

Lemma duplicateIn_true_iff (employeeId : string) (date : option Millis)
    (excludeRequestId : string) (data : list Row.t) :
  duplicateIn employeeId (option_map (Date.setHours 0 0) date)
    excludeRequestId data = true
  <-> exists row, In row data
        /\ JS.trim (Row.employeeId row) = employeeId
        /\ sameDay (Row.startDate row) date
        /\ ~ isExcluded excludeRequestId row.
Proof.
  induction data as [|row data IH]; simpl.
  - split; [discriminate|]. intros (row & [] & _).
  - destruct (String.eqb_spec (JS.trim (Row.employeeId row)) employeeId) as [He|He].
    + destruct (Date.sameTime _ _) eqn:Hd.
      * destruct (JS.nonEmpty excludeRequestId
                  && String.eqb (Row.requestId row) excludeRequestId) eqn:Hx.
        -- rewrite IH. split.
           ++ intros (r & Hin & Hr). exists r. split; [right; exact Hin|exact Hr].
           ++ intros (r & [<-|Hin] & Hr).
              ** apply excluded_reflect in Hx. tauto.
              ** exists r. split; assumption.
        -- split; [|reflexivity]. intros _. exists row.
           split; [left; reflexivity|]. split; [exact He|].
           split; [apply sameTime_sameDay; exact Hd|].
           intros Hex. apply excluded_reflect in Hex. congruence.
      * rewrite IH. split.
        -- intros (r & Hin & Hr). exists r. split; [right; exact Hin|exact Hr].
        -- intros (r & [<-|Hin] & Hr).
           ++ destruct Hr as (_ & Hs & _). apply sameTime_sameDay in Hs. congruence.
           ++ exists r. split; assumption.
    + rewrite IH. split.
      * intros (r & Hin & Hr). exists r. split; [right; exact Hin|exact Hr].
      * intros (r & [<-|Hin] & Hr).
        -- destruct Hr as (Hr & _). congruence.
        -- exists r. split; assumption.
Qed.

(** C5. The duplicate check answers true exactly when some request row of
    the category's partition, other than the one whose id is the supplied
    [excludeRequestId], has the employee id once trimmed and a start date on
    the same calendar day as the candidate date. In particular a request on
    the same day flags a new submission, and passing the id of the only such
    request does not. *)
Theorem checkForDuplicateRequests_iff `{Services}
    (employeeId startDate leaveType excludeRequestId : string)
    (ss : gmap string (list Row.t)) :
  (checkForDuplicateRequests employeeId startDate leaveType excludeRequestId ss
     = true
   <-> exists sheet row,
         ss !! leaveType = Some sheet /\ In row (getValues sheet)
         /\ JS.trim (Row.employeeId row) = employeeId
         /\ sameDay (Row.startDate row) (parseDate startDate)
         /\ ~ isExcluded excludeRequestId row)
  /\ (forall sheet row,
        ss !! leaveType = Some sheet -> In row (getValues sheet) ->
        JS.trim (Row.employeeId row) = employeeId ->
        sameDay (Row.startDate row) (parseDate startDate) ->
        checkForDuplicateRequests employeeId startDate leaveType "" ss = true
        /\ (Row.requestId row <> "" ->
            (forall other, In other (getValues sheet) ->
               JS.trim (Row.employeeId other) = employeeId ->
               sameDay (Row.startDate other) (parseDate startDate) ->
               Row.requestId other = Row.requestId row) ->
            checkForDuplicateRequests employeeId startDate leaveType
              (Row.requestId row) ss = false)).
Proof.
  assert (Hiff : forall exclude,
    checkForDuplicateRequests employeeId startDate leaveType exclude ss = true
    <-> exists sheet row,
         ss !! leaveType = Some sheet /\ In row (getValues sheet)
         /\ JS.trim (Row.employeeId row) = employeeId
         /\ sameDay (Row.startDate row) (parseDate startDate)
         /\ ~ isExcluded exclude row).
  { intros exclude. unfold checkForDuplicateRequests.
    destruct (ss !! leaveType) as [sheet|] eqn:Hs.
    - destruct (getLastRow sheet <? 2)%nat eqn:Hlast.
      + split; [discriminate|]. intros (sh & row & [= <-] & Hin & _).
        apply Nat.ltb_lt in Hlast. unfold getLastRow, getValues in *.
        destruct sheet as [|h [|r sheet]]; simpl in *; try contradiction; lia.
      + rewrite duplicateIn_true_iff. split.
        * intros (row & Hrow). exists sheet, row. split; [reflexivity|exact Hrow].
        * intros (sh & row & [= <-] & Hrow). exists row. exact Hrow.
    - split; [discriminate|]. intros (sh & row & [=] & _). }
  split; [apply Hiff|].
  intros sheet row Hs Hin He Hd. split.
  - apply Hiff. exists sheet, row. repeat split; try assumption.
    intros [Hne _]. congruence.
  - intros Hid Honly.
    destruct (checkForDuplicateRequests employeeId startDate leaveType
                (Row.requestId row) ss) eqn:Hc; [|reflexivity].
    apply Hiff in Hc. destruct Hc as (sh & other & Hs' & Hin' & He' & Hd' & Hx).
    rewrite Hs in Hs'. injection Hs' as <-.
    exfalso. apply Hx. split; [exact Hid|]. apply Honly; assumption.
Qed.

Lemma checkForDuplicateRequests_iff_witness :
  checkForDuplicateRequests (H := Sample.services) "E123" "2024-05-01"
    LEAVE_SHEET_NAME "" Sample.leaveLedger = true
  /\ checkForDuplicateRequests (H := Sample.services) "E123" "2024-05-01"
       LEAVE_SHEET_NAME "REQ-1" Sample.leaveLedger = false.
Proof.
  pose (row := Sample.request "REQ-1" "E123" LEAVE_SHEET_NAME
                 (Date.make 2024 5 1 0 0) (DayNumber 1) "Approved"
                 (Some (Date.make 2024 4 30 9 0))).
  destruct (checkForDuplicateRequests_iff (H := Sample.services) "E123"
              "2024-05-01" LEAVE_SHEET_NAME "" Sample.leaveLedger)
    as [_ Hpart].
  assert (Hday : sameDay (Row.startDate row)
                   (parseDate (Services := Sample.services) "2024-05-01")).
  { exists (Date.make 2024 5 1 0 0), (Date.make 2024 5 1 0 0).
    repeat split; vm_compute; reflexivity. }
  destruct (Hpart [blankRow; row] row) as [Hflag Hskip].
  - vm_compute. reflexivity.
  - simpl. left. reflexivity.
  - reflexivity.
  - exact Hday.
  - split; [exact Hflag|]. apply Hskip.
    + discriminate.
    + intros other [<-|[]] _ _. reflexivity.
Defined.

(** ** Stats aggregator *)

Lemma qualifies_iff (now : Millis) (employeeId : string) (row : Row.t) :
  qualifies now employeeId row = true
  <-> JS.trim (Row.employeeId row) = employeeId
      /\ Row.status row = "Approved"
      /\ exists d, Row.startDate row = Some d
                   /\ Date.getMonth d = Date.getMonth now
                   /\ Date.getFullYear d = Date.getFullYear now.
Proof.
  unfold qualifies, sameMonth.
  rewrite !andb_true_iff, !String.eqb_eq.
  destruct (Row.startDate row) as [d|].
  - rewrite andb_true_iff, !Z.eqb_eq. split.
    + intros [[He [Hm Hy]] Hs]. repeat split; try assumption. exists d. auto.
    + intros (He & Hs & d' & [= <-] & Hm & Hy). auto.
  - split.
    + intros [[_ Hf] _]. discriminate.
    + intros (_ & _ & d & [=] & _).
Qed.

Lemma countRow_qualifies (now : Millis) (employeeId : string) (stats : Stats)
    (row : Row.t) :
  countRow now employeeId stats row =
  if qualifies now employeeId row then
    mkStats (S (totalRequests stats))
      (JS.plus (totalDays stats) (getNumericDayValue (Row.days row)))
      (if hasLeaveType PERMISSION_SHEET_NAME row
       then S (permissionCount stats) else permissionCount stats)
      (if hasLeaveType PERMISSION_SHEET_NAME row then leaveCount stats
       else if hasLeaveType LEAVE_SHEET_NAME row
            then S (leaveCount stats) else leaveCount stats)
  else stats.
Proof.
  unfold countRow, qualifies, hasLeaveType.
  destruct (String.eqb (JS.trim (Row.employeeId row)) employeeId); [|reflexivity].
  simpl andb.
  destruct (sameMonth (Row.startDate row) now && String.eqb (Row.status row) "Approved");
    reflexivity.
Qed.

Lemma countRow_fold (now : Millis) (employeeId : string) (rows : list Row.t) :
  forall stats,
  fold_left (countRow now employeeId) rows stats =
  let counted := List.filter (qualifies now employeeId) rows in
  mkStats
    (totalRequests stats + length counted)
    (sumDays (totalDays stats) counted)
    (permissionCount stats
     + length (List.filter (hasLeaveType PERMISSION_SHEET_NAME) counted))
    (leaveCount stats
     + length (List.filter (hasLeaveType LEAVE_SHEET_NAME) counted)).
Proof.
  induction rows as [|row rows IH]; intros stats.
  - destruct stats; simpl. f_equal; lia.
  - simpl fold_left. rewrite IH. clear IH.
    rewrite countRow_qualifies. cbn zeta. simpl List.filter.
    destruct (qualifies now employeeId row); [|reflexivity].
    cbn [List.filter totalRequests totalDays permissionCount leaveCount
         length sumDays fold_left].
    assert (Hexcl : hasLeaveType PERMISSION_SHEET_NAME row = true ->
                    hasLeaveType LEAVE_SHEET_NAME row = false).
    { unfold hasLeaveType. intros Hp. apply String.eqb_eq in Hp.
      apply String.eqb_neq. rewrite Hp. discriminate. }
    destruct (hasLeaveType PERMISSION_SHEET_NAME row).
    + rewrite Hexcl by reflexivity. cbn [length]. f_equal; lia.
    + destruct (hasLeaveType LEAVE_SHEET_NAME row); cbn [length]; f_equal; lia.
Qed.

Lemma countSheet_fold (now : Millis) (employeeId : string)
    (ss : gmap string (list Row.t)) (stats : Stats) (sheetName : string) :
  countSheet now employeeId ss stats sheetName =
  fold_left (countRow now employeeId)
    (match ss !! sheetName with Some sheet => getValues sheet | None => [] end)
    stats.
Proof.
  unfold countSheet. destruct (ss !! sheetName) as [sheet|]; [|reflexivity].
  destruct (1 <? getLastRow sheet)%nat eqn:Hlast; [reflexivity|].
  apply Nat.ltb_ge in Hlast. unfold getLastRow, getValues in *.
  destruct sheet as [|h [|r sheet]]; simpl in *; try reflexivity; lia.
Qed.

Lemma getMonthlyLeaveStats_fold (now : Millis) (employeeId : string)
    (ss : gmap string (list Row.t)) :
  getMonthlyLeaveStats now employeeId ss =
  fold_left (countRow now employeeId) (scannedRows ss) zeroStats.
Proof.
  unfold getMonthlyLeaveStats, scannedRows, rowsOf.
  generalize zeroStats. induction ALL_LEAVE_SHEETS as [|sheetName names IH];
    intros stats; simpl.
  - reflexivity.
  - rewrite fold_left_app, IH, countSheet_fold. reflexivity.
Qed.

(** C7. The monthly statistics of an employee count a data row exactly when
    its employee id, once trimmed, is the employee's, its status is Approved
    and its start date lies in the month and year of the reference date.
    Over the counted rows [totalRequests] is their number, [totalDays] the
    sum of their normalized durations and [permissionCount] and
    [leaveCount] the numbers of rows of each category. Three counted rows
    with durations 1, 0.5 and 2 give 3 requests and 3.5 days. *)
Theorem getMonthlyLeaveStats_counts (now : Millis) (employeeId : string)
    (ss : gmap string (list Row.t)) :
  let counted := List.filter (qualifies now employeeId) (scannedRows ss) in
  let stats := getMonthlyLeaveStats now employeeId ss in
  (forall row, In row counted <->
     In row (scannedRows ss)
     /\ JS.trim (Row.employeeId row) = employeeId
     /\ Row.status row = "Approved"
     /\ exists d, Row.startDate row = Some d
                  /\ Date.getMonth d = Date.getMonth now
                  /\ Date.getFullYear d = Date.getFullYear now)
  /\ totalRequests stats = length counted
  /\ totalDays stats = sumDays JS.zero counted
  /\ permissionCount stats
     = length (List.filter (hasLeaveType PERMISSION_SHEET_NAME) counted)
  /\ leaveCount stats
     = length (List.filter (hasLeaveType LEAVE_SHEET_NAME) counted)
  /\ (forall r1 r2 r3,
        counted = [r1; r2; r3] ->
        getNumericDayValue (Row.days r1) = JS.Finite 1 ->
        getNumericDayValue (Row.days r2) = JS.Finite (1 # 2) ->
        getNumericDayValue (Row.days r3) = JS.Finite 2 ->
        totalRequests stats = 3%nat /\ totalDays stats = JS.Finite (7 # 2)).
Proof.
  intros counted stats.
  assert (Hstats : stats =
            mkStats (length counted) (sumDays JS.zero counted)
              (length (List.filter (hasLeaveType PERMISSION_SHEET_NAME) counted))
              (length (List.filter (hasLeaveType LEAVE_SHEET_NAME) counted))).
  { unfold stats. rewrite getMonthlyLeaveStats_fold, countRow_fold. reflexivity. }
  split.
  { intros row. unfold counted. rewrite filter_In, qualifies_iff. tauto. }
  rewrite Hstats. cbn [totalRequests totalDays permissionCount leaveCount].
  do 4 (split; [reflexivity|]).
  intros r1 r2 r3 Hc H1 H2 H3. rewrite Hc. unfold sumDays.
  cbn [fold_left length]. rewrite H1, H2, H3. split; reflexivity.
Qed.

Lemma getMonthlyLeaveStats_counts_witness :
  getMonthlyLeaveStats (Date.make 2024 5 28 10 0) "E1" Sample.statsLedger
  = mkStats 3 (JS.Finite (7 # 2)) 2 1.
Proof.
  pose proof (getMonthlyLeaveStats_counts (Date.make 2024 5 28 10 0) "E1"
                Sample.statsLedger) as Hc.
  cbv zeta in Hc. destruct Hc as (_ & _ & _ & Hp & Hl & Hthree).
  destruct (Hthree
    (Sample.request "REQ-10" "E1" PERMISSION_SHEET_NAME (Date.make 2024 5 2 0 0)
       (DayNumber 1) "Approved" (Some (Date.make 2024 5 1 9 0)))
    (Sample.request "REQ-11" " E1 " PERMISSION_SHEET_NAME (Date.make 2024 5 9 0 0)
       (DayText "មួយព្រឹក") "Approved" (Some (Date.make 2024 5 8 9 0)))
    (Sample.request "REQ-14" "E1" LEAVE_SHEET_NAME (Date.make 2024 5 20 0 0)
       (DayText "2") "Approved" (Some (Date.make 2024 5 19 9 0))))
    as [Hn Hd]; vm_compute; reflexivity.
Defined.

(** ** Locating and writing rows *)

Lemma findIndex_Some {A : Type} (p : A -> bool) (l : list A) (i : nat) :
  findIndex p l = Some i ->
  exists x, l !! i = Some x /\ p x = true
            /\ forall j y, (j < i)%nat -> l !! j = Some y -> p y = false.
Proof.
  revert i. induction l as [|a l IH]; simpl; intros i; [discriminate|].
  destruct (p a) eqn:Hp.
  - intros [= <-]. exists a. repeat split; trivial. intros j y Hj. lia.
  - destruct (findIndex p l) as [k|]; simpl; [|discriminate].
    intros [= <-]. destruct (IH k eq_refl) as (x & Hx & Hpx & Hfirst).
    exists x. repeat split; trivial.
    intros [|j] y Hj; simpl.
    + intros [= <-]. exact Hp.
    + apply Hfirst. lia.
Qed.

Lemma findIndex_None {A : Type} (p : A -> bool) (l : list A) :
  findIndex p l = None <-> forall x, In x l -> p x = false.
Proof.
  induction l as [|a l IH]; simpl.
  - split; [intros _ x []|reflexivity].
  - destruct (p a) eqn:Hp.
    + split; [discriminate|]. intros Hall. rewrite (Hall a) in Hp by auto.
      discriminate.
    + destruct (findIndex p l) as [k|]; simpl.
      * split; [discriminate|]. intros Hall.
        destruct IH as [_ IH]. discriminate IH. intros x Hx. apply Hall. auto.
      * split; [|reflexivity]. intros _ x [<-|Hx]; [exact Hp|].
        apply IH; trivial.
Qed.

Lemma getValues_short (sheet : list Row.t) :
  (1 <? getLastRow sheet)%nat = false -> getValues sheet = [].
Proof.
  intros Hlast. apply Nat.ltb_ge in Hlast. unfold getLastRow, getValues in *.
  destruct sheet as [|h [|r sheet]]; simpl in *; try reflexivity; lia.
Qed.

Lemma findRequestRowIn_None (names : list string)
    (ss : gmap string (list Row.t)) (requestId : string) :
  findRequestRowIn names ss requestId = None
  <-> forall row, In row (rowsOf names ss) -> Row.requestId row <> requestId.
Proof.
  induction names as [|sheetName names IH]; simpl.
  - split; [intros _ row []|reflexivity].
  - destruct (ss !! sheetName) as [sheet|] eqn:Hs.
    + destruct (1 <? getLastRow sheet)%nat eqn:Hlast.
      * destruct (findIndex _ (getValues sheet)) as [i|] eqn:Hi.
        -- split; [discriminate|]. intros Hall.
           apply findIndex_Some in Hi. destruct Hi as (x & Hx & Hpx & _).
           apply String.eqb_eq in Hpx. exfalso. apply (Hall x); [|exact Hpx].
           apply in_or_app. left. apply list_elem_of_In.
           apply list_elem_of_lookup. eauto.
        -- rewrite IH. rewrite findIndex_None in Hi. split.
           ++ intros Hall row Hin. apply in_app_or in Hin.
              destruct Hin as [Hin|Hin]; [|apply Hall; exact Hin].
              apply Hi in Hin. apply String.eqb_neq. exact Hin.
           ++ intros Hall row Hin. apply Hall. apply in_or_app. right. exact Hin.
      * rewrite (getValues_short _ Hlast). simpl. exact IH.
    + exact IH.
Qed.

Lemma findRequestRowIn_Some (names : list string)
    (ss : gmap string (list Row.t)) (requestId : string) (found : Found.t) :
  findRequestRowIn names ss requestId = Some found ->
  exists sheet row,
    ss !! Found.sheet found = Some sheet
    /\ sheet !! (Found.row found - 1)%nat = Some row
    /\ Row.requestId row = requestId
    /\ (2 <= Found.row found)%nat
    /\ In (Found.sheet found) names.
Proof.
  induction names as [|sheetName names IH]; simpl; [discriminate|].
  assert (Hnext : findRequestRowIn names ss requestId = Some found ->
            exists sheet row,
              ss !! Found.sheet found = Some sheet
              /\ sheet !! (Found.row found - 1)%nat = Some row
              /\ Row.requestId row = requestId
              /\ (2 <= Found.row found)%nat
              /\ (sheetName = Found.sheet found \/ In (Found.sheet found) names)).
  { intros Hf. destruct (IH Hf) as (sheet & row & H1 & H2 & H3 & H4 & H5).
    exists sheet, row. auto 10. }
  destruct (ss !! sheetName) as [sheet|] eqn:Hs; [|exact Hnext].
  destruct (1 <? getLastRow sheet)%nat; [|exact Hnext].
  destruct (findIndex _ (getValues sheet)) as [i|] eqn:Hi; [|exact Hnext].
  intros [= <-]. simpl.
  apply findIndex_Some in Hi. destruct Hi as (x & Hx & Hpx & _).
  unfold getValues in Hx. rewrite lookup_drop in Hx.
  exists sheet, x. split; [exact Hs|]. split.
  - replace (i + 2 - 1)%nat with (1 + i)%nat by lia. exact Hx.
  - split; [apply String.eqb_eq; exact Hpx|]. split; [lia|]. left. reflexivity.
Qed.

Lemma getRow_located (found : Found.t) (ss : gmap string (list Row.t))
    (sheet : list Row.t) (row : Row.t) :
  ss !! Found.sheet found = Some sheet ->
  sheet !! (Found.row found - 1)%nat = Some row ->
  getRow found ss = row.
Proof.
  intros Hs Hr. unfold getRow.
  rewrite lookup_total_alt, Hs. simpl.
  rewrite list_lookup_total_alt, Hr. reflexivity.
Qed.

Lemma setValue_located (found : Found.t) (set : Row.t -> Row.t)
    (ss : gmap string (list Row.t)) (sheet : list Row.t) (row : Row.t) :
  ss !! Found.sheet found = Some sheet ->
  sheet !! (Found.row found - 1)%nat = Some row ->
  setValue found set ss
  = <[Found.sheet found := <[(Found.row found - 1)%nat := set row]> sheet]> ss.
Proof.
  intros Hs Hr. unfold setValue. apply map_eq. intros name.
  rewrite lookup_alter, lookup_insert.
  destruct (decide (Found.sheet found = name)) as [<-|Hne]; [|reflexivity].
  rewrite Hs. simpl. f_equal.
  apply list_eq. intros j. rewrite list_lookup_alter, list_lookup_insert.
  destruct (decide (Found.row found - 1 = j)%nat) as [<-|Hj].
  - rewrite Hr. simpl. apply lookup_lt_Some in Hr.
    destruct (decide _) as [_|Hn]; [reflexivity|]. exfalso. apply Hn. auto.
  - destruct (decide _) as [[Heq _]|_]; [congruence|reflexivity].
Qed.

Lemma setValue_setValue (found : Found.t) (f g : Row.t -> Row.t)
    (ss : gmap string (list Row.t)) :
  setValue found f (setValue found g ss) = setValue found (f ∘ g) ss.
Proof.
  unfold setValue. rewrite alter_alter_eq. apply alter_ext.
  intros sheet _. apply list_alter_alter_eq.
Qed.

(** ** Lifecycle engine: decide *)

Lemma nonEmpty_true (s : string) : s <> "" -> JS.nonEmpty s = true.
Proof. destruct s; [congruence|reflexivity]. Qed.

Lemma findRequestRow_exists (ss : gmap string (list Row.t)) (requestId : string) :
  (exists row, In row (scannedRows ss) /\ Row.requestId row = requestId) ->
  exists found, findRequestRow ss requestId = Some found.
Proof.
  intros (row & Hin & Hid). unfold findRequestRow.
  destruct (findRequestRowIn ALL_LEAVE_SHEETS ss requestId) as [found|] eqn:Hf.
  - exists found. reflexivity.
  - exfalso. rewrite findRequestRowIn_None in Hf. exact (Hf row Hin Hid).
Qed.

(** C1 (as the code has it). For a decision with outcome Approved or
    Rejected: an empty request id is refused as invalid input; a request id
    that no row of any partition carries gives the not-found error; when the
    first row carrying it is not Pending the result is the already-processed
    error; in these three cases the world is unchanged. Otherwise that row,
    and nothing else in the ledger, is rewritten with status = outcome,
    approver = actor (the default admin name when the actor is empty),
    approval timestamp = now and, when the outcome is Rejected and the
    reason is not empty, the reason in the admin-note column; the directory
    cache is dropped, one notification is sent and success is reported. *)
Theorem updateRequestStatus_cases `{Services} (now : Millis)
    (requestId newStatus approverRole rejectionReason : string) (w : World) :
  newStatus = "Approved" \/ newStatus = "Rejected" ->
  let out := updateRequestStatus now requestId newStatus approverRole
               rejectionReason w in
  (requestId = "" -> out = (Failure StatusArgumentsRequired, w))
  /\ (requestId <> "" ->
      (forall row, In row (scannedRows (spreadsheet w)) ->
                   Row.requestId row <> requestId) ->
      out = (Failure NotFoundForStatusUpdate, w))
  /\ (requestId <> "" ->
      (exists row, In row (scannedRows (spreadsheet w))
                   /\ Row.requestId row = requestId) ->
      exists found sheet row,
        findRequestRow (spreadsheet w) requestId = Some found
        /\ spreadsheet w !! Found.sheet found = Some sheet
        /\ sheet !! (Found.row found - 1)%nat = Some row
        /\ Row.requestId row = requestId
        /\ (Row.status row <> "Pending" -> out = (Failure AlreadyProcessed, w))
        /\ (Row.status row = "Pending" ->
            let approverDisplayName :=
              if JS.nonEmpty approverRole then approverRole
              else DEFAULT_ADMIN_NAME in
            let decided :=
              Row.mk (Row.timestamp row) (Row.requestId row)
                (Row.employeeId row) (Row.employeeName row) (Row.leaveType row)
                (Row.startDate row) (Row.endDate row) (Row.days row)
                (Row.reason row)
                newStatus approverDisplayName
                (Row.selfiePhoto row)
                (Some now)
                (Row.docPhoto row) (Row.locationLink row)
                (Row.checkInTimestamp row) (Row.checkInPhoto row)
                (Row.checkInLocationLink row) (Row.notificationSent row)
                (Row.paymentReceipt row)
                (if String.eqb newStatus "Rejected"
                    && JS.nonEmpty rejectionReason
                 then rejectionReason else Row.adminCheckinNote row) in
            out =
            (Success ("Request " +:+ requestId +:+ " status updated."),
             mkWorld _
               (<[Found.sheet found :=
                    <[(Found.row found - 1)%nat := decided]> sheet]>
                  (spreadsheet w))
               (sent w ++
                [StatusDecided (Row.employeeName row) (Row.employeeId row)
                   requestId newStatus approverDisplayName
                   (if String.eqb newStatus "Rejected" then rejectionReason
                    else "")])
               None (employeeSheet w) (drive w)))).
Proof.
  intros Hstatus out.
  assert (Hnew : JS.nonEmpty newStatus = true).
  { destruct Hstatus as [-> | ->]; reflexivity. }
  split; [|split].
  - intros ->. reflexivity.
  - intros Hne Hnone. unfold out, updateRequestStatus.
    rewrite (nonEmpty_true _ Hne), Hnew. simpl.
    apply findRequestRowIn_None in Hnone. unfold findRequestRow.
    rewrite Hnone. reflexivity.
  - intros Hne Hex. apply findRequestRow_exists in Hex.
    destruct Hex as [found Hfind].
    destruct (findRequestRowIn_Some _ _ _ _ Hfind)
      as (sheet & row & Hs & Hr & Hid & _ & _).
    exists found, sheet, row. do 4 (split; [assumption|]).
    pose proof (getRow_located _ _ _ _ Hs Hr) as Hget.
    unfold out, updateRequestStatus.
    rewrite (nonEmpty_true _ Hne), Hnew, Hfind, Hget. simpl negb. simpl orb.
    cbv iota. split.
    + intros Hst. apply String.eqb_neq in Hst. rewrite Hst. reflexivity.
    + intros Hst. rewrite Hst. simpl. f_equal.
      unfold sendTelegramNotification, removeCache, with_cache.
      destruct (String.eqb newStatus "Rejected" && JS.nonEmpty rejectionReason)
        eqn:Hrej;
        unfold setCell, with_spreadsheet;
        cbn [spreadsheet sent employeeCache employeeSheet drive];
        rewrite !setValue_setValue, (setValue_located _ _ _ _ _ Hs Hr);
        rewrite (getRow_located found _
                   (<[(Found.row found - 1)%nat := _]> sheet) _
                   (lookup_insert_eq _ _ _)
                   (list_lookup_insert_eq _ _ _ (lookup_lt_Some _ _ _ Hr)));
        reflexivity.
Qed.

Lemma updateRequestStatus_cases_witness :
  let out := updateRequestStatus (H := Sample.services) (Date.make 2024 5 1 9 0)
               "REQ-20" "Rejected" "" "late"
               (Sample.world Sample.pendingLedger []) in
  let stored := getRow (Found.mk PERMISSION_SHEET_NAME 2) (spreadsheet (snd out)) in
  fst out = Success "Request REQ-20 status updated."
  /\ Row.status stored = "Rejected"
  /\ Row.approver stored = "Admin"
  /\ Row.approvalTimestamp stored = Some (Date.make 2024 5 1 9 0)
  /\ Row.adminCheckinNote stored = "late".
Proof.
  destruct (updateRequestStatus_cases (H := Sample.services)
              (Date.make 2024 5 1 9 0) "REQ-20" "Rejected" "" "late"
              (Sample.world Sample.pendingLedger []) (or_intror eq_refl))
    as (_ & _ & Hfound).
  destruct Hfound as (found & sheet & row & Hfind & Hs & Hr & _ & _ & Hok).
  { discriminate. }
  { exists (Sample.request "REQ-20" "E1" PERMISSION_SHEET_NAME
              (Date.make 2024 5 1 0 0) (DayNumber 1) "Pending" None).
    split; [vm_compute; left; reflexivity|reflexivity]. }
  vm_compute in Hfind. injection Hfind as <-.
  vm_compute in Hs. injection Hs as <-.
  vm_compute in Hr. injection Hr as <-.
  specialize (Hok eq_refl). cbv zeta in Hok.
  cbv zeta. rewrite Hok. vm_compute. repeat split.
Defined.

(** C1 as stated fails on an empty request id: no row carries it, yet the
    result is the invalid-input error, not the not-found error. *)
Lemma updateRequestStatus_empty_id_not_NotFound :
  ~ (forall (now : Millis) (requestId newStatus approverRole rejectionReason : string)
            (w : @World Sample.services),
        newStatus = "Approved" \/ newStatus = "Rejected" ->
        (forall row, In row (scannedRows (spreadsheet w)) ->
                     Row.requestId row <> requestId) ->
        fst (updateRequestStatus now requestId newStatus approverRole
               rejectionReason w)
        = Failure NotFoundForStatusUpdate).
Proof.
  intros Hclaim.
  specialize (Hclaim 0 "" "Approved" "Admin" "" (Sample.world ∅ [])
                (or_introl eq_refl)).
  assert (Hnone : forall row,
            In row (scannedRows (spreadsheet (Sample.world ∅ []))) ->
            Row.requestId row <> "").
  { intros row Hin. vm_compute in Hin. contradiction. }
  specialize (Hclaim Hnone). vm_compute in Hclaim. discriminate Hclaim.
Qed.

(** ** Lifecycle engine: edit and resubmit *)

Lemma findIndex_map {A B : Type} (f : A -> B) (p : B -> bool) (l : list A) :
  findIndex (fun x => p (f x)) l = findIndex p (map f l).
Proof.
  induction l as [|a l IH]; simpl; [reflexivity|]. rewrite IH. reflexivity.
Qed.

Lemma map_requestId_alter (set : Row.t -> Row.t) (i : nat) (sheet : list Row.t) :
  (forall r, Row.requestId (set r) = Row.requestId r) ->
  map Row.requestId (alter set i sheet) = map Row.requestId sheet.
Proof.
  intros Hid. revert i. induction sheet as [|r sheet IH]; intros [|i]; simpl;
    try reflexivity.
  - rewrite Hid. reflexivity.
  - f_equal. apply IH.
Qed.

Lemma findRequestRow_setValue (found : Found.t) (set : Row.t -> Row.t)
    (ss : gmap string (list Row.t)) (requestId : string) :
  (forall r, Row.requestId (set r) = Row.requestId r) ->
  findRequestRow (setValue found set ss) requestId = findRequestRow ss requestId.
Proof.
  intros Hid. unfold findRequestRow.
  induction ALL_LEAVE_SHEETS as [|sheetName names IH]; simpl; [reflexivity|].
  unfold setValue in *. rewrite lookup_alter.
  assert (Hsame : forall sheet : list Row.t,
            getLastRow (alter set (Found.row found - 1)%nat sheet)
            = getLastRow sheet
            /\ findIndex (fun r => String.eqb (Row.requestId r) requestId)
                 (getValues (alter set (Found.row found - 1)%nat sheet))
               = findIndex (fun r => String.eqb (Row.requestId r) requestId)
                   (getValues sheet)).
  { intros sheet. split; [apply length_alter|].
    rewrite !(findIndex_map Row.requestId (fun s => String.eqb s requestId)).
    unfold getValues. rewrite <- !skipn_map.
    rewrite map_requestId_alter by exact Hid. reflexivity. }
  destruct (decide (Found.sheet found = sheetName)) as [Heq|Hne].
  - rewrite <- Heq.
    destruct (ss !! Found.sheet found) as [sheet|]; simpl; [|exact IH].
    destruct (Hsame sheet) as [-> ->]. rewrite IH. reflexivity.
  - rewrite IH. reflexivity.
Qed.

Lemma saveImages_no_inline `{Services} (items : list (option string))
    (index : nat) (baseFileName folderId : string) (d : Drive) :
  (forall s, In (Some s) items -> isBase64Image s = false) ->
  saveImages items index baseFileName folderId d = (keptUrls items, d).
Proof.
  revert index. induction items as [|item items IH]; intros index Hno; simpl.
  - reflexivity.
  - assert (Hrest : forall s, In (Some s) items -> isBase64Image s = false).
    { intros s Hs. apply Hno. right. exact Hs. }
    destruct item as [s|].
    + rewrite (Hno s) by (left; reflexivity).
      destruct (JS.startsWith "http" s); rewrite IH by exact Hrest; reflexivity.
    + rewrite IH by exact Hrest. reflexivity.
Qed.

Lemma saveMultipleImagesToDrive_no_inline `{Services} (doc : DocValue)
    (baseFileName folderId : string) (d : Drive) :
  match doc with
  | DocText s => isBase64Image s = false
  | DocJson items => forall s, In (Some s) items -> isBase64Image s = false
  end ->
  saveMultipleImagesToDrive doc baseFileName folderId d
  = (match doc with
     | DocText _ | DocJson [] => DocText ""
     | DocJson items => DocJson (map Some (keptUrls items))
     end, d).
Proof.
  unfold saveMultipleImagesToDrive. destruct doc as [s|items]; intros Hno.
  - rewrite Hno. reflexivity.
  - destruct items as [|item items]; [reflexivity|].
    rewrite saveImages_no_inline by exact Hno. reflexivity.
Qed.

Lemma setCell_setCell `{Services} (found : Found.t) (f g : Row.t -> Row.t)
    (w : World) :
  setCell found f (setCell found g w) = setCell found (f ∘ g) w.
Proof.
  unfold setCell, with_spreadsheet.
  cbn [spreadsheet sent employeeCache employeeSheet drive].
  rewrite setValue_setValue. reflexivity.
Qed.

Lemma setCell_located `{Services} (found : Found.t) (set : Row.t -> Row.t)
    (w : World) (sheet : list Row.t) (row : Row.t) :
  spreadsheet w !! Found.sheet found = Some sheet ->
  sheet !! (Found.row found - 1)%nat = Some row ->
  setCell found set w
  = mkWorld _
      (<[Found.sheet found := <[(Found.row found - 1)%nat := set row]> sheet]>
         (spreadsheet w))
      (sent w) (employeeCache w) (employeeSheet w) (drive w).
Proof.
  intros Hs Hr. unfold setCell, with_spreadsheet.
  rewrite (setValue_located _ _ _ _ _ Hs Hr). reflexivity.
Qed.

Lemma resubmission_writes `{Services} (details : LeaveDetails.t)
    (selfieUrl : string) (documentUrlsJson : DocValue) (row : Row.t) :
  (Row.set_adminCheckinNote ""
   ∘ Row.set_approvalTimestamp None
   ∘ Row.set_approver ""
   ∘ Row.set_status "Pending"
   ∘ Row.set_docPhoto documentUrlsJson
   ∘ Row.set_selfiePhoto selfieUrl
   ∘ Row.set_reason (LeaveDetails.reason details)
   ∘ Row.set_days (LeaveDetails.numberOfDays details)
   ∘ Row.set_endDate (parseDate (LeaveDetails.endDate details))
   ∘ Row.set_startDate (parseDate (LeaveDetails.startDate details))
   ∘ Row.set_leaveType (LeaveDetails.leaveType details)) row
  = resubmittedRow details selfieUrl documentUrlsJson row.
Proof. reflexivity. Qed.

Lemma updateLeaveRequest_located `{Services} (details : LeaveDetails.t)
    (w : World) (found : Found.t) (sheet : list Row.t) (row : Row.t) :
  LeaveDetails.requestId details <> "" ->
  findRequestRow (spreadsheet w) (LeaveDetails.requestId details) = Some found ->
  spreadsheet w !! Found.sheet found = Some sheet ->
  sheet !! (Found.row found - 1)%nat = Some row ->
  exists selfieUrl documentUrlsJson d',
    updateLeaveRequest details w =
    (Success (LeaveDetails.requestId details),
     mkWorld _
       (<[Found.sheet found :=
            <[(Found.row found - 1)%nat :=
                resubmittedRow details selfieUrl documentUrlsJson row]> sheet]>
          (spreadsheet w))
       (sent w ++
        [Resubmitted (LeaveDetails.employeeName details)
           (LeaveDetails.employeeId details) (LeaveDetails.requestId details)])
       (employeeCache w) (employeeSheet w) d')
    /\ (noInlineImages details ->
        selfieUrl = LeaveDetails.selfieImageData details
        /\ documentUrlsJson = storedDocuments (LeaveDetails.documentImageData details)
        /\ d' = drive w).
Proof.
  intros Hne Hfind Hs Hr. destruct w as [ss snt cache es d].
  cbn [spreadsheet sent employeeCache employeeSheet drive] in *.
  unfold updateLeaveRequest, noInlineImages, storedDocuments.
  cbn [spreadsheet sent employeeCache employeeSheet drive].
  rewrite (nonEmpty_true _ Hne), Hfind. cbn [negb].
  destruct (isBase64Image (LeaveDetails.selfieImageData details)) eqn:Hsel;
    [destruct (saveImageToDrive _ _ _ d) as [url d1]|];
    cbn [with_drive spreadsheet sent employeeCache employeeSheet drive];
    (destruct (LeaveDetails.documentImageData details) as [s|items] eqn:Hdoc;
     [destruct (isBase64Image s) eqn:Hb64;
      [destruct (saveImageToDrive s _ _ _) as [newUrl d2]
      |destruct (JS.nonEmpty s && JS.startsWith "[" s) eqn:Hbracket;
       [destruct (saveMultipleImagesToDrive _ _ _ _) as [urls d2] eqn:Hmulti|]]
     |destruct (saveMultipleImagesToDrive _ _ _ _) as [urls d2] eqn:Hmulti]);
    cbv zeta; unfold with_drive;
    cbn [spreadsheet sent employeeCache employeeSheet drive];
    rewrite !setCell_setCell;
    erewrite (setCell_located found _ _ sheet row)
      by (cbn [spreadsheet]; assumption);
    rewrite resubmission_writes;
    unfold sendTelegramNotification;
    cbn [spreadsheet sent employeeCache employeeSheet drive];
    (eexists _, _, _; split;
     [reflexivity
     |intros [Hnosel Hnodoc]; try congruence;
      try (rewrite saveMultipleImagesToDrive_no_inline in Hmulti
             by first [exact Hnodoc | exact Hb64];
           injection Hmulti as <- <-);
      try rewrite Hb64 in *; try rewrite Hbracket in *;
      repeat split; try reflexivity]).
Qed.

(** C8 (as the code has it). A resubmission of an existing request rewrites
    its row, whatever its prior state, with status Pending, approver,
    approval timestamp and admin note cleared, and category, dates,
    duration and reason as supplied; the selfie and document cells receive
    what the attachment handling produces, and one notification is sent.
    When the payload carries no inline image the attachment cells are
    determined by the payload alone, the file store is untouched, and a
    second call with the same payload leaves the ledger as the first one
    left it. *)
Theorem updateLeaveRequest_resets `{Services} (details : LeaveDetails.t)
    (w : World) :
  let requestId := LeaveDetails.requestId details in
  let out := updateLeaveRequest details w in
  requestId <> "" ->
  (exists row, In row (scannedRows (spreadsheet w))
               /\ Row.requestId row = requestId) ->
  exists found sheet row selfieUrl documentUrlsJson,
    findRequestRow (spreadsheet w) requestId = Some found
    /\ spreadsheet w !! Found.sheet found = Some sheet
    /\ sheet !! (Found.row found - 1)%nat = Some row
    /\ Row.requestId row = requestId
    /\ fst out = Success requestId
    /\ spreadsheet (snd out)
       = <[Found.sheet found :=
             <[(Found.row found - 1)%nat :=
                 resubmittedRow details selfieUrl documentUrlsJson row]> sheet]>
           (spreadsheet w)
    /\ sent (snd out)
       = (sent w ++ [Resubmitted (LeaveDetails.employeeName details)
                       (LeaveDetails.employeeId details) requestId])%list
    /\ (noInlineImages details ->
        selfieUrl = LeaveDetails.selfieImageData details
        /\ documentUrlsJson
           = storedDocuments (LeaveDetails.documentImageData details)
        /\ drive (snd out) = drive w
        /\ spreadsheet (snd (updateLeaveRequest details (snd out)))
           = spreadsheet (snd out)).
Proof.
  intros requestId out Hne Hex. apply findRequestRow_exists in Hex.
  destruct Hex as [found Hfind].
  destruct (findRequestRowIn_Some _ _ _ _ Hfind)
    as (sheet & row & Hs & Hr & Hid & _ & _).
  destruct (updateLeaveRequest_located details w found sheet row Hne Hfind Hs Hr)
    as (selfieUrl & documentUrlsJson & d' & Hout & Hpure).
  exists found, sheet, row, selfieUrl, documentUrlsJson.
  do 4 (split; [assumption|]).
  unfold out. rewrite Hout. cbn [fst snd spreadsheet sent drive].
  do 3 (split; [reflexivity|]).
  intros Hno. destruct (Hpure Hno) as (Hsel & Hdoc & Hd).
  do 3 (split; [assumption|]).
  set (row1 := resubmittedRow details selfieUrl documentUrlsJson row).
  set (sheet1 := <[(Found.row found - 1)%nat := row1]> sheet).
  set (w1 := mkWorld _ (<[Found.sheet found := sheet1]> (spreadsheet w))
               (sent w ++ [Resubmitted (LeaveDetails.employeeName details)
                             (LeaveDetails.employeeId details)
                             (LeaveDetails.requestId details)])
               (employeeCache w) (employeeSheet w) d').
  assert (Hfind1 : findRequestRow (spreadsheet w1) requestId = Some found).
  { unfold w1, sheet1, row1. cbn [spreadsheet].
    rewrite <- (setValue_located found
                  (resubmittedRow details selfieUrl documentUrlsJson)
                  (spreadsheet w) sheet row Hs Hr).
    rewrite findRequestRow_setValue by reflexivity. exact Hfind. }
  assert (Hs1 : spreadsheet w1 !! Found.sheet found = Some sheet1).
  { unfold w1. cbn [spreadsheet]. apply lookup_insert_eq. }
  assert (Hr1 : sheet1 !! (Found.row found - 1)%nat = Some row1).
  { unfold sheet1. apply list_lookup_insert_eq. eapply lookup_lt_Some, Hr. }
  destruct (updateLeaveRequest_located details w1 found sheet1 row1 Hne Hfind1
              Hs1 Hr1)
    as (selfieUrl2 & documentUrlsJson2 & d2 & Hout2 & Hpure2).
  destruct (Hpure2 Hno) as (Hsel2 & Hdoc2 & _).
  rewrite Hout2. cbn [snd spreadsheet]. unfold w1. cbn [spreadsheet].
  rewrite insert_insert_eq. f_equal. unfold sheet1.
  rewrite list_insert_insert_eq. f_equal.
  rewrite Hsel2, Hdoc2, <- Hsel, <- Hdoc. reflexivity.
Qed.

Lemma updateLeaveRequest_resets_witness :
  let out := updateLeaveRequest (H := Sample.services) Sample.editWithUrl
               (Sample.world Sample.approvedLedger []) in
  let stored := getRow (Found.mk PERMISSION_SHEET_NAME 2) (spreadsheet (snd out)) in
  noInlineImages Sample.editWithUrl
  /\ fst out = Success "REQ-30"
  /\ Row.status stored = "Pending"
  /\ Row.approver stored = ""
  /\ Row.approvalTimestamp stored = None
  /\ Row.adminCheckinNote stored = ""
  /\ spreadsheet (snd (updateLeaveRequest Sample.editWithUrl (snd out)))
     = spreadsheet (snd out).
Proof.
  assert (Hno : noInlineImages Sample.editWithUrl).
  { split; reflexivity. }
  destruct (updateLeaveRequest_resets (H := Sample.services) Sample.editWithUrl
              (Sample.world Sample.approvedLedger []))
    as (found & sheet & row & selfieUrl & documentUrlsJson & Hfind & Hs & Hr
        & _ & Hok & Hss & _ & Hpure).
  { discriminate. }
  { eexists. split; [vm_compute; left; reflexivity|reflexivity]. }
  destruct (Hpure Hno) as (_ & _ & _ & Hidem).
  cbv zeta. split; [exact Hno|]. split; [exact Hok|].
  split; [vm_compute; reflexivity|]. split; [vm_compute; reflexivity|].
  split; [vm_compute; reflexivity|]. split; [vm_compute; reflexivity|].
  exact Hidem.
Defined.

(** C8 as stated fails for a payload with an inline image: every call
    uploads it again and stores the URL the file store returns for that
    upload, so the second call can leave a different row. *)
Lemma updateLeaveRequest_not_idempotent :
  let w0 := Sample.world Sample.approvedLedger
              [Some "https://drive.example/file-1";
               Some "https://drive.example/file-2"] in
  let w1 := snd (updateLeaveRequest (H := Sample.services) Sample.editWithSelfie w0) in
  let w2 := snd (updateLeaveRequest (H := Sample.services) Sample.editWithSelfie w1) in
  Row.selfiePhoto (getRow (Found.mk PERMISSION_SHEET_NAME 2) (spreadsheet w1))
  = "https://drive.example/file-1"
  /\ Row.selfiePhoto (getRow (Found.mk PERMISSION_SHEET_NAME 2) (spreadsheet w2))
     = "https://drive.example/file-2"
  /\ spreadsheet w2 <> spreadsheet w1.
Proof.
  cbv zeta. split; [vm_compute; reflexivity|]. split; [vm_compute; reflexivity|].
  intros Heq.
  apply (f_equal (fun ss => Row.selfiePhoto
                    (getRow (Found.mk PERMISSION_SHEET_NAME 2) ss))) in Heq.
  vm_compute in Heq. discriminate Heq.
Qed.

(** ** Lifecycle engine: check-in *)

Lemma submitCheckIn_located `{Services} (now : Millis)
    (checkInData : CheckInData.t) (w : World) (found : Found.t)
    (sheet : list Row.t) (row : Row.t) :
  validCheckIn checkInData ->
  findRequestRow (spreadsheet w) (CheckInData.requestId checkInData) = Some found ->
  spreadsheet w !! Found.sheet found = Some sheet ->
  sheet !! (Found.row found - 1)%nat = Some row ->
  exists url d',
    saveImageToDrive (CheckInData.selfieData checkInData)
      ("CheckIn_" +:+ Row.employeeId row +:+ "_"
       +:+ CheckInData.requestId checkInData)
      SELFIE_DRIVE_FOLDER_ID (drive w) = (url, d')
    /\ submitCheckIn now checkInData w =
       (Success "Check-in successful.",
        mkWorld _
          (<[Found.sheet found :=
               <[(Found.row found - 1)%nat :=
                   checkedInRow now (orEmpty url) (checkInLink checkInData) row]>
                 sheet]> (spreadsheet w))
          (sent w ++
           [CheckedIn (Row.employeeName row) (Row.employeeId row)
              (CheckInData.requestId checkInData) (orEmpty url)
              (checkInLink checkInData)])
          (employeeCache w) (employeeSheet w) d').
Proof.
  intros (Hid & Hselfie & Hlat & Hlon & Hnear) Hfind Hs Hr.
  pose proof (getRow_located _ _ _ _ Hs Hr) as Hget.
  destruct w as [ss snt cache es d].
  cbn [spreadsheet sent employeeCache employeeSheet drive] in *.
  unfold submitCheckIn.
  cbn [spreadsheet sent employeeCache employeeSheet drive].
  rewrite (nonEmpty_true _ Hid), (nonEmpty_true _ Hselfie), Hlat, Hlon, Hnear,
    Hfind, Hget.
  cbn [negb orb andb].
  destruct (saveImageToDrive _ _ _ d) as [url d'] eqn:Hsave.
  exists url, d'. split; [reflexivity|].
  cbv zeta. unfold with_drive.
  cbn [spreadsheet sent employeeCache employeeSheet drive].
  rewrite !setCell_setCell.
  erewrite (setCell_located found _ _ sheet row)
    by (cbn [spreadsheet]; assumption).
  unfold sendTelegramNotification.
  cbn [spreadsheet sent employeeCache employeeSheet drive].
  rewrite (getRow_located found _
             (<[(Found.row found - 1)%nat := _]> sheet) _
             (lookup_insert_eq _ _ _)
             (list_lookup_insert_eq _ _ _ (lookup_lt_Some _ _ _ Hr))).
  reflexivity.
Qed.

Lemma adminSubmitCheckIn_located `{Services} (now : Millis)
    (requestId adminRole : string) (w : World) (found : Found.t)
    (sheet : list Row.t) (row : Row.t) :
  requestId <> "" -> adminRole <> "" ->
  findRequestRow (spreadsheet w) requestId = Some found ->
  spreadsheet w !! Found.sheet found = Some sheet ->
  sheet !! (Found.row found - 1)%nat = Some row ->
  adminSubmitCheckIn now requestId adminRole w =
  (Success "Admin check-in successful.",
   mkWorld _
     (<[Found.sheet found :=
          <[(Found.row found - 1)%nat := adminCheckedInRow now adminRole row]>
            sheet]> (spreadsheet w))
     (sent w ++
      [AdminCheckedIn (Row.employeeName row) (Row.employeeId row) requestId
         adminRole])
     (employeeCache w) (employeeSheet w) (drive w)).
Proof.
  intros Hid Hrole Hfind Hs Hr.
  pose proof (getRow_located _ _ _ _ Hs Hr) as Hget.
  unfold adminSubmitCheckIn.
  rewrite (nonEmpty_true _ Hid), (nonEmpty_true _ Hrole), Hfind, Hget.
  cbn [negb orb]. cbv zeta.
  rewrite !setCell_setCell.
  rewrite (setCell_located found _ _ sheet row Hs Hr).
  reflexivity.
Qed.

Lemma getRow_insert (found : Found.t) (ss : gmap string (list Row.t))
    (sheet : list Row.t) (row row' : Row.t) :
  sheet !! (Found.row found - 1)%nat = Some row ->
  getRow found
    (<[Found.sheet found := <[(Found.row found - 1)%nat := row']> sheet]> ss)
  = row'.
Proof.
  intros Hr. eapply getRow_located.
  - apply lookup_insert_eq.
  - apply list_lookup_insert_eq. eapply lookup_lt_Some, Hr.
Qed.

(** C10. Neither check-in path looks at the status of the request: whatever
    status the located request has (Pending and Rejected included), the
    employee's check-in with valid photo and location and the admin-assisted
    check-in report success, store now as the check-in timestamp and leave
    the status as it was. *)
Theorem checkIn_ignores_status `{Services} (now : Millis)
    (checkInData : CheckInData.t) (adminRole status : string) (w : World) :
  let requestId := CheckInData.requestId checkInData in
  validCheckIn checkInData ->
  adminRole <> "" ->
  (exists row, In row (scannedRows (spreadsheet w))
               /\ Row.requestId row = requestId) ->
  exists found,
    findRequestRow (spreadsheet w) requestId = Some found
    /\ let w' := setCell found (Row.set_status status) w in
       let employee := submitCheckIn now checkInData w' in
       let admin := adminSubmitCheckIn now requestId adminRole w' in
       Row.status (getRow found (spreadsheet w')) = status
       /\ fst employee = Success "Check-in successful."
       /\ Row.checkInTimestamp (getRow found (spreadsheet (snd employee)))
          = Some now
       /\ Row.status (getRow found (spreadsheet (snd employee))) = status
       /\ fst admin = Success "Admin check-in successful."
       /\ Row.checkInTimestamp (getRow found (spreadsheet (snd admin)))
          = Some now
       /\ Row.status (getRow found (spreadsheet (snd admin))) = status.
Proof.
  intros requestId Hvalid Hrole Hex. apply findRequestRow_exists in Hex.
  destruct Hex as [found Hfind]. exists found. split; [exact Hfind|].
  destruct (findRequestRowIn_Some _ _ _ _ Hfind)
    as (sheet & row & Hs & Hr & Hid & _ & _).
  intros w'.
  assert (Hw' : spreadsheet w'
                = <[Found.sheet found :=
                      <[(Found.row found - 1)%nat := Row.set_status status row]>
                        sheet]> (spreadsheet w)).
  { unfold w', setCell, with_spreadsheet. cbn [spreadsheet].
    apply (setValue_located _ _ _ _ _ Hs Hr). }
  assert (Hfind' : findRequestRow (spreadsheet w') requestId = Some found).
  { unfold w', setCell, with_spreadsheet. cbn [spreadsheet].
    rewrite findRequestRow_setValue by reflexivity. exact Hfind. }
  assert (Hs' : spreadsheet w' !! Found.sheet found
                = Some (<[(Found.row found - 1)%nat := Row.set_status status row]>
                          sheet)).
  { rewrite Hw'. apply lookup_insert_eq. }
  assert (Hr' : <[(Found.row found - 1)%nat := Row.set_status status row]> sheet
                !! (Found.row found - 1)%nat = Some (Row.set_status status row)).
  { apply list_lookup_insert_eq. eapply lookup_lt_Some, Hr. }
  destruct (submitCheckIn_located now checkInData w' found _ _ Hvalid Hfind'
              Hs' Hr') as (url & d' & _ & Hemp).
  pose proof (adminSubmitCheckIn_located now requestId adminRole w' found _ _
                (proj1 Hvalid) Hrole Hfind' Hs' Hr') as Hadm.
  cbv zeta. rewrite Hemp, Hadm. cbn [fst snd spreadsheet].
  rewrite (getRow_located _ _ _ _ Hs' Hr'), !(getRow_insert _ _ _ _ _ Hr').
  repeat split.
Qed.

(** C4 (as the code has it). A check-in on a request that already has a
    check-in timestamp is carried out like the first one: it reports
    success and the last writer wins. The employee path overwrites the
    timestamp, the photo and the location link, the admin path the
    timestamp, the location link and the admin note. *)
Theorem checkIn_overwrites `{Services} (now previous : Millis)
    (checkInData : CheckInData.t) (adminRole : string) (w : World)
    (found : Found.t) (sheet : list Row.t) (row : Row.t) :
  let requestId := CheckInData.requestId checkInData in
  validCheckIn checkInData ->
  adminRole <> "" ->
  findRequestRow (spreadsheet w) requestId = Some found ->
  spreadsheet w !! Found.sheet found = Some sheet ->
  sheet !! (Found.row found - 1)%nat = Some row ->
  Row.checkInTimestamp row = Some previous ->
  let employee := submitCheckIn now checkInData w in
  let admin := adminSubmitCheckIn now requestId adminRole w in
  (exists url,
      fst employee = Success "Check-in successful."
      /\ getRow found (spreadsheet (snd employee))
         = checkedInRow now (orEmpty url) (checkInLink checkInData) row)
  /\ fst admin = Success "Admin check-in successful."
  /\ getRow found (spreadsheet (snd admin)) = adminCheckedInRow now adminRole row
  /\ Row.checkInTimestamp (getRow found (spreadsheet (snd employee))) = Some now
  /\ Row.checkInTimestamp (getRow found (spreadsheet (snd admin))) = Some now.
Proof.
  intros requestId Hvalid Hrole Hfind Hs Hr _ employee admin.
  destruct (submitCheckIn_located now checkInData w found _ _ Hvalid Hfind Hs Hr)
    as (url & d' & _ & Hemp).
  pose proof (adminSubmitCheckIn_located now requestId adminRole w found _ _
                (proj1 Hvalid) Hrole Hfind Hs Hr) as Hadm.
  unfold employee, admin. rewrite Hemp, Hadm. cbn [fst snd spreadsheet].
  rewrite !(getRow_insert _ _ _ _ _ Hr).
  split; [exists url; split; reflexivity|]. repeat split.
Qed.

Lemma checkIn_ignores_status_witness :
  let w := Sample.world Sample.pendingLedger [Some "https://drive.example/in"] in
  let out := submitCheckIn (H := Sample.services) (Date.make 2024 5 1 12 0)
               (Sample.checkInPayload "REQ-20") w in
  Row.status (getRow (Found.mk PERMISSION_SHEET_NAME 2) (spreadsheet w)) = "Pending"
  /\ fst out = Success "Check-in successful."
  /\ Row.checkInTimestamp
       (getRow (Found.mk PERMISSION_SHEET_NAME 2) (spreadsheet (snd out)))
     = Some (Date.make 2024 5 1 12 0).
Proof.
  destruct (checkIn_ignores_status (H := Sample.services)
              (Date.make 2024 5 1 12 0) (Sample.checkInPayload "REQ-20")
              "Admin" "Pending"
              (Sample.world Sample.pendingLedger [Some "https://drive.example/in"]))
    as (found & Hfind & Hrest).
  { repeat split; try discriminate; reflexivity. }
  { discriminate. }
  { exists (Sample.request "REQ-20" "E1" PERMISSION_SHEET_NAME
              (Date.make 2024 5 1 0 0) (DayNumber 1) "Pending" None).
    split; [vm_compute; left; reflexivity|reflexivity]. }
  vm_compute in Hfind. injection Hfind as <-.
  cbv zeta. repeat split; vm_compute; reflexivity.
Defined.

Lemma checkIn_overwrites_witness :
  let w := Sample.world Sample.checkedInLedger [Some "https://drive.example/second"] in
  let found := Found.mk PERMISSION_SHEET_NAME 2 in
  Row.checkInTimestamp (getRow found (spreadsheet w))
  = Some (Date.make 2024 5 1 12 0)
  /\ Row.checkInTimestamp
       (getRow found
          (spreadsheet
             (snd (submitCheckIn (H := Sample.services) (Date.make 2024 5 1 17 0)
                     (Sample.checkInPayload "REQ-40") w))))
     = Some (Date.make 2024 5 1 17 0).
Proof.
  cbv zeta. split; [vm_compute; reflexivity|].
  eapply (checkIn_overwrites (H := Sample.services) (Date.make 2024 5 1 17 0)
            (Date.make 2024 5 1 12 0) (Sample.checkInPayload "REQ-40") "Admin"
            (Sample.world Sample.checkedInLedger
               [Some "https://drive.example/second"])
            (Found.mk PERMISSION_SHEET_NAME 2)).
  - repeat split; try discriminate; reflexivity.
  - discriminate.
  - vm_compute. reflexivity.
  - vm_compute. reflexivity.
  - vm_compute. reflexivity.
  - vm_compute. reflexivity.
Defined.

(** C4 as stated fails: a second check-in is not refused. On a request
    checked in at 12:00, the employee's check-in at 17:00 and the admin's
    both report success and store 17:00; no result of the code reports an
    earlier check-in. *)
Lemma checkIn_second_writer_wins :
  let w := Sample.world Sample.checkedInLedger [Some "https://drive.example/second"] in
  let found := Found.mk PERMISSION_SHEET_NAME 2 in
  let employee := submitCheckIn (H := Sample.services) (Date.make 2024 5 1 17 0)
                    (Sample.checkInPayload "REQ-40") w in
  let admin := adminSubmitCheckIn (H := Sample.services) (Date.make 2024 5 1 17 0)
                 "REQ-40" "Admin" w in
  Row.checkInTimestamp (getRow found (spreadsheet w))
  = Some (Date.make 2024 5 1 12 0)
  /\ fst employee = Success "Check-in successful."
  /\ Row.checkInTimestamp (getRow found (spreadsheet (snd employee)))
     <> Row.checkInTimestamp (getRow found (spreadsheet w))
  /\ Row.checkInPhoto (getRow found (spreadsheet (snd employee)))
     <> Row.checkInPhoto (getRow found (spreadsheet w))
  /\ fst admin = Success "Admin check-in successful."
  /\ Row.checkInTimestamp (getRow found (spreadsheet (snd admin)))
     <> Row.checkInTimestamp (getRow found (spreadsheet w)).
Proof.
  cbv zeta. repeat split; vm_compute; try reflexivity; discriminate.
Qed.

(** ** Lifecycle engine: how the operations change the status *)

Lemma rowsRelated_refl (R : Row.t -> Row.t -> Prop)
    (ss : gmap string (list Row.t)) :
  (forall r, R r r) -> rowsRelated R ss ss.
Proof. intros Hrefl sheetName sheet k row Hs Hr. exists sheet, row. auto. Qed.

Lemma rowsRelated_trans (R : Row.t -> Row.t -> Prop)
    (ss1 ss2 ss3 : gmap string (list Row.t)) :
  (forall a b c, R a b -> R b c -> R a c) ->
  rowsRelated R ss1 ss2 -> rowsRelated R ss2 ss3 -> rowsRelated R ss1 ss3.
Proof.
  intros Htrans H12 H23 sheetName sheet k row Hs Hr.
  destruct (H12 _ _ _ _ Hs Hr) as (sheet2 & row2 & Hs2 & Hr2 & HR2).
  destruct (H23 _ _ _ _ Hs2 Hr2) as (sheet3 & row3 & Hs3 & Hr3 & HR3).
  exists sheet3, row3. eauto.
Qed.

Lemma rowsRelated_setValue (R : Row.t -> Row.t -> Prop) (found : Found.t)
    (set : Row.t -> Row.t) (ss : gmap string (list Row.t)) :
  (forall r, R r r) -> (forall r, R r (set r)) ->
  rowsRelated R ss (setValue found set ss).
Proof.
  intros Hrefl Hset sheetName sheet k row Hs Hr. unfold setValue.
  rewrite lookup_alter.
  destruct (decide (Found.sheet found = sheetName)) as [Heq|Hne].
  - rewrite <- Heq in Hs. rewrite Heq, <- Heq, Hs. simpl.
    exists (alter set (Found.row found - 1)%nat sheet).
    rewrite list_lookup_alter.
    destruct (decide (Found.row found - 1 = k)%nat) as [<-|Hk].
    + rewrite Hr. simpl. exists (set row). auto.
    + exists row. auto.
  - exists sheet, row. auto.
Qed.

Lemma rowsRelated_located (R : Row.t -> Row.t -> Prop) (found : Found.t)
    (ss : gmap string (list Row.t)) (sheet : list Row.t) (row row' : Row.t) :
  (forall r, R r r) ->
  ss !! Found.sheet found = Some sheet ->
  sheet !! (Found.row found - 1)%nat = Some row ->
  R row row' ->
  rowsRelated R ss
    (<[Found.sheet found := <[(Found.row found - 1)%nat := row']> sheet]> ss).
Proof.
  intros Hrefl Hs Hr HR sheetName sheet0 k row0 Hs0 Hr0.
  rewrite lookup_insert.
  destruct (decide (Found.sheet found = sheetName)) as [Heq|Hne].
  - rewrite <- Heq in Hs0. rewrite Hs in Hs0. injection Hs0 as <-.
    exists (<[(Found.row found - 1)%nat := row']> sheet).
    rewrite list_lookup_insert.
    destruct (decide _) as [[<- _]|Hk].
    + rewrite Hr in Hr0. injection Hr0 as <-. exists row'. auto.
    + exists row0. auto.
  - exists sheet0, row0. auto.
Qed.

Lemma rowsRelated_append (R : Row.t -> Row.t -> Prop) (sheetName : string)
    (newRow : Row.t) (ss : gmap string (list Row.t)) :
  (forall r, R r r) ->
  rowsRelated R ss (alter (fun sheet : list Row.t => app sheet [newRow]) sheetName ss).
Proof.
  intros Hrefl name sheet k row Hs Hr. rewrite lookup_alter.
  destruct (decide (sheetName = name)) as [->|Hne].
  - rewrite Hs. simpl. exists (sheet ++ [newRow])%list, row.
    split; [reflexivity|]. split; [|apply Hrefl].
    rewrite lookup_app_l; [exact Hr|]. eapply lookup_lt_Some, Hr.
  - exists sheet, row. auto.
Qed.

Lemma rowsRelated_insertSheet (R : Row.t -> Row.t -> Prop) (sheetName : string)
    (ss : gmap string (list Row.t)) :
  (forall r, R r r) -> ss !! sheetName = None ->
  rowsRelated R ss (<[sheetName := []]> ss).
Proof.
  intros Hrefl Hnone name sheet k row Hs Hr.
  exists sheet, row. split; [|auto].
  rewrite lookup_insert_ne; [exact Hs|]. intros ->. congruence.
Qed.

Lemma statusStep_refl (op : Operation) (r : Row.t) : statusStep op r r.
Proof. split; [reflexivity|left; reflexivity]. Qed.

Lemma statusStep_same (op : Operation) (r r' : Row.t) :
  Row.requestId r' = Row.requestId r -> Row.status r' = Row.status r ->
  statusStep op r r'.
Proof. intros Hid Hst. split; [exact Hid|left; exact Hst]. Qed.

Lemma statusStep_trans (op : Operation) (a b c : Row.t) :
  (forall requestId outcome actor reason,
      op <> Decide requestId outcome actor reason) ->
  statusStep op a b -> statusStep op b c -> statusStep op a c.
Proof.
  intros Hop [Hid1 Hst1] [Hid2 Hst2]. split; [congruence|].
  unfold statusChange in *. destruct op;
    try (left; destruct Hst1 as [H1|[]], Hst2 as [H2|[]]; congruence).
  - exfalso. eapply Hop. reflexivity.
  - destruct Hst2 as [H2|H2]; [rewrite H2; exact Hst1|right; exact H2].
Qed.

Lemma submitLeaveRequest_related `{Services} (now : Millis)
    (leaveDetails : LeaveDetails.t) (w : World) :
  rowsRelated (statusStep (Submit leaveDetails)) (spreadsheet w)
    (spreadsheet (snd (submitLeaveRequest now leaveDetails w))).
Proof.
  assert (Hrefl := statusStep_refl (Submit leaveDetails)).
  destruct w as [ss snt cache es d]. unfold submitLeaveRequest.
  destruct (negb _ || negb _); [apply rowsRelated_refl, Hrefl|].
  world_step.
  destruct (ss !! LeaveDetails.leaveType leaveDetails) eqn:Hsheet;
    world_step;
    repeat match goal with
    | |- context [if ?c then _ else _] => destruct c; world_step
    | |- context [saveImageToDrive ?a ?b ?c ?x] =>
        destruct (saveImageToDrive a b c x); world_step
    | |- context [saveMultipleImagesToDrive ?a ?b ?c ?x] =>
        destruct (saveMultipleImagesToDrive a b c x); world_step
    end;
    try (apply rowsRelated_append, Hrefl);
    (eapply rowsRelated_trans;
     [intros a b c; apply statusStep_trans; discriminate
     |apply rowsRelated_insertSheet; [exact Hrefl|exact Hsheet]
     |apply rowsRelated_append, Hrefl]).
Qed.

Lemma updateLeaveRequest_related `{Services} (details : LeaveDetails.t)
    (w : World) :
  rowsRelated (statusStep (Resubmit details)) (spreadsheet w)
    (spreadsheet (snd (updateLeaveRequest details w))).
Proof.
  assert (Hrefl := statusStep_refl (Resubmit details)).
  destruct (JS.nonEmpty (LeaveDetails.requestId details)) eqn:Hid.
  - destruct (findRequestRow (spreadsheet w) (LeaveDetails.requestId details))
      as [found|] eqn:Hfind.
    + destruct (findRequestRowIn_Some _ _ _ _ Hfind)
        as (sheet & row & Hs & Hr & _).
      assert (Hne : LeaveDetails.requestId details <> "").
      { intros Heq. rewrite Heq in Hid. discriminate. }
      destruct (updateLeaveRequest_located details w found sheet row Hne Hfind
                  Hs Hr) as (selfieUrl & documentUrlsJson & d' & -> & _).
      cbn [snd spreadsheet].
      apply (rowsRelated_located _ found _ sheet row); try assumption.
      split; [reflexivity|right; reflexivity].
    + unfold updateLeaveRequest. rewrite Hid, Hfind.
      apply rowsRelated_refl, Hrefl.
  - unfold updateLeaveRequest. rewrite Hid. apply rowsRelated_refl, Hrefl.
Qed.

Lemma submitCheckIn_related `{Services} (now : Millis)
    (checkInData : CheckInData.t) (w : World) :
  rowsRelated (statusStep (CheckIn checkInData)) (spreadsheet w)
    (spreadsheet (snd (submitCheckIn now checkInData w))).
Proof.
  assert (Hrefl := statusStep_refl (CheckIn checkInData)).
  destruct w as [ss snt cache es d]. unfold submitCheckIn. world_step.
  repeat match goal with
  | |- context [if ?c then _ else _] =>
      destruct c; world_step; [apply rowsRelated_refl, Hrefl|]
  end.
  destruct (findRequestRow ss _) as [found|];
    [|apply rowsRelated_refl, Hrefl].
  destruct (saveImageToDrive _ _ _ d) as [url d']. world_step.
  rewrite !setValue_setValue.
  apply rowsRelated_setValue; [exact Hrefl|].
  intros r. apply statusStep_same; reflexivity.
Qed.

Lemma adminSubmitCheckIn_related `{Services} (now : Millis)
    (requestId adminRole : string) (w : World) :
  rowsRelated (statusStep (AdminCheckIn requestId adminRole)) (spreadsheet w)
    (spreadsheet (snd (adminSubmitCheckIn now requestId adminRole w))).
Proof.
  assert (Hrefl := statusStep_refl (AdminCheckIn requestId adminRole)).
  destruct w as [ss snt cache es d]. unfold adminSubmitCheckIn. world_step.
  destruct (negb _ || negb _); [apply rowsRelated_refl, Hrefl|].
  destruct (findRequestRow ss _) as [found|];
    [|apply rowsRelated_refl, Hrefl].
  world_step. rewrite !setValue_setValue.
  apply rowsRelated_setValue; [exact Hrefl|].
  intros r. apply statusStep_same; reflexivity.
Qed.

Lemma scanRows_related `{Services} (now : Millis)
    (employeeMap : gmap string EmployeeInfo) (values : list Row.t) :
  forall (i : nat) (w : World),
  rowsRelated (statusStep Scan) (spreadsheet w)
    (spreadsheet (scanRows now employeeMap values i w)).
Proof.
  assert (Hrefl := statusStep_refl Scan).
  induction values as [|row values IH]; intros i w; simpl.
  - apply rowsRelated_refl, Hrefl.
  - eapply rowsRelated_trans; [| |apply IH].
    + intros a b c. apply statusStep_trans. discriminate.
    + destruct (escalation now row) as [mark|];
        [|apply rowsRelated_refl, Hrefl].
      world_step. apply rowsRelated_setValue; [exact Hrefl|].
      intros r. apply statusStep_same; reflexivity.
Qed.

Lemma checkForOverdueCheckIns_related `{Services} (now : Millis) (w : World) :
  rowsRelated (statusStep Scan) (spreadsheet w)
    (spreadsheet (checkForOverdueCheckIns now w)).
Proof.
  assert (Hrefl := statusStep_refl Scan).
  unfold checkForOverdueCheckIns.
  destruct (employeeCache w) as [employeeMap|]; world_step;
    (destruct (spreadsheet w !! PERMISSION_SHEET_NAME) as [sheet|] eqn:Hs;
     [destruct (getLastRow sheet <? 2)%nat|]; world_step;
     try (apply rowsRelated_refl, Hrefl)).
  - exact (scanRows_related now employeeMap (getValues sheet) 0 w).
  - exact (scanRows_related now (employeeSheet w) (getValues sheet) 0
             (with_cache (Some (employeeSheet w)) w)).
Qed.

Lemma updateRequestStatus_related `{Services} (now : Millis)
    (requestId : string) (outcome : Outcome) (actor reason : string)
    (w : World) :
  rowsRelated (statusStep (Decide requestId outcome actor reason))
    (spreadsheet w)
    (spreadsheet
       (snd (updateRequestStatus now requestId (outcomeName outcome) actor
               reason w))).
Proof.
  assert (Hrefl := statusStep_refl (Decide requestId outcome actor reason)).
  unfold updateRequestStatus.
  destruct (negb _ || negb _); [apply rowsRelated_refl, Hrefl|].
  destruct (findRequestRow (spreadsheet w) requestId) as [found|] eqn:Hfind;
    [|apply rowsRelated_refl, Hrefl].
  destruct (findRequestRowIn_Some _ _ _ _ Hfind) as (sheet & row & Hs & Hr & _).
  rewrite (getRow_located _ _ _ _ Hs Hr).
  destruct (String.eqb_spec (Row.status row) "Pending") as [Hpending|Hother];
    [|apply rowsRelated_refl, Hrefl].
  cbn [negb]. cbv zeta.
  destruct (String.eqb (outcomeName outcome) "Rejected" && JS.nonEmpty reason);
    rewrite !setCell_setCell, (setCell_located found _ _ sheet row Hs Hr);
    world_step;
    (apply (rowsRelated_located _ found _ sheet row); try assumption;
     split; [reflexivity|right; split; [exact Hpending|reflexivity]]).
Qed.

Lemma deleteLeaveRequest_sheets `{Services} (requestId : string) (w : World) :
  forall sheetName sheet,
    spreadsheet w !! sheetName = Some sheet ->
    exists sheet',
      spreadsheet (snd (deleteLeaveRequest requestId w)) !! sheetName = Some sheet'
      /\ (sheet' = sheet \/ exists k, sheet' = delete k sheet).
Proof.
  intros sheetName sheet Hs. unfold deleteLeaveRequest.
  destruct (negb _); [exists sheet; auto|].
  destruct (findRequestRow (spreadsheet w) requestId) as [found|];
    [|exists sheet; auto].
  world_step. unfold deleteRow. rewrite lookup_alter.
  destruct (decide (Found.sheet found = sheetName)) as [Heq|Hne].
  - rewrite Heq, Hs. simpl. eexists. split; [reflexivity|]. right. eauto.
  - exists sheet. auto.
Qed.

Lemma submitLeaveRequest_appends `{Services} (now : Millis)
    (leaveDetails : LeaveDetails.t) (w : World) :
  LeaveDetails.leaveType leaveDetails <> "" ->
  LeaveDetails.employeeId leaveDetails <> "" ->
  exists sheet newRow,
    spreadsheet (snd (submitLeaveRequest now leaveDetails w))
      !! LeaveDetails.leaveType leaveDetails = Some (sheet ++ [newRow])%list
    /\ Row.status newRow = "Pending"
    /\ Row.requestId newRow = "REQ-" +:+ pretty now
    /\ fst (submitLeaveRequest now leaveDetails w)
       = Success ("REQ-" +:+ pretty now).
Proof.
  intros Htype Hemp. destruct w as [ss snt cache es d].
  unfold submitLeaveRequest.
  rewrite (nonEmpty_true _ Htype), (nonEmpty_true _ Hemp). cbn [negb orb].
  world_step.
  destruct (ss !! LeaveDetails.leaveType leaveDetails) as [sheet|] eqn:Hsheet;
    world_step;
    repeat match goal with
    | |- context [if ?c then _ else _] => destruct c; world_step
    | |- context [saveImageToDrive ?a ?b ?c ?x] =>
        destruct (saveImageToDrive a b c x); world_step
    | |- context [saveMultipleImagesToDrive ?a ?b ?c ?x] =>
        destruct (saveMultipleImagesToDrive a b c x); world_step
    end;
    rewrite lookup_alter_eq;
    try rewrite Hsheet; try rewrite lookup_insert_eq;
    cbn [fmap option_fmap option_map];
    eexists _, _; (split; [reflexivity|]); repeat split.
Qed.

Lemma step_related `{Services} (now : Millis) (op : Operation) (w : World) :
  (forall requestId, op <> Delete requestId) ->
  rowsRelated (statusStep op) (spreadsheet w) (spreadsheet (step now op w)).
Proof.
  intros Hop. destruct op; simpl step.
  - apply submitLeaveRequest_related.
  - apply updateRequestStatus_related.
  - apply updateLeaveRequest_related.
  - apply submitCheckIn_related.
  - apply adminSubmitCheckIn_related.
  - exfalso. eapply Hop. reflexivity.
  - apply checkForOverdueCheckIns_related.
Qed.

Lemma run_keeps_decided `{Services} (ops : list (Millis * Operation)) :
  Forall (fun timed => keepsDecisions (snd timed)) ops ->
  forall (w : World) sheetName sheet k row,
    spreadsheet w !! sheetName = Some sheet -> sheet !! k = Some row ->
    isDecided row ->
    exists sheet' row',
      spreadsheet (run ops w) !! sheetName = Some sheet'
      /\ sheet' !! k = Some row'
      /\ Row.requestId row' = Row.requestId row
      /\ Row.status row' = Row.status row.
Proof.
  intros Hops. induction Hops as [|[now op] ops Hop Hops IH];
    intros w sheetName sheet k row Hs Hr Hdecided.
  - exists sheet, row. auto.
  - simpl in Hop. unfold run. cbn [fold_left fst snd]. fold (run ops (step now op w)).
    assert (Hnodelete : forall requestId, op <> Delete requestId).
    { intros requestId ->. exact Hop. }
    destruct (step_related now op w Hnodelete _ _ _ _ Hs Hr)
      as (sheet1 & row1 & Hs1 & Hr1 & Hid1 & Hst1).
    assert (Hsame : Row.status row1 = Row.status row).
    { destruct Hst1 as [Hsame|Hchange]; [exact Hsame|].
      destruct op; try contradiction.
      destruct Hchange as [Hpending _].
      destruct Hdecided as [Hd|Hd]; rewrite Hd in Hpending; discriminate. }
    destruct (IH (step now op w) sheetName sheet1 k row1 Hs1 Hr1)
      as (sheet' & row' & Hs' & Hr' & Hid' & Hst').
    { unfold isDecided. rewrite Hsame. exact Hdecided. }
    exists sheet', row'. repeat split; try assumption; congruence.
Qed.

(** C2 (as the code has it). Every operation other than a deletion keeps
    every existing row in its place with its request id, and changes its
    status only as follows: a decision moves a Pending row to its outcome,
    a resubmission moves a row from any status, Approved and Rejected
    included, to Pending, and submission, both check-ins and the scanner
    leave every status as it is. A deletion removes at most one row and
    changes no other. A submission appends a Pending row. Hence along every
    sequence of operations without resubmission and deletion an Approved or
    Rejected request keeps its status. *)
Theorem status_transitions `{Services} (now : Millis) (op : Operation)
    (w : World) :
  ((forall requestId, op <> Delete requestId) ->
   forall sheetName sheet k row,
     spreadsheet w !! sheetName = Some sheet -> sheet !! k = Some row ->
     exists sheet' row',
       spreadsheet (step now op w) !! sheetName = Some sheet'
       /\ sheet' !! k = Some row'
       /\ Row.requestId row' = Row.requestId row
       /\ (Row.status row' = Row.status row
           \/ match op with
              | Decide _ outcome _ _ =>
                  Row.status row = "Pending"
                  /\ Row.status row' = outcomeName outcome
              | Resubmit _ => Row.status row' = "Pending"
              | _ => False
              end))
  /\ (forall requestId, op = Delete requestId ->
      forall sheetName sheet,
        spreadsheet w !! sheetName = Some sheet ->
        exists sheet',
          spreadsheet (step now op w) !! sheetName = Some sheet'
          /\ (sheet' = sheet \/ exists k, sheet' = delete k sheet))
  /\ (forall details found,
        op = Resubmit details ->
        LeaveDetails.requestId details <> "" ->
        findRequestRow (spreadsheet w) (LeaveDetails.requestId details)
        = Some found ->
        Row.status (getRow found (spreadsheet (step now op w))) = "Pending")
  /\ (forall leaveDetails,
        op = Submit leaveDetails ->
        LeaveDetails.leaveType leaveDetails <> "" ->
        LeaveDetails.employeeId leaveDetails <> "" ->
        exists sheet newRow,
          spreadsheet (step now op w) !! LeaveDetails.leaveType leaveDetails
          = Some (sheet ++ [newRow])%list
          /\ Row.status newRow = "Pending")
  /\ (forall ops,
        Forall (fun timed => keepsDecisions (snd timed)) ops ->
        forall sheetName sheet k row,
          spreadsheet w !! sheetName = Some sheet -> sheet !! k = Some row ->
          isDecided row ->
          exists sheet' row',
            spreadsheet (run ops w) !! sheetName = Some sheet'
            /\ sheet' !! k = Some row'
            /\ Row.requestId row' = Row.requestId row
            /\ Row.status row' = Row.status row).
Proof.
  split; [|split; [|split; [|split]]].
  - intros Hop sheetName sheet k row Hs Hr.
    destruct (step_related now op w Hop _ _ _ _ Hs Hr)
      as (sheet' & row' & Hs' & Hr' & Hid & Hst).
    exists sheet', row'. auto.
  - intros requestId -> sheetName sheet Hs. simpl step.
    apply deleteLeaveRequest_sheets. exact Hs.
  - intros details found -> Hne Hfind. simpl step.
    destruct (findRequestRowIn_Some _ _ _ _ Hfind) as (sheet & row & Hs & Hr & _).
    destruct (updateLeaveRequest_located details w found sheet row Hne Hfind
                Hs Hr) as (selfieUrl & documentUrlsJson & d' & -> & _).
    cbn [snd spreadsheet]. rewrite (getRow_insert _ _ _ _ _ Hr). reflexivity.
  - intros leaveDetails -> Htype Hemp. simpl step.
    destruct (submitLeaveRequest_appends now leaveDetails w Htype Hemp)
      as (sheet & newRow & Hs & Hst & _).
    exists sheet, newRow. auto.
  - intros ops Hops. apply run_keeps_decided. exact Hops.
Qed.

Lemma status_transitions_witness :
  let w := Sample.world Sample.pendingLedger [] in
  let op := Decide "REQ-20" Approved "Admin" "" in
  exists sheet' row',
    spreadsheet (step (H := Sample.services) (Date.make 2024 5 1 9 0) op w)
      !! PERMISSION_SHEET_NAME = Some sheet'
    /\ sheet' !! 1%nat = Some row'
    /\ Row.status row' = "Approved".
Proof.
  cbv zeta.
  destruct (status_transitions (H := Sample.services) (Date.make 2024 5 1 9 0)
              (Decide "REQ-20" Approved "Admin" "")
              (Sample.world Sample.pendingLedger [])) as [Hkeep _].
  destruct (Hkeep ltac:(discriminate) PERMISSION_SHEET_NAME
              [blankRow;
               Sample.request "REQ-20" "E1" PERMISSION_SHEET_NAME
                 (Date.make 2024 5 1 0 0) (DayNumber 1) "Pending" None]
              1%nat
              (Sample.request "REQ-20" "E1" PERMISSION_SHEET_NAME
                 (Date.make 2024 5 1 0 0) (DayNumber 1) "Pending" None))
    as (sheet' & row' & Hs' & Hr' & _ & Hst).
  { vm_compute. reflexivity. }
  { reflexivity. }
  exists sheet', row'. split; [exact Hs'|]. split; [exact Hr'|].
  vm_compute in Hs'. injection Hs' as <-.
  vm_compute in Hr'. injection Hr' as <-. reflexivity.
Defined.

(** C2 as stated fails: a resubmission moves an Approved request back to
    Pending. *)
Lemma resubmission_leaves_Approved :
  let w := Sample.world Sample.approvedLedger [] in
  let found := Found.mk PERMISSION_SHEET_NAME 2 in
  let w' := step (H := Sample.services) (Date.make 2024 5 1 9 0)
              (Resubmit Sample.editWithUrl) w in
  Row.requestId (getRow found (spreadsheet w)) = "REQ-30"
  /\ Row.status (getRow found (spreadsheet w)) = "Approved"
  /\ Row.requestId (getRow found (spreadsheet w')) = "REQ-30"
  /\ Row.status (getRow found (spreadsheet w')) = "Pending".
Proof. cbv zeta. repeat split; vm_compute; reflexivity. Qed.

(** ** Escalation scanner *)

Lemma setHours_midnight (h m : Z) (t : Millis) :
  Date.setHours h m (Date.setHours 0 0 t) = Date.setHours h m t.
Proof.
  unfold Date.setHours, Date.dayNumber, Date.MS_PER_DAY.
  replace (t / 86400000 * 86400000 + 0 * Date.MS_PER_HOUR
           + 0 * Date.MS_PER_MINUTE)
    with (t / 86400000 * 86400000) by lia.
  rewrite Z.div_mul by lia. reflexivity.
Qed.

Lemma setHours_next_day (h m : Z) (t : Millis) :
  Date.setHours h m (Date.addDays 1 (Date.setHours 0 0 t))
  = Date.setHours h m t + Date.MS_PER_DAY.
Proof.
  unfold Date.setHours, Date.addDays, Date.dayNumber, Date.MS_PER_DAY.
  replace (t / 86400000 * 86400000 + 0 * Date.MS_PER_HOUR
           + 0 * Date.MS_PER_MINUTE + 1 * 86400000)
    with ((t / 86400000 + 1) * 86400000) by lia.
  rewrite Z.div_mul by lia. lia.
Qed.

Lemma escalation_skipped (now : Millis) (row : Row.t) :
  Row.status row <> "Approved" \/ Row.checkInTimestamp row <> None ->
  escalation now row = None.
Proof.
  unfold escalation. intros [Hst|Hck].
  - apply String.eqb_neq in Hst. rewrite Hst, orb_true_r. reflexivity.
  - destruct (Row.checkInTimestamp row); [reflexivity|congruence].
Qed.

Lemma escalation_fullDay (midnight now : Millis) (row : Row.t) :
  awaitsCheckIn midnight row -> isHalfDay row = false ->
  escalation now row =
  if (Date.setHours 5 0 (Date.addDays 1 midnight) <? now)
     && negb (String.eqb (Row.notificationSent row) "OverdueDay")
  then Some "OverdueDay"
  else if (Date.setHours 18 0 midnight <? now)
          && (now <? Date.setHours 5 0 (Date.addDays 1 midnight))
          && negb (JS.nonEmpty (Row.notificationSent row))
  then Some "OverdueTime"
  else None.
Proof.
  intros (Hst & Hck & startDate & Hsd & Hmid) Hfull.
  unfold escalation. unfold isHalfDay in Hfull.
  rewrite Hst, Hck, Hsd, Hfull. simpl. rewrite Hmid. reflexivity.
Qed.

Lemma escalation_halfDay (midnight now : Millis) (row : Row.t) :
  awaitsCheckIn midnight row -> isHalfDay row = true ->
  escalation now row =
  if Date.ltb (Row.approvalTimestamp row) (Some (Date.setHours 8 31 midnight))
  then
    if (Date.setHours 14 30 midnight <? now)
       && String.eqb (Row.notificationSent row) "OverdueHalfDay_1"
    then Some "OverdueHalfDay_2"
    else if (Date.setHours 11 30 midnight <? now)
            && negb (JS.nonEmpty (Row.notificationSent row))
    then Some "OverdueHalfDay_1"
    else None
  else None.
Proof.
  intros (Hst & Hck & startDate & Hsd & Hmid) Hhalf.
  unfold escalation. unfold isHalfDay in Hhalf.
  rewrite Hst, Hck, Hsd, Hhalf. simpl. rewrite Hmid. reflexivity.
Qed.

Lemma scanRow_keeps (now midnight : Millis) (row : Row.t) :
  (awaitsCheckIn midnight row -> awaitsCheckIn midnight (scanRow now row))
  /\ isHalfDay (scanRow now row) = isHalfDay row
  /\ Row.approvalTimestamp (scanRow now row) = Row.approvalTimestamp row.
Proof.
  unfold scanRow.
  destruct (escalation now row);
    (split; [intros Ha; exact Ha|split; reflexivity]).
Qed.

Lemma scanRows_run `{Services} (now : Millis)
    (employeeMap : gmap string EmployeeInfo) (values : list Row.t) :
  forall (i : nat) (w : World) (before : list Row.t),
  spreadsheet w !! PERMISSION_SHEET_NAME = Some (before ++ values)%list ->
  length before = S i ->
  scanRows now employeeMap values i w =
  mkWorld _
    (<[PERMISSION_SHEET_NAME := (before ++ map (scanRow now) values)%list]>
       (spreadsheet w))
    (sent w ++ flat_map (notificationsFor employeeMap now) values)
    (employeeCache w) (employeeSheet w) (drive w).
Proof.
  induction values as [|row values IH]; intros i w before Hs Hlen.
  - rewrite app_nil_r in Hs. simpl.
    rewrite !app_nil_r, insert_id by exact Hs.
    destruct w; reflexivity.
  - assert (Hr : (before ++ row :: values)%list !! (i + 2 - 1)%nat = Some row).
    { rewrite lookup_app_r by lia.
      replace (i + 2 - 1 - length before)%nat with O by lia. reflexivity. }
    assert (Hins : forall row', <[(i + 2 - 1)%nat := row']> (before ++ row :: values)%list
                   = ((before ++ [row']) ++ values)%list).
    { intros row'. rewrite insert_app_r_alt by lia.
      replace (i + 2 - 1 - length before)%nat with O by lia.
      rewrite <- app_assoc. reflexivity. }
    simpl scanRows. unfold notificationsFor, scanRow.
    cbn [flat_map map].
    destruct (escalation now row) as [mark|] eqn:Hesc.
    + erewrite (IH (S i) _ (before ++ [Row.set_notificationSent mark row])%list).
      * world_step.
        rewrite (setValue_located (Found.mk PERMISSION_SHEET_NAME (i + 2)) _ _
                   (before ++ row :: values)%list row Hs Hr).
        cbn [Found.sheet Found.row].
        rewrite insert_insert_eq, <- !app_assoc. reflexivity.
      * world_step.
        rewrite (setValue_located (Found.mk PERMISSION_SHEET_NAME (i + 2)) _ _
                   (before ++ row :: values)%list row Hs Hr).
        cbn [Found.sheet Found.row].
        rewrite lookup_insert_eq, Hins. reflexivity.
      * rewrite length_app. simpl. lia.
    + erewrite (IH (S i) w (before ++ [row])%list).
      * rewrite <- !app_assoc. reflexivity.
      * rewrite <- app_assoc. exact Hs.
      * rewrite length_app. simpl. lia.
Qed.

Lemma checkForOverdueCheckIns_run `{Services} (now : Millis) (w : World)
    (header : Row.t) (values : list Row.t) :
  spreadsheet w !! PERMISSION_SHEET_NAME = Some (header :: values) ->
  let employeeMap := default (employeeSheet w) (employeeCache w) in
  spreadsheet (checkForOverdueCheckIns now w)
  = <[PERMISSION_SHEET_NAME := header :: map (scanRow now) values]>
      (spreadsheet w)
  /\ sent (checkForOverdueCheckIns now w)
     = (sent w ++ flat_map (notificationsFor employeeMap now) values)%list.
Proof.
  intros Hs employeeMap. unfold checkForOverdueCheckIns.
  assert (Hgen : forall w0 : World,
            spreadsheet w0 = spreadsheet w -> sent w0 = sent w ->
            let w' := match spreadsheet w0 !! PERMISSION_SHEET_NAME with
                      | Some sheet =>
                          if (getLastRow sheet <? 2)%nat then w0
                          else scanRows now employeeMap (getValues sheet) 0 w0
                      | None => w0
                      end in
            spreadsheet w'
            = <[PERMISSION_SHEET_NAME := header :: map (scanRow now) values]>
                (spreadsheet w)
            /\ sent w'
               = (sent w ++ flat_map (notificationsFor employeeMap now) values)%list).
  { intros w0 Hss Hsent. rewrite Hss, Hs. cbv zeta.
    destruct values as [|row values].
    - simpl. rewrite insert_id by exact Hs. rewrite app_nil_r. auto.
    - cbn [getLastRow length Nat.ltb Nat.leb getValues drop].
      rewrite (scanRows_run now employeeMap (row :: values) 0 w0 [header]).
      + cbn [spreadsheet sent]. rewrite Hss, Hsent. split; reflexivity.
      + rewrite Hss. exact Hs.
      + reflexivity. }
  unfold employeeMap in *.
  destruct (employeeCache w) as [cached|]; simpl default in *.
  - apply Hgen; reflexivity.
  - apply (Hgen (with_cache (Some (employeeSheet w)) w)); reflexivity.
Qed.

Lemma escalation_terminal (now : Millis) (row : Row.t) :
  (isHalfDay row = false /\ Row.notificationSent row = "OverdueDay")
  \/ (isHalfDay row = true /\ Row.notificationSent row = "OverdueHalfDay_2") ->
  escalation now row = None.
Proof.
  unfold escalation, isHalfDay.
  destruct (Date.present _ || negb _); [reflexivity|].
  intros [[-> ->]|[-> ->]]; simpl.
  - rewrite !andb_false_r. reflexivity.
  - destruct (Date.ltb _ _); [|reflexivity]. rewrite !andb_false_r. reflexivity.
Qed.

Lemma tierRank_below_OverdueDay (mark : string) :
  mark <> "OverdueDay" -> (tierRank mark < 4)%nat.
Proof.
  intros Hne. unfold tierRank.
  repeat match goal with
  | |- context [String.eqb ?a ?b] => destruct (String.eqb_spec a b)
  end; try lia. congruence.
Qed.

Lemma escalation_advances (now : Millis) (row : Row.t) (mark : string) :
  escalation now row = Some mark ->
  (tierRank (Row.notificationSent row) < tierRank mark)%nat.
Proof.
  unfold escalation.
  destruct (Date.present _ || negb _); [discriminate|].
  assert (Hnone : forall s, negb (JS.nonEmpty s) = true -> tierRank s = O).
  { intros [|c s]; [reflexivity|discriminate]. }
  destruct (JS.equalsNumber _ _).
  - destruct (Date.ltb _ _); [|discriminate].
    destruct (Date.gtb _ _ && String.eqb _ _) eqn:Hsecond.
    + intros [= <-]. apply andb_prop in Hsecond. destruct Hsecond as [_ Hm].
      apply String.eqb_eq in Hm. rewrite Hm. vm_compute. lia.
    + destruct (Date.gtb _ _ && negb _) eqn:Hfirst; [|discriminate].
      intros [= <-]. apply andb_prop in Hfirst. destruct Hfirst as [_ Hm].
      rewrite (Hnone _ Hm). vm_compute. lia.
  - destruct (Date.gtb _ _ && negb (String.eqb _ _)) eqn:Hday.
    + intros [= <-]. apply andb_prop in Hday. destruct Hday as [_ Hm].
      apply negb_true_iff, String.eqb_neq in Hm.
      apply tierRank_below_OverdueDay. exact Hm.
    + destruct (Date.gtb _ _ && Date.ltb _ _ && negb _) eqn:Htime; [|discriminate].
      intros [= <-]. apply andb_prop in Htime. destruct Htime as [_ Hm].
      rewrite (Hnone _ Hm). vm_compute. lia.
Qed.

(** C3 (as the code has it). For an Approved full-day Permission request
    without check-in and without mark: a run after 18:00 of the start date
    and before 05:00 of the next day sends exactly one OverdueTime message
    for it and records that mark; a further run up to 05:00 of the next day
    sends nothing and changes nothing; a run after 05:00 of the next day
    sends exactly one OverdueDay message and records it; after that no run
    sends anything for the request. In general a full-day row marked
    OverdueDay and a half-day row marked OverdueHalfDay_2 never escalate
    again, whereas a full-day row that carries the mark OverdueHalfDay_2
    still receives OverdueDay after 05:00 of the day after its start date;
    every escalation moves the mark strictly forward in the tier order. A
    run of the scanner sends, in order, the messages of the rows of the
    Permission sheet and rewrites only their marks. *)
Theorem fullDay_escalation `{Services}
    (employeeMap : gmap string EmployeeInfo) (midnight now1 now2 now3 : Millis)
    (row : Row.t) :
  awaitsCheckIn midnight row ->
  isHalfDay row = false ->
  Row.notificationSent row = "" ->
  Date.setHours 18 0 midnight < now1 ->
  now1 < Date.setHours 5 0 (Date.addDays 1 midnight) ->
  now2 <= Date.setHours 5 0 (Date.addDays 1 midnight) ->
  Date.setHours 5 0 (Date.addDays 1 midnight) < now3 ->
  let row1 := scanRow now1 row in
  let row2 := scanRow now2 row1 in
  let row3 := scanRow now3 row2 in
  (notificationsFor employeeMap now1 row
   = [overdueMessage employeeMap row "OverdueTime"]
   /\ row1 = Row.set_notificationSent "OverdueTime" row)
  /\ (notificationsFor employeeMap now2 row1 = [] /\ row2 = row1)
  /\ (notificationsFor employeeMap now3 row2
      = [overdueMessage employeeMap row2 "OverdueDay"]
      /\ row3 = Row.set_notificationSent "OverdueDay" row2)
  /\ (forall now, notificationsFor employeeMap now row3 = []
                  /\ scanRow now row3 = row3)
  /\ (forall now r,
        (isHalfDay r = false /\ Row.notificationSent r = "OverdueDay")
        \/ (isHalfDay r = true /\ Row.notificationSent r = "OverdueHalfDay_2") ->
        notificationsFor employeeMap now r = [] /\ scanRow now r = r)
  /\ (forall start now r,
        awaitsCheckIn start r -> isHalfDay r = false ->
        Row.notificationSent r = "OverdueHalfDay_2" ->
        Date.setHours 5 0 (Date.addDays 1 start) < now ->
        notificationsFor employeeMap now r
        = [overdueMessage employeeMap r "OverdueDay"]
        /\ scanRow now r = Row.set_notificationSent "OverdueDay" r)
  /\ (forall now r mark,
        escalation now r = Some mark ->
        (tierRank (Row.notificationSent r) < tierRank mark)%nat)
  /\ (forall now (w : World) header values,
        spreadsheet w !! PERMISSION_SHEET_NAME = Some (header :: values) ->
        spreadsheet (checkForOverdueCheckIns now w)
        = <[PERMISSION_SHEET_NAME := header :: map (scanRow now) values]>
            (spreadsheet w)
        /\ sent (checkForOverdueCheckIns now w)
           = (sent w
              ++ flat_map
                   (notificationsFor
                      (default (employeeSheet w) (employeeCache w)) now)
                   values)%list).
Proof.
  intros Hawait Hfull Hmark H1 H1' H2 H3 row1 row2 row3.
  assert (Hstale : forall start now r,
            awaitsCheckIn start r -> isHalfDay r = false ->
            Row.notificationSent r = "OverdueHalfDay_2" ->
            Date.setHours 5 0 (Date.addDays 1 start) < now ->
            notificationsFor employeeMap now r
            = [overdueMessage employeeMap r "OverdueDay"]
            /\ scanRow now r = Row.set_notificationSent "OverdueDay" r).
  { intros start now r Hr Hf Hm Hlate. unfold notificationsFor, scanRow.
    rewrite (escalation_fullDay start now r Hr Hf), Hm.
    replace (Date.setHours 5 0 (Date.addDays 1 start) <? now) with true
      by (symmetry; apply Z.ltb_lt; lia).
    split; reflexivity. }
  assert (Hterminal : forall now r,
            (isHalfDay r = false /\ Row.notificationSent r = "OverdueDay")
            \/ (isHalfDay r = true /\ Row.notificationSent r = "OverdueHalfDay_2") ->
            notificationsFor employeeMap now r = [] /\ scanRow now r = r).
  { intros now r Hr. unfold notificationsFor, scanRow.
    rewrite (escalation_terminal now r Hr). split; reflexivity. }
  assert (Hfirst : escalation now1 row = Some "OverdueTime").
  { rewrite (escalation_fullDay midnight now1 row Hawait Hfull), Hmark.
    replace (Date.setHours 5 0 (Date.addDays 1 midnight) <? now1) with false
      by (symmetry; apply Z.ltb_ge; lia).
    replace (Date.setHours 18 0 midnight <? now1) with true
      by (symmetry; apply Z.ltb_lt; lia).
    replace (now1 <? Date.setHours 5 0 (Date.addDays 1 midnight)) with true
      by (symmetry; apply Z.ltb_lt; lia).
    reflexivity. }
  assert (Hrow1 : row1 = Row.set_notificationSent "OverdueTime" row).
  { unfold row1, scanRow. rewrite Hfirst. reflexivity. }
  assert (Hawait1 : awaitsCheckIn midnight row1) by (rewrite Hrow1; exact Hawait).
  assert (Hfull1 : isHalfDay row1 = false) by (rewrite Hrow1; exact Hfull).
  assert (Hsecond : escalation now2 row1 = None).
  { rewrite (escalation_fullDay midnight now2 row1 Hawait1 Hfull1), Hrow1.
    cbn [Row.notificationSent Row.set_notificationSent].
    replace (Date.setHours 5 0 (Date.addDays 1 midnight) <? now2) with false
      by (symmetry; apply Z.ltb_ge; lia).
    simpl. rewrite andb_false_r. reflexivity. }
  assert (Hrow2 : row2 = row1).
  { unfold row2, scanRow. rewrite Hsecond. reflexivity. }
  assert (Hthird : escalation now3 row2 = Some "OverdueDay").
  { rewrite Hrow2.
    rewrite (escalation_fullDay midnight now3 row1 Hawait1 Hfull1), Hrow1.
    cbn [Row.notificationSent Row.set_notificationSent].
    replace (Date.setHours 5 0 (Date.addDays 1 midnight) <? now3) with true
      by (symmetry; apply Z.ltb_lt; lia).
    reflexivity. }
  assert (Hrow3 : row3 = Row.set_notificationSent "OverdueDay" row2).
  { unfold row3, scanRow. rewrite Hthird. reflexivity. }
  split; [split; [unfold notificationsFor; rewrite Hfirst; reflexivity
                 |exact Hrow1]|].
  split; [split; [unfold notificationsFor; rewrite Hsecond; reflexivity
                 |exact Hrow2]|].
  split; [split; [unfold notificationsFor; rewrite Hthird; reflexivity
                 |exact Hrow3]|].
  split.
  { intros now. apply Hterminal. left. rewrite Hrow3, Hrow2.
    split; [exact Hfull1|reflexivity]. }
  split; [exact Hterminal|].
  split; [exact Hstale|].
  split; [intros now r mark; apply escalation_advances|].
  intros now w header values Hs.
  apply (checkForOverdueCheckIns_run now w header values Hs).
Qed.

Lemma fullDay_escalation_witness :
  let at1900 := Date.make 2024 5 1 19 0 in
  let at1930 := Date.make 2024 5 1 19 30 in
  let at0600 := Date.make 2024 5 2 6 0 in
  let row1 := scanRow at1900 Sample.fullDayRequest in
  let row3 := scanRow at0600 (scanRow at1930 row1) in
  notificationsFor ∅ at1900 Sample.fullDayRequest
  = [overdueMessage ∅ Sample.fullDayRequest "OverdueTime"]
  /\ Row.notificationSent row1 = "OverdueTime"
  /\ notificationsFor ∅ at1930 row1 = []
  /\ Row.notificationSent row3 = "OverdueDay".
Proof.
  destruct (fullDay_escalation (H := Sample.services) ∅
              (Date.make 2024 5 1 0 0) (Date.make 2024 5 1 19 0)
              (Date.make 2024 5 1 19 30) (Date.make 2024 5 2 6 0)
              Sample.fullDayRequest)
    as ((Hsent1 & Hrow1) & (Hsent2 & _) & (_ & Hrow3) & _).
  - split; [reflexivity|]. split; [reflexivity|].
    exists (Date.make 2024 5 1 0 0). split; reflexivity.
  - reflexivity.
  - reflexivity.
  - vm_compute. reflexivity.
  - vm_compute. reflexivity.
  - vm_compute. discriminate.
  - vm_compute. reflexivity.
  - cbv zeta. split; [exact Hsent1|]. split; [rewrite Hrow1; reflexivity|].
    split; [exact Hsent2|]. rewrite Hrow3. reflexivity.
Defined.

(** C3 as stated fails: a half-day request escalated up to OverdueHalfDay_2,
    then resubmitted as a full-day request and approved again, keeps that
    mark, and the scanner escalates it once more, to OverdueDay. *)
Lemma escalation_after_OverdueHalfDay_2 :
  let found := Found.mk PERMISSION_SHEET_NAME 2 in
  let w0 := Sample.world
              {[ PERMISSION_SHEET_NAME := [blankRow; Sample.halfDayRequest] ]}
              [] in
  let w2 := run (H := Sample.services)
              [(Date.make 2024 5 1 12 0, Scan);
               (Date.make 2024 5 1 15 0, Scan)] w0 in
  let w4 := run (H := Sample.services)
              [(Date.make 2024 5 1 16 0,
                Resubmit (Sample.details "REQ-51" "E1" PERMISSION_SHEET_NAME
                            "2024-05-02" (DayNumber 1) ""));
               (Date.make 2024 5 1 17 0, Decide "REQ-51" Approved "Admin" "")]
              w2 in
  let w5 := run (H := Sample.services) [(Date.make 2024 5 3 6 0, Scan)] w4 in
  Row.notificationSent (getRow found (spreadsheet w2)) = "OverdueHalfDay_2"
  /\ Row.requestId (getRow found (spreadsheet w4)) = "REQ-51"
  /\ Row.status (getRow found (spreadsheet w4)) = "Approved"
  /\ isHalfDay (getRow found (spreadsheet w4)) = false
  /\ Row.notificationSent (getRow found (spreadsheet w4)) = "OverdueHalfDay_2"
  /\ sent w5
     = (sent w4
        ++ [overdueMessage ∅ (getRow found (spreadsheet w4)) "OverdueDay"])%list
  /\ Row.notificationSent (getRow found (spreadsheet w5)) = "OverdueDay".
Proof. cbv zeta. repeat apply conj; vm_compute; reflexivity. Qed.

(** C9. For an Approved half-day Permission request without check-in an
    escalation fires only when the approval timestamp precedes 08:31 of the
    start date: without approval timestamp, or approved at or after 08:31,
    no run at any time sends anything. When it precedes 08:31, a run after
    11:30 on a row without mark sends OverdueHalfDay_1 and a run after 14:30
    on a row marked OverdueHalfDay_1 sends OverdueHalfDay_2. A run of the
    scanner sends the messages of the rows of the Permission sheet and
    rewrites only their marks. *)
Theorem halfDay_escalation `{Services}
    (employeeMap : gmap string EmployeeInfo) (midnight : Millis) (row : Row.t) :
  awaitsCheckIn midnight row ->
  isHalfDay row = true ->
  (forall now mark,
      escalation now row = Some mark ->
      exists approval,
        Row.approvalTimestamp row = Some approval
        /\ approval < Date.setHours 8 31 midnight)
  /\ ((Row.approvalTimestamp row = None
       \/ exists approval, Row.approvalTimestamp row = Some approval
                           /\ Date.setHours 8 31 midnight <= approval) ->
      forall now, notificationsFor employeeMap now row = []
                  /\ scanRow now row = row)
  /\ (forall approval now,
        Row.approvalTimestamp row = Some approval ->
        approval < Date.setHours 8 31 midnight ->
        (Row.notificationSent row = "" ->
         Date.setHours 11 30 midnight < now ->
         notificationsFor employeeMap now row
         = [overdueMessage employeeMap row "OverdueHalfDay_1"]
         /\ scanRow now row = Row.set_notificationSent "OverdueHalfDay_1" row)
        /\ (Row.notificationSent row = "OverdueHalfDay_1" ->
            Date.setHours 14 30 midnight < now ->
            notificationsFor employeeMap now row
            = [overdueMessage employeeMap row "OverdueHalfDay_2"]
            /\ scanRow now row = Row.set_notificationSent "OverdueHalfDay_2" row))
  /\ (forall now (w : World) header values,
        spreadsheet w !! PERMISSION_SHEET_NAME = Some (header :: values) ->
        spreadsheet (checkForOverdueCheckIns now w)
        = <[PERMISSION_SHEET_NAME := header :: map (scanRow now) values]>
            (spreadsheet w)
        /\ sent (checkForOverdueCheckIns now w)
           = (sent w
              ++ flat_map
                   (notificationsFor
                      (default (employeeSheet w) (employeeCache w)) now)
                   values)%list).
Proof.
  intros Hawait Hhalf.
  pose proof (fun now => escalation_halfDay midnight now row Hawait Hhalf) as Hesc.
  split; [|split; [|split]].
  - intros now mark. rewrite Hesc.
    destruct (Row.approvalTimestamp row) as [approval|]; simpl; [|discriminate].
    destruct (approval <? Date.setHours 8 31 midnight) eqn:Hlt; [|discriminate].
    intros _. exists approval. split; [reflexivity|]. apply Z.ltb_lt. exact Hlt.
  - intros Hunarmed now. unfold notificationsFor, scanRow. rewrite Hesc.
    replace (Date.ltb (Row.approvalTimestamp row)
               (Some (Date.setHours 8 31 midnight))) with false;
      [split; reflexivity|].
    destruct Hunarmed as [->|(approval & -> & Hge)]; [reflexivity|].
    simpl. symmetry. apply Z.ltb_ge. exact Hge.
  - intros approval now Happ Hlt.
    assert (Harmed : Date.ltb (Row.approvalTimestamp row)
                       (Some (Date.setHours 8 31 midnight)) = true).
    { rewrite Happ. simpl. apply Z.ltb_lt. exact Hlt. }
    unfold notificationsFor, scanRow. rewrite Hesc, Harmed. split.
    + intros -> Hnow. simpl.
      replace (Date.setHours 11 30 midnight <? now) with true
        by (symmetry; apply Z.ltb_lt; exact Hnow).
      rewrite andb_false_r. split; reflexivity.
    + intros -> Hnow. simpl.
      replace (Date.setHours 14 30 midnight <? now) with true
        by (symmetry; apply Z.ltb_lt; exact Hnow).
      split; reflexivity.
  - intros now w header values Hs.
    apply (checkForOverdueCheckIns_run now w header values Hs).
Qed.

Lemma halfDay_escalation_witness :
  let at1200 := Date.make 2024 5 1 12 0 in
  let at1500 := Date.make 2024 5 1 15 0 in
  notificationsFor ∅ at1200 Sample.halfDayRequest
  = [overdueMessage ∅ Sample.halfDayRequest "OverdueHalfDay_1"]
  /\ notificationsFor ∅ at1500 (scanRow at1200 Sample.halfDayRequest)
     = [overdueMessage ∅ (scanRow at1200 Sample.halfDayRequest)
          "OverdueHalfDay_2"].
Proof.
  assert (Hawait : awaitsCheckIn (Date.make 2024 5 1 0 0) Sample.halfDayRequest).
  { split; [reflexivity|]. split; [reflexivity|].
    exists (Date.make 2024 5 1 0 0). split; reflexivity. }
  destruct (halfDay_escalation (H := Sample.services) ∅ (Date.make 2024 5 1 0 0)
              Sample.halfDayRequest Hawait) as (_ & _ & Harmed & _).
  { vm_compute. reflexivity. }
  destruct (Harmed (Date.make 2024 5 1 8 0) (Date.make 2024 5 1 12 0))
    as [Hfirst _].
  { reflexivity. }
  { vm_compute. reflexivity. }
  destruct (Hfirst eq_refl) as [Hsent1 Hrow1].
  { vm_compute. reflexivity. }
  cbv zeta. split; [exact Hsent1|].
  rewrite Hrow1.
  assert (Hawait1 : awaitsCheckIn (Date.make 2024 5 1 0 0)
                      (Row.set_notificationSent "OverdueHalfDay_1"
                         Sample.halfDayRequest)).
  { exact Hawait. }
  destruct (halfDay_escalation (H := Sample.services) ∅ (Date.make 2024 5 1 0 0)
              _ Hawait1) as (_ & _ & Harmed1 & _).
  { vm_compute. reflexivity. }
  destruct (Harmed1 (Date.make 2024 5 1 8 0) (Date.make 2024 5 1 15 0))
    as [_ Hsecond].
  { reflexivity. }
  { vm_compute. reflexivity. }
  destruct (Hsecond eq_refl) as [Hsent2 _].
  { vm_compute. reflexivity. }
  exact Hsent2.
Defined.

(** * Properties of the queries, the webhook and the dashboard *)

(** ** Status of one request *)

Lemma findRequestRow_insert (ss : gmap string (list Row.t))
    (sheetName : string) (sheet : list Row.t) (i : nat) (row row' : Row.t)
    (requestId : string) :
  ss !! sheetName = Some sheet -> sheet !! i = Some row ->
  Row.requestId row' = Row.requestId row ->
  findRequestRow (<[sheetName := <[i := row']> sheet]> ss) requestId
  = findRequestRow ss requestId.
Proof.
  intros Hs Hr Hid.
  rewrite <- (findRequestRow_setValue (Found.mk sheetName (S i))
                (fun r => if String.eqb (Row.requestId r) (Row.requestId row)
                          then row' else r) ss requestId).
  - f_equal. erewrite setValue_located.
    + cbn [Found.sheet Found.row]. replace (S i - 1)%nat with i by lia.
      rewrite String.eqb_refl. reflexivity.
    + exact Hs.
    + cbn [Found.row]. replace (S i - 1)%nat with i by lia. exact Hr.
  - intros r. destruct (String.eqb_spec (Row.requestId r) (Row.requestId row));
      congruence.
Qed.

Lemma updateRequestStatus_located `{Services} (now : Millis)
    (requestId newStatus approverRole rejectionReason : string) (w : World)
    (found : Found.t) (sheet : list Row.t) (row : Row.t) :
  requestId <> "" -> newStatus <> "" ->
  findRequestRow (spreadsheet w) requestId = Some found ->
  spreadsheet w !! Found.sheet found = Some sheet ->
  sheet !! (Found.row found - 1)%nat = Some row ->
  Row.status row = "Pending" ->
  updateRequestStatus now requestId newStatus approverRole rejectionReason w =
  (Success ("Request " +:+ requestId +:+ " status updated."),
   mkWorld _
     (<[Found.sheet found :=
          <[(Found.row found - 1)%nat :=
              decidedRow now newStatus approverRole rejectionReason row]>
            sheet]> (spreadsheet w))
     (sent w ++
      [StatusDecided (Row.employeeName row) (Row.employeeId row) requestId
         newStatus
         (if JS.nonEmpty approverRole then approverRole else DEFAULT_ADMIN_NAME)
         (if String.eqb newStatus "Rejected" then rejectionReason else "")])%list
     None (employeeSheet w) (drive w)).
Proof.
  intros Hne Hnew Hfind Hs Hr Hst.
  pose proof (getRow_located _ _ _ _ Hs Hr) as Hget.
  unfold updateRequestStatus.
  rewrite (nonEmpty_true _ Hne), (nonEmpty_true _ Hnew), Hfind, Hget.
  simpl negb. simpl orb. cbv iota. rewrite Hst. simpl. f_equal.
  unfold sendTelegramNotification, removeCache, with_cache, decidedRow.
  destruct (String.eqb newStatus "Rejected" && JS.nonEmpty rejectionReason)
    eqn:Hrej;
    unfold setCell, with_spreadsheet;
    cbn [spreadsheet sent employeeCache employeeSheet drive];
    rewrite !setValue_setValue, (setValue_located _ _ _ _ _ Hs Hr);
    rewrite (getRow_located found _
               (<[(Found.row found - 1)%nat := _]> sheet) _
               (lookup_insert_eq _ _ _)
               (list_lookup_insert_eq _ _ _ (lookup_lt_Some _ _ _ Hr)));
    reflexivity.
Qed.

Lemma findRequestRow_located (ss : gmap string (list Row.t))
    (requestId : string) (found : Found.t) :
  findRequestRow ss requestId = Some found ->
  exists sheet,
    ss !! Found.sheet found = Some sheet
    /\ sheet !! (Found.row found - 1)%nat = Some (getRow found ss)
    /\ Row.requestId (getRow found ss) = requestId
    /\ (2 <= Found.row found)%nat
    /\ In (Found.sheet found) ALL_LEAVE_SHEETS.
Proof.
  intros Hfind.
  destruct (findRequestRowIn_Some _ _ _ _ Hfind)
    as (sheet & row & Hs & Hr & Hid & Hrow & Hin).
  rewrite (getRow_located _ _ _ _ Hs Hr). exists sheet. auto.
Qed.

(** X1. After a decision on a Pending request the status query answers with
    that decision: a rejection is reported with the reason given, or with the
    note already in the reason cell when no reason is given; an approval is
    reported as Approved, or as checked in by an admin when the row already
    holds a check-in time and a note. *)
Theorem getRequestStatus_after_decision `{Services} (now : Millis)
    (requestId : string) (outcome : Outcome) (actor reason : string)
    (w : World) (found : Found.t) :
  requestId <> "" ->
  findRequestRow (spreadsheet w) requestId = Some found ->
  let row := getRow found (spreadsheet w) in
  Row.status row = "Pending" ->
  getRequestStatus requestId
    (spreadsheet
       (snd (updateRequestStatus now requestId (outcomeName outcome) actor
               reason w)))
  = match outcome with
    | Approved =>
        if Date.present (Row.checkInTimestamp row)
           && JS.nonEmpty (Row.adminCheckinNote row)
        then RequestStatus.AdminCheckedIn (Row.leaveType row)
        else RequestStatus.Plain "Approved" (Row.leaveType row)
    | Rejected =>
        RequestStatus.Rejected (Row.leaveType row)
          (if JS.nonEmpty reason then reason else Row.adminCheckinNote row)
    end.
Proof.
  intros Hne Hfind row Hst.
  destruct (findRequestRow_located _ _ _ Hfind) as (sheet & Hs & Hr & Hid & _).
  fold row in Hr, Hid.
  rewrite (updateRequestStatus_located now requestId (outcomeName outcome)
             actor reason w found sheet row Hne
             ltac:(destruct outcome; discriminate) Hfind Hs Hr Hst).
  cbn [snd spreadsheet]. unfold getRequestStatus.
  rewrite (nonEmpty_true _ Hne). cbn [negb].
  rewrite (findRequestRow_insert _ _ _ _ row _ _ Hs Hr) by reflexivity.
  rewrite Hfind, (getRow_insert _ _ _ row _ Hr).
  destruct outcome; cbn -[String.eqb JS.nonEmpty Date.present].
  - reflexivity.
  - cbn. destruct (JS.nonEmpty reason) eqn:Hreason.
    + rewrite Hreason. reflexivity.
    + destruct (Row.adminCheckinNote row); reflexivity.
Qed.

Lemma getRequestStatus_after_decision_witness :
  getRequestStatus "REQ-20"
    (spreadsheet
       (snd (updateRequestStatus Scenario.noon "REQ-20" "Rejected" "" "late"
               Scenario.world)))
  = RequestStatus.Rejected PERMISSION_SHEET_NAME "late".
Proof.
  exact (getRequestStatus_after_decision Scenario.noon "REQ-20" Rejected ""
           "late" Scenario.world (Found.mk PERMISSION_SHEET_NAME 2)
           ltac:(discriminate) ltac:(vm_compute; reflexivity)
           ltac:(vm_compute; reflexivity)).
Defined.

(** X2. After an admin check-in the status query reports an Approved request
    as checked in by an admin. The check-in note shares the cell of the
    rejection reason, so a Rejected request is from then on reported with the
    reason [Checked in by: role]; any other status is reported as before. *)
Theorem getRequestStatus_after_admin_check_in `{Services} (now : Millis)
    (requestId adminRole : string) (w : World) (found : Found.t) :
  requestId <> "" -> adminRole <> "" ->
  findRequestRow (spreadsheet w) requestId = Some found ->
  let row := getRow found (spreadsheet w) in
  getRequestStatus requestId
    (spreadsheet (snd (adminSubmitCheckIn now requestId adminRole w)))
  = if String.eqb (Row.status row) "Approved"
    then RequestStatus.AdminCheckedIn (Row.leaveType row)
    else if String.eqb (Row.status row) "Rejected"
    then RequestStatus.Rejected (Row.leaveType row)
           ("Checked in by: " +:+ adminRole)
    else RequestStatus.Plain (Row.status row) (Row.leaveType row).
Proof.
  intros Hne Hrole Hfind row.
  destruct (findRequestRow_located _ _ _ Hfind) as (sheet & Hs & Hr & Hid & _).
  fold row in Hr, Hid.
  rewrite (adminSubmitCheckIn_located now requestId adminRole w found sheet row
             Hne Hrole Hfind Hs Hr).
  cbn [snd spreadsheet]. unfold getRequestStatus.
  rewrite (nonEmpty_true _ Hne). cbn [negb].
  rewrite (findRequestRow_insert _ _ _ _ row _ _ Hs Hr) by reflexivity.
  rewrite Hfind, (getRow_insert _ _ _ row _ Hr).
  cbn -[String.eqb]. rewrite !andb_true_r.
  change (JS.nonEmpty ("Checked in by: " +:+ adminRole)) with true.
  reflexivity.
Qed.

Lemma getRequestStatus_after_admin_check_in_witness :
  getRequestStatus "REQ-30"
    (spreadsheet
       (snd (adminSubmitCheckIn Scenario.noon "REQ-30" "Admin"
               (Sample.world Sample.approvedLedger []))))
  = RequestStatus.AdminCheckedIn PERMISSION_SHEET_NAME.
Proof.
  exact (getRequestStatus_after_admin_check_in Scenario.noon "REQ-30" "Admin"
           (Sample.world Sample.approvedLedger [])
           (Found.mk PERMISSION_SHEET_NAME 2)
           ltac:(discriminate) ltac:(discriminate)
           ltac:(vm_compute; reflexivity)).
Defined.

Lemma In_rowsOf (names : list string) (ss : gmap string (list Row.t))
    (row : Row.t) :
  In row (rowsOf names ss)
  <-> exists sheetName sheet k,
        In sheetName names /\ ss !! sheetName = Some sheet
        /\ sheet !! k = Some row /\ (1 <= k)%nat.
Proof.
  unfold rowsOf. rewrite in_flat_map. split.
  - intros (sheetName & Hin & Hrow).
    destruct (ss !! sheetName) as [sheet|] eqn:Hs; [|destruct Hrow].
    apply list_elem_of_In, list_elem_of_lookup in Hrow.
    destruct Hrow as [j Hj]. unfold getValues in Hj. rewrite lookup_drop in Hj.
    exists sheetName, sheet, (1 + j)%nat. repeat split; trivial. lia.
  - intros (sheetName & sheet & k & Hin & Hs & Hk & Hge).
    exists sheetName. split; [exact Hin|]. rewrite Hs.
    apply list_elem_of_In, list_elem_of_lookup. exists (k - 1)%nat.
    unfold getValues. rewrite lookup_drop.
    replace (1 + (k - 1))%nat with k by lia. exact Hk.
Qed.

Lemma findRequestRow_deleteRow (ss : gmap string (list Row.t))
    (requestId : string) (found : Found.t) :
  findRequestRow ss requestId = Some found ->
  onlyAt found requestId ss ->
  findRequestRow (deleteRow found ss) requestId = None.
Proof.
  intros Hfind Honly. unfold findRequestRow.
  apply findRequestRowIn_None. intros row Hin Hid.
  apply In_rowsOf in Hin.
  destruct Hin as (sheetName & sheet' & k & Hname & Hs' & Hk & Hge).
  destruct (findRequestRow_located _ _ _ Hfind) as (sheet & Hs & _ & _ & Hrow & _).
  unfold deleteRow in Hs'. rewrite lookup_alter in Hs'.
  destruct (decide (Found.sheet found = sheetName)) as [Heq|Hneq].
  - rewrite Hs in Hs'. simpl in Hs'. injection Hs' as <-.
    destruct (decide (k < Found.row found - 1)%nat) as [Hlt|Hnlt].
    + rewrite list_lookup_delete_lt in Hk by exact Hlt.
      destruct (Honly sheetName sheet k row Hname ltac:(congruence) Hk Hge Hid).
      lia.
    + rewrite list_lookup_delete_ge in Hk by lia.
      destruct (Honly sheetName sheet (S k) row Hname ltac:(congruence) Hk
                  ltac:(lia) Hid).
      lia.
  - simpl in Hs'.
    destruct (Honly sheetName sheet' k row Hname Hs' Hk Hge Hid). congruence.
Qed.

(** X3. Deleting a request whose id no other data row carries succeeds;
    afterwards the status query answers Not Found and a second deletion fails
    with not-found and changes nothing. *)
Theorem deleted_request_not_found `{Services} (requestId : string) (w : World)
    (found : Found.t) :
  requestId <> "" ->
  findRequestRow (spreadsheet w) requestId = Some found ->
  onlyAt found requestId (spreadsheet w) ->
  let w' := snd (deleteLeaveRequest requestId w) in
  fst (deleteLeaveRequest requestId w)
  = Success ("Request " +:+ requestId +:+ " deleted.")
  /\ getRequestStatus requestId (spreadsheet w') = RequestStatus.NotFound
  /\ deleteLeaveRequest requestId w' = (Failure NotFoundForDeletion, w').
Proof.
  intros Hne Hfind Honly w'.
  assert (Hw' : spreadsheet w' = deleteRow found (spreadsheet w)).
  { unfold w', deleteLeaveRequest.
    rewrite (nonEmpty_true _ Hne), Hfind. reflexivity. }
  pose proof (findRequestRow_deleteRow _ _ _ Hfind Honly) as Hgone.
  rewrite <- Hw' in Hgone.
  split; [|split].
  - unfold deleteLeaveRequest. rewrite (nonEmpty_true _ Hne), Hfind. reflexivity.
  - unfold getRequestStatus. rewrite (nonEmpty_true _ Hne), Hgone. reflexivity.
  - unfold deleteLeaveRequest at 1.
    rewrite (nonEmpty_true _ Hne), Hgone. reflexivity.
Qed.

Lemma deleted_request_not_found_witness :
  fst (deleteLeaveRequest "REQ-20" Scenario.world)
  = Success "Request REQ-20 deleted."
  /\ getRequestStatus "REQ-20"
       (spreadsheet (snd (deleteLeaveRequest "REQ-20" Scenario.world)))
     = RequestStatus.NotFound
  /\ deleteLeaveRequest "REQ-20" (snd (deleteLeaveRequest "REQ-20" Scenario.world))
     = (Failure NotFoundForDeletion,
        snd (deleteLeaveRequest "REQ-20" Scenario.world)).
Proof.
  apply (deleted_request_not_found "REQ-20" Scenario.world
           (Found.mk PERMISSION_SHEET_NAME 2)).
  - discriminate.
  - vm_compute. reflexivity.
  - intros sheetName sheet k row Hin Hs Hk Hge Hid.
    vm_compute in Hin. destruct Hin as [<-|[<-|[<-|[]]]];
      vm_compute in Hs; try discriminate Hs.
    injection Hs as <-. destruct k as [|[|k]]; [lia|split; reflexivity|].
    destruct k; discriminate Hk.
Defined.

(** ** Submission and the queries *)

Lemma alter_located {A : Type} (f : A -> A) (m : gmap string A) (k : string)
    (x : A) :
  m !! k = Some x -> alter f k m = <[k := f x]> m.
Proof.
  intros Hk. apply map_eq. intros j. rewrite lookup_alter, lookup_insert.
  destruct (decide (k = j)) as [<-|Hne]; [rewrite Hk|]; reflexivity.
Qed.

Lemma submitLeaveRequest_ledger `{Services} (now : Millis)
    (leaveDetails : LeaveDetails.t) (w : World) :
  LeaveDetails.leaveType leaveDetails <> "" ->
  LeaveDetails.employeeId leaveDetails <> "" ->
  exists selfieUrl documentUrlsJson paymentReceiptUrl,
    spreadsheet (snd (submitLeaveRequest now leaveDetails w))
    = <[LeaveDetails.leaveType leaveDetails :=
          (default [] (spreadsheet w !! LeaveDetails.leaveType leaveDetails)
           ++ [submittedRow now leaveDetails selfieUrl documentUrlsJson
                 paymentReceiptUrl])%list]> (spreadsheet w).
Proof.
  intros Htype Hemp. destruct w as [ss snt cache es d].
  unfold submitLeaveRequest, submittedRow, submissionLink.
  rewrite (nonEmpty_true _ Htype), (nonEmpty_true _ Hemp). cbn [negb orb].
  world_step.
  destruct (ss !! LeaveDetails.leaveType leaveDetails) as [sheet|] eqn:Hsheet;
    world_step;
    repeat match goal with
    | |- context [if ?c then _ else _] => destruct c; world_step
    | |- context [saveImageToDrive ?a ?b ?c ?x] =>
        destruct (saveImageToDrive a b c x); world_step
    | |- context [saveMultipleImagesToDrive ?a ?b ?c ?x] =>
        destruct (saveMultipleImagesToDrive a b c x); world_step
    end;
    first [ rewrite (alter_located _ _ _ _ Hsheet)
          | rewrite alter_insert_eq ];
    cbn [default];
    eexists _, _, _; reflexivity.
Qed.

Lemma findIndex_app_None {A : Type} (p : A -> bool) (l : list A) (x : A) :
  findIndex p l = None ->
  findIndex p (l ++ [x]) = if p x then Some (length l) else None.
Proof.
  induction l as [|a l IH]; simpl.
  - intros _. destruct (p x); reflexivity.
  - destruct (p a); [discriminate|].
    destruct (findIndex p l); [discriminate|]. intros _.
    rewrite IH by reflexivity. destruct (p x); reflexivity.
Qed.

Lemma findRequestRowIn_skip (names : list string)
    (ss : gmap string (list Row.t)) (requestId sheetName : string)
    (sheet : list Row.t) :
  ~ In sheetName names ->
  findRequestRowIn names (<[sheetName := sheet]> ss) requestId
  = findRequestRowIn names ss requestId.
Proof.
  induction names as [|name names IH]; simpl; [reflexivity|].
  intros Hnot. rewrite lookup_insert_ne by (intros ->; apply Hnot; auto).
  rewrite IH by (intros Hin; apply Hnot; auto). reflexivity.
Qed.

Lemma findRequestRowIn_append (names : list string)
    (ss : gmap string (list Row.t)) (requestId sheetName : string)
    (header newRow : Row.t) (sheet : list Row.t) :
  findRequestRowIn names ss requestId = None ->
  In sheetName names ->
  ss !! sheetName = Some (header :: sheet) ->
  Row.requestId newRow = requestId ->
  findRequestRowIn names
    (<[sheetName := ((header :: sheet) ++ [newRow])%list]> ss) requestId
  = Some (Found.mk sheetName (length sheet + 2)).
Proof.
  intros Hnone Hin Hs Hid.
  induction names as [|name names IH]; [destruct Hin|].
  simpl in Hnone |- *.
  destruct (decide (name = sheetName)) as [->|Hne].
  - rewrite lookup_insert_eq. rewrite Hs in Hnone.
    unfold getLastRow, getValues in *. cbn [app length] in *.
    change (drop 1 (header :: sheet)) with sheet in Hnone.
    change (drop 1 (header :: (sheet ++ [newRow])%list))
      with (sheet ++ [newRow])%list.
    rewrite length_app. cbn [length].
    replace (1 <? S (length sheet + 1))%nat with true
      by (symmetry; apply Nat.ltb_lt; lia).
    destruct (1 <? S (length sheet))%nat eqn:Hlast.
    + destruct (findIndex _ sheet) as [i|] eqn:Hi; [discriminate|].
      rewrite (findIndex_app_None _ _ _ Hi), Hid, String.eqb_refl.
      reflexivity.
    + apply Nat.ltb_ge in Hlast. destruct sheet; [|simpl in Hlast; lia].
      simpl. rewrite Hid, String.eqb_refl. reflexivity.
  - rewrite lookup_insert_ne by congruence.
    destruct Hin as [Heq|Hin]; [congruence|].
    destruct (ss !! name) as [other|].
    + destruct (1 <? getLastRow other)%nat.
      * destruct (findIndex _ (getValues other)); [discriminate|].
        exact (IH Hnone Hin).
      * exact (IH Hnone Hin).
    + exact (IH Hnone Hin).
Qed.

Lemma submitLeaveRequest_located `{Services} (now : Millis)
    (leaveDetails : LeaveDetails.t) (w : World) (header : Row.t)
    (sheet : list Row.t) :
  let leaveType := LeaveDetails.leaveType leaveDetails in
  let requestId := "REQ-" +:+ pretty now in
  let w' := snd (submitLeaveRequest now leaveDetails w) in
  let found := Found.mk leaveType (length sheet + 2) in
  In leaveType ALL_LEAVE_SHEETS ->
  LeaveDetails.employeeId leaveDetails <> "" ->
  spreadsheet w !! leaveType = Some (header :: sheet) ->
  findRequestRow (spreadsheet w) requestId = None ->
  exists selfieUrl documentUrlsJson paymentReceiptUrl,
    let newRow := submittedRow now leaveDetails selfieUrl documentUrlsJson
                    paymentReceiptUrl in
    spreadsheet w' !! leaveType = Some ((header :: sheet) ++ [newRow])%list
    /\ ((header :: sheet) ++ [newRow])%list !! (Found.row found - 1)%nat
       = Some newRow
    /\ findRequestRow (spreadsheet w') requestId = Some found
    /\ getRow found (spreadsheet w') = newRow.
Proof.
  intros leaveType requestId w' found Hin Hemp Hs Hfresh.
  assert (Htype : leaveType <> "").
  { intros Heq. rewrite Heq in Hin. vm_compute in Hin.
    destruct Hin as [Hin|[Hin|[Hin|[]]]]; discriminate Hin. }
  destruct (submitLeaveRequest_ledger now leaveDetails w Htype Hemp)
    as (selfieUrl & documentUrlsJson & paymentReceiptUrl & Hledger).
  fold leaveType in Hledger. fold w' in Hledger. rewrite Hs in Hledger.
  unfold default, from_option, id in Hledger.
  exists selfieUrl, documentUrlsJson, paymentReceiptUrl. intros newRow.
  assert (Hsheet : spreadsheet w' !! leaveType
                   = Some ((header :: sheet) ++ [newRow])%list).
  { rewrite Hledger. apply lookup_insert_eq. }
  assert (Hrow : ((header :: sheet) ++ [newRow])%list !! (Found.row found - 1)%nat
                 = Some newRow).
  { cbn [Found.row found]. rewrite lookup_app_r by (simpl; lia).
    replace (length sheet + 2 - 1 - length (header :: sheet))%nat with O
      by (simpl; lia).
    reflexivity. }
  split; [exact Hsheet|]. split; [exact Hrow|]. split.
  - rewrite Hledger. unfold findRequestRow.
    apply findRequestRowIn_append; trivial.
  - exact (getRow_located found _ _ _ Hsheet Hrow).
Qed.

(** X4. A request submitted into a partition whose sheet has a header row,
    under an id no row carries yet, is found in the row after the last one,
    and the status query reports it as Pending in its category. *)
Theorem submitted_request_is_pending `{Services} (now : Millis)
    (leaveDetails : LeaveDetails.t) (w : World) (header : Row.t)
    (sheet : list Row.t) :
  let leaveType := LeaveDetails.leaveType leaveDetails in
  let requestId := "REQ-" +:+ pretty now in
  let w' := snd (submitLeaveRequest now leaveDetails w) in
  In leaveType ALL_LEAVE_SHEETS ->
  LeaveDetails.employeeId leaveDetails <> "" ->
  spreadsheet w !! leaveType = Some (header :: sheet) ->
  findRequestRow (spreadsheet w) requestId = None ->
  findRequestRow (spreadsheet w') requestId
  = Some (Found.mk leaveType (length sheet + 2))
  /\ getRequestStatus requestId (spreadsheet w')
     = RequestStatus.Plain "Pending" leaveType.
Proof.
  intros leaveType requestId w' Hin Hemp Hs Hfresh.
  destruct (submitLeaveRequest_located now leaveDetails w header sheet
              Hin Hemp Hs Hfresh)
    as (selfieUrl & documentUrlsJson & paymentReceiptUrl & _ & _ & Hfind & Hget).
  cbv zeta in Hfind, Hget. subst leaveType requestId w'.
  split; [exact Hfind|].
  unfold getRequestStatus. rewrite Hfind, Hget. reflexivity.
Qed.

Lemma submitted_request_is_pending_witness :
  getRequestStatus "REQ-1714636800000"
    (spreadsheet
       (snd (submitLeaveRequest Scenario.morning Scenario.newRequest
               Scenario.world)))
  = RequestStatus.Plain "Pending" PERMISSION_SHEET_NAME.
Proof.
  exact (proj2 (submitted_request_is_pending Scenario.morning
                  Scenario.newRequest Scenario.world blankRow
                  [Scenario.pendingRequest]
                  ltac:(vm_compute; auto) ltac:(discriminate)
                  ltac:(vm_compute; reflexivity)
                  ltac:(vm_compute; reflexivity))).
Defined.

(** X5. The first request of a partition with no sheet or an empty sheet,
    under an id that no row carries yet, is stored in row 1, which no lookup
    reads: the submission reports success and stores the Pending row, but
    the status query answers Not Found and every decision on the id fails
    with not-found and changes nothing. *)
Theorem first_request_of_new_sheet_not_found `{Services} (now : Millis)
    (leaveDetails : LeaveDetails.t) (w : World) :
  let leaveType := LeaveDetails.leaveType leaveDetails in
  let requestId := "REQ-" +:+ pretty now in
  let w' := snd (submitLeaveRequest now leaveDetails w) in
  leaveType <> "" ->
  LeaveDetails.employeeId leaveDetails <> "" ->
  spreadsheet w !! leaveType = None \/ spreadsheet w !! leaveType = Some [] ->
  findRequestRow (spreadsheet w) requestId = None ->
  fst (submitLeaveRequest now leaveDetails w) = Success requestId
  /\ (exists newRow,
        spreadsheet w' !! leaveType = Some [newRow]
        /\ Row.requestId newRow = requestId
        /\ Row.status newRow = "Pending")
  /\ getRequestStatus requestId (spreadsheet w') = RequestStatus.NotFound
  /\ forall (later : Millis) (newStatus approverRole rejectionReason : string),
       updateRequestStatus later requestId newStatus approverRole
         rejectionReason w'
       = (Failure (if JS.nonEmpty newStatus then NotFoundForStatusUpdate
                   else StatusArgumentsRequired), w').
Proof.
  intros leaveType requestId w' Htype Hemp Hnew Hfresh.
  destruct (submitLeaveRequest_ledger now leaveDetails w Htype Hemp)
    as (selfieUrl & documentUrlsJson & paymentReceiptUrl & Hledger).
  fold leaveType in Hledger. fold w' in Hledger.
  assert (Hsheet : default [] (spreadsheet w !! leaveType) = []).
  { destruct Hnew as [-> | ->]; reflexivity. }
  rewrite Hsheet in Hledger. cbn [app] in Hledger.
  assert (Hgone : findRequestRow (spreadsheet w') requestId = None).
  { unfold findRequestRow in *. rewrite findRequestRowIn_None in Hfresh |- *.
    intros row Hrow. apply Hfresh.
    apply In_rowsOf in Hrow. apply In_rowsOf.
    destruct Hrow as (sheetName & sheet' & k & Hname & Hs' & Hk & Hge).
    rewrite Hledger, lookup_insert in Hs'.
    destruct (decide (leaveType = sheetName)) as [Heq|Hne].
    - injection Hs' as <-. destruct k as [|k]; [lia|]. discriminate Hk.
    - exists sheetName, sheet', k. auto. }
  assert (Hne : JS.nonEmpty requestId = true) by reflexivity.
  split; [|split; [|split]].
  - destruct (submitLeaveRequest_appends now leaveDetails w Htype Hemp)
      as (sheet0 & newRow & _ & _ & _ & Hres).
    exact Hres.
  - eexists. rewrite Hledger, lookup_insert_eq.
    split; [reflexivity|]. split; reflexivity.
  - unfold getRequestStatus. rewrite Hgone, Hne. reflexivity.
  - intros later newStatus approverRole rejectionReason.
    unfold updateRequestStatus. rewrite Hgone, Hne.
    destruct (JS.nonEmpty newStatus); reflexivity.
Qed.

Lemma first_request_of_new_sheet_not_found_witness :
  let w' := snd (submitLeaveRequest Scenario.morning Scenario.homeRequest
                   Scenario.world) in
  fst (submitLeaveRequest Scenario.morning Scenario.homeRequest Scenario.world)
  = Success "REQ-1714636800000"
  /\ getRequestStatus "REQ-1714636800000" (spreadsheet w')
     = RequestStatus.NotFound
  /\ fst (updateRequestStatus Scenario.noon "REQ-1714636800000" "Approved"
            "Admin" "" w')
     = Failure NotFoundForStatusUpdate.
Proof.
  destruct (first_request_of_new_sheet_not_found Scenario.morning
              Scenario.homeRequest Scenario.world
              ltac:(discriminate) ltac:(discriminate)
              ltac:(left; vm_compute; reflexivity)
              ltac:(vm_compute; reflexivity))
    as (Hok & _ & Hstatus & Hdecide).
  split; [exact Hok|]. split; [exact Hstatus|].
  exact (f_equal fst (Hdecide Scenario.noon "Approved" "Admin" "")).
Defined.

(** ** Status of an employee *)

Lemma scanUserRows_pending (employeeId : string) (rows : list Row.t) :
  forall slots,
  UserStatus.pendingRequest (scanUserRows employeeId rows slots)
  = match List.find (fun row => ownedBy employeeId row && isPending row) rows with
    | Some row => Some (Row.requestId row)
    | None => UserStatus.pendingRequest slots
    end.
Proof.
  induction rows as [|row rows IH]; intros slots; [reflexivity|].
  simpl.
  change (String.eqb (JS.trim (Row.employeeId row)) employeeId)
    with (ownedBy employeeId row).
  change (String.eqb (Row.status row) "Pending") with (isPending row).
  destruct (ownedBy employeeId row); simpl.
  - destruct (isPending row); [reflexivity|].
    rewrite IH. reflexivity.
  - apply IH.
Qed.

Lemma scanUserRows_others (employeeId : string) (rows : list Row.t) :
  forall slots,
  List.find (fun row => ownedBy employeeId row && isPending row) rows = None ->
  let first kind :=
    List.find (fun row => ownedBy employeeId row && kind row) rows in
  let slots' := scanUserRows employeeId rows slots in
  UserStatus.approvedUncheckedRequest slots'
  = match UserStatus.approvedUncheckedRequest slots with
    | Some r => Some r
    | None => option_map Row.requestId (first awaitsReturn)
    end
  /\ UserStatus.adminCheckedInRequest slots'
     = match UserStatus.adminCheckedInRequest slots with
       | Some r => Some r
       | None => option_map Row.requestId (first returnedByAdmin)
       end
  /\ UserStatus.rejectedRequest slots'
     = match UserStatus.rejectedRequest slots with
       | Some r => Some r
       | None =>
           option_map (fun row => (Row.requestId row, Row.adminCheckinNote row))
             (first isRejected)
       end.
Proof.
  induction rows as [|row rows IH]; intros slots Hnone first slots'.
  - subst first slots'. simpl.
    destruct slots as [p [a|] [c|] [r|]]; simpl; auto.
  - subst first slots'. simpl in Hnone |- *.
    change (String.eqb (JS.trim (Row.employeeId row)) employeeId)
      with (ownedBy employeeId row) in *.
    change (String.eqb (Row.status row) "Pending") with (isPending row) in *.
    destruct (ownedBy employeeId row) eqn:Hown; simpl in Hnone |- *.
    + destruct (isPending row) eqn:Hp; [discriminate|].
      destruct (IH (UserStatus.mkSlots (UserStatus.pendingRequest slots)
                      match UserStatus.approvedUncheckedRequest slots with
                      | Some r => Some r
                      | None =>
                          if String.eqb (Row.status row) "Approved"
                             && String.eqb (Row.leaveType row)
                                  PERMISSION_SHEET_NAME
                             && negb (Date.present (Row.checkInTimestamp row))
                          then Some (Row.requestId row) else None
                      end
                      match UserStatus.adminCheckedInRequest slots with
                      | Some r => Some r
                      | None =>
                          if String.eqb (Row.status row) "Approved"
                             && String.eqb (Row.leaveType row)
                                  PERMISSION_SHEET_NAME
                             && Date.present (Row.checkInTimestamp row)
                             && JS.nonEmpty (Row.adminCheckinNote row)
                          then Some (Row.requestId row) else None
                      end
                      match UserStatus.rejectedRequest slots with
                      | Some r => Some r
                      | None =>
                          if String.eqb (Row.status row) "Rejected"
                          then Some (Row.requestId row,
                                     if JS.nonEmpty (Row.adminCheckinNote row)
                                     then Row.adminCheckinNote row else "")
                          else None
                      end) Hnone) as (Ha & Hc & Hr).
      cbn [UserStatus.approvedUncheckedRequest UserStatus.adminCheckedInRequest
           UserStatus.rejectedRequest] in Ha, Hc, Hr.
      rewrite Ha, Hc, Hr. clear Ha Hc Hr IH.
      change (String.eqb (Row.status row) "Approved"
              && String.eqb (Row.leaveType row) PERMISSION_SHEET_NAME
              && negb (Date.present (Row.checkInTimestamp row)))
        with (awaitsReturn row).
      change (String.eqb (Row.status row) "Approved"
              && String.eqb (Row.leaveType row) PERMISSION_SHEET_NAME
              && Date.present (Row.checkInTimestamp row)
              && JS.nonEmpty (Row.adminCheckinNote row))
        with (returnedByAdmin row).
      change (String.eqb (Row.status row) "Rejected") with (isRejected row).
      repeat split.
      * destruct (UserStatus.approvedUncheckedRequest slots); [reflexivity|].
        destruct (awaitsReturn row); reflexivity.
      * destruct (UserStatus.adminCheckedInRequest slots); [reflexivity|].
        destruct (returnedByAdmin row); reflexivity.
      * destruct (UserStatus.rejectedRequest slots); [reflexivity|].
        destruct (isRejected row); [|reflexivity].
        simpl. destruct (Row.adminCheckinNote row); reflexivity.
    + apply IH. exact Hnone.
Qed.

Lemma scanUserRows_app (employeeId : string) (rows rows' : list Row.t) :
  forall slots,
  scanUserRows employeeId (rows ++ rows') slots
  = match List.find (fun row => ownedBy employeeId row && isPending row) rows with
    | Some _ => scanUserRows employeeId rows slots
    | None => scanUserRows employeeId rows' (scanUserRows employeeId rows slots)
    end.
Proof.
  induction rows as [|row rows IH]; intros slots; [reflexivity|].
  simpl.
  change (String.eqb (JS.trim (Row.employeeId row)) employeeId)
    with (ownedBy employeeId row).
  change (String.eqb (Row.status row) "Pending") with (isPending row).
  destruct (ownedBy employeeId row); simpl; [|apply IH].
  destruct (isPending row); [reflexivity|]. apply IH.
Qed.

Lemma scanUserSheets_rows (employeeId : string) (names : list string)
    (ss : gmap string (list Row.t)) :
  forall slots,
  UserStatus.pendingRequest slots = None ->
  scanUserSheets employeeId names ss slots
  = scanUserRows employeeId
      (flat_map (fun sheetName =>
                   rev (match ss !! sheetName with
                        | Some sheet => getValues sheet
                        | None => []
                        end)) names) slots.
Proof.
  induction names as [|sheetName names IH]; intros slots Hnone; [reflexivity|].
  cbn [scanUserSheets flat_map]. rewrite scanUserRows_app.
  set (rows := match ss !! sheetName with
               | Some sheet => getValues sheet
               | None => []
               end).
  assert (Hsheet : match ss !! sheetName with
                   | Some sheet =>
                       if (1 <? getLastRow sheet)%nat
                       then scanUserRows employeeId (rev (getValues sheet)) slots
                       else slots
                   | None => slots
                   end = scanUserRows employeeId (rev rows) slots).
  { subst rows. destruct (ss !! sheetName) as [sheet|]; [|reflexivity].
    destruct (1 <? getLastRow sheet)%nat eqn:Hlast; [reflexivity|].
    rewrite (getValues_short _ Hlast). reflexivity. }
  rewrite Hsheet.
  pose proof (scanUserRows_pending employeeId (rev rows) slots) as Hp.
  rewrite Hnone in Hp.
  destruct (List.find _ (rev rows)) as [row|].
  - rewrite Hp. reflexivity.
  - rewrite Hp. apply IH. exact Hp.
Qed.

Lemma find_app_None {A : Type} (p : A -> bool) (l l' : list A) :
  List.find p l = None -> List.find p (l ++ l') = List.find p l'.
Proof.
  induction l as [|a l IH]; simpl; [reflexivity|].
  destruct (p a); [discriminate|]. exact IH.
Qed.

Lemma getUserStatus_first (employeeId : string)
    (ss : gmap string (list Row.t)) :
  employeeId <> "" ->
  getUserStatus employeeId ss
  = match firstOf employeeId isPending ss with
    | Some row => UserStatus.Pending (Row.requestId row)
    | None =>
        match firstOf employeeId awaitsReturn ss with
        | Some row => UserStatus.Approved (Row.requestId row)
        | None =>
            match firstOf employeeId returnedByAdmin ss with
            | Some row => UserStatus.AdminCheckedIn (Row.requestId row)
            | None =>
                match firstOf employeeId isRejected ss with
                | Some row =>
                    UserStatus.Rejected (Row.requestId row)
                      (Row.adminCheckinNote row)
                | None => UserStatus.Clear
                end
            end
        end
    end.
Proof.
  intros Hne. unfold getUserStatus, firstOf, userRows.
  rewrite (nonEmpty_true _ Hne). cbn [negb].
  rewrite scanUserSheets_rows by reflexivity.
  rewrite scanUserRows_pending.
  destruct (List.find (fun row => ownedBy employeeId row && isPending row) _)
    as [row|] eqn:Hpending; [reflexivity|].
  destruct (scanUserRows_others employeeId _ UserStatus.noSlots Hpending)
    as (Ha & Hc & Hr).
  cbn [UserStatus.pendingRequest UserStatus.noSlots].
  rewrite Ha, Hc, Hr. cbn [UserStatus.approvedUncheckedRequest
    UserStatus.adminCheckedInRequest UserStatus.rejectedRequest
    UserStatus.noSlots].
  destruct (List.find (fun row => ownedBy employeeId row && awaitsReturn row) _);
    [reflexivity|].
  destruct (List.find (fun row => ownedBy employeeId row && returnedByAdmin row) _);
    [reflexivity|].
  destruct (List.find (fun row => ownedBy employeeId row && isRejected row) _);
    reflexivity.
Qed.

Lemma find_None_iff {A : Type} (p : A -> bool) (l : list A) :
  List.find p l = None <-> forall x, In x l -> p x = false.
Proof.
  induction l as [|a l IH]; simpl.
  - split; [intros _ x []|reflexivity].
  - destruct (p a) eqn:Hp.
    + split; [discriminate|]. intros Hall. rewrite Hall in Hp by auto.
      discriminate.
    + rewrite IH. split.
      * intros Hall x [<-|Hx]; auto.
      * intros Hall x Hx. apply Hall. auto.
Qed.

Lemma In_userRows (ss : gmap string (list Row.t)) (row : Row.t) :
  In row (userRows ss) <-> In row (scannedRows ss).
Proof.
  unfold userRows, scannedRows, rowsOf. rewrite !in_flat_map.
  split; intros (sheetName & Hin & Hrow); exists sheetName;
    (split; [exact Hin|]).
  - apply in_rev in Hrow. exact Hrow.
  - apply in_rev. rewrite rev_involutive. exact Hrow.
Qed.

(** X6. The employee's status is decided by priority over the rows that carry
    the employee id once trimmed, read partition by partition from the last
    row to the first: the first Pending row, else the first Approved
    Permission row without check-in, else the first Approved Permission row
    checked in with a note, else the first Rejected row with its note as
    reason, else Clear. The answer is Clear exactly when no row of the
    employee is of one of these four kinds. *)
Theorem getUserStatus_priority (employeeId : string)
    (ss : gmap string (list Row.t)) :
  employeeId <> "" ->
  getUserStatus employeeId ss
  = match firstOf employeeId isPending ss with
    | Some row => UserStatus.Pending (Row.requestId row)
    | None =>
        match firstOf employeeId awaitsReturn ss with
        | Some row => UserStatus.Approved (Row.requestId row)
        | None =>
            match firstOf employeeId returnedByAdmin ss with
            | Some row => UserStatus.AdminCheckedIn (Row.requestId row)
            | None =>
                match firstOf employeeId isRejected ss with
                | Some row =>
                    UserStatus.Rejected (Row.requestId row)
                      (Row.adminCheckinNote row)
                | None => UserStatus.Clear
                end
            end
        end
    end
  /\ (getUserStatus employeeId ss = UserStatus.Clear
      <-> forall row, In row (scannedRows ss) ->
            ownedBy employeeId row = true -> blocks row = false).
Proof.
  intros Hne. split; [apply getUserStatus_first; exact Hne|].
  rewrite (getUserStatus_first _ _ Hne). unfold firstOf. split.
  - intros Hclear row Hin Hown. apply In_userRows in Hin.
    destruct (List.find _ (userRows ss)) eqn:Hp; [discriminate|].
    destruct (List.find (fun row => ownedBy employeeId row && awaitsReturn row)
                (userRows ss)) eqn:Ha; [discriminate|].
    destruct (List.find (fun row => ownedBy employeeId row && returnedByAdmin row)
                (userRows ss)) eqn:Hc; [discriminate|].
    destruct (List.find (fun row => ownedBy employeeId row && isRejected row)
                (userRows ss)) eqn:Hr; [discriminate|].
    rewrite find_None_iff in Hp, Ha, Hc, Hr.
    specialize (Hp row Hin). specialize (Ha row Hin).
    specialize (Hc row Hin). specialize (Hr row Hin).
    rewrite Hown in Hp, Ha, Hc, Hr. simpl in Hp, Ha, Hc, Hr.
    unfold blocks. rewrite Hp, Ha, Hc, Hr. reflexivity.
  - intros Hall.
    assert (Hkind : forall kind : Row.t -> bool,
              (forall row, blocks row = false -> kind row = false) ->
              List.find (fun row => ownedBy employeeId row && kind row)
                (userRows ss) = None).
    { intros kind Hk. apply find_None_iff. intros row Hin.
      destruct (ownedBy employeeId row) eqn:Hown; [|reflexivity].
      simpl. apply Hk, Hall; [apply In_userRows; exact Hin|exact Hown]. }
    rewrite !Hkind; [reflexivity| | | |];
      intros row; unfold blocks; intros Hb;
      repeat (apply orb_false_elim in Hb; destruct Hb as [Hb ?]); assumption.
Qed.

Lemma getUserStatus_priority_witness :
  getUserStatus "E1" Sample.statsLedger = UserStatus.Pending "REQ-15"
  /\ getUserStatus "E1" Sample.approvedLedger = UserStatus.Approved "REQ-30"
  /\ getUserStatus "E9" Sample.statsLedger = UserStatus.Clear.
Proof.
  split; [|split].
  - rewrite (proj1 (getUserStatus_priority "E1" Sample.statsLedger
                      ltac:(discriminate))).
    vm_compute. reflexivity.
  - rewrite (proj1 (getUserStatus_priority "E1" Sample.approvedLedger
                      ltac:(discriminate))).
    vm_compute. reflexivity.
  - apply (proj2 (getUserStatus_priority "E9" Sample.statsLedger
                    ltac:(discriminate))).
    intros row Hin Hown. vm_compute in Hin.
    repeat (destruct Hin as [<-|Hin]; [vm_compute in Hown; discriminate Hown|]).
    destruct Hin.
Defined.

(** ** Employee ids with surrounding white space *)

Lemma untrimmed_not_owned (employeeId : string) (row : Row.t) :
  employeeId <> JS.trim employeeId -> ownedBy employeeId row = false.
Proof.
  intros Hne. unfold ownedBy. apply String.eqb_neq. intros Heq.
  apply Hne. rewrite <- Heq at 2. rewrite trim_idem. symmetry. exact Heq.
Qed.

Lemma getUserStatus_not_owned (employeeId : string)
    (ss : gmap string (list Row.t)) :
  employeeId <> "" ->
  (forall row, ownedBy employeeId row = false) ->
  getUserStatus employeeId ss = UserStatus.Clear.
Proof.
  intros Hne Hnot. rewrite (getUserStatus_first _ _ Hne). unfold firstOf.
  assert (Hkind : forall kind : Row.t -> bool,
            List.find (fun row => ownedBy employeeId row && kind row)
              (userRows ss) = None).
  { intros kind. apply find_None_iff. intros row _. rewrite Hnot. reflexivity. }
  rewrite !Hkind. reflexivity.
Qed.

(** X7. The queries compare the trimmed employee id of a row with the id asked
    for as it is: an id with surrounding white space matches no row, so the
    status is Clear, the monthly figures are zero and no duplicate is found,
    whatever the ledger holds. *)
Theorem untrimmed_id_matches_no_row `{Services} (now : Millis)
    (employeeId startDate leaveType requestId : string)
    (ss : gmap string (list Row.t)) :
  employeeId <> JS.trim employeeId ->
  getUserStatus employeeId ss = UserStatus.Clear
  /\ getMonthlyLeaveStats now employeeId ss = zeroStats
  /\ checkForDuplicateRequests employeeId startDate leaveType requestId ss
     = false.
Proof.
  intros Hne.
  assert (Hnot : forall row, ownedBy employeeId row = false).
  { intros row. apply untrimmed_not_owned. exact Hne. }
  split; [|split].
  - apply getUserStatus_not_owned; [|exact Hnot].
    intros ->. apply Hne. reflexivity.
  - rewrite getMonthlyLeaveStats_fold. generalize zeroStats.
    induction (scannedRows ss) as [|row rows IH]; intros stats; [reflexivity|].
    simpl. unfold countRow at 2.
    change (String.eqb (JS.trim (Row.employeeId row)) employeeId)
      with (ownedBy employeeId row).
    rewrite Hnot. apply IH.
  - unfold checkForDuplicateRequests.
    destruct (ss !! leaveType) as [sheet|]; [|reflexivity].
    destruct (getLastRow sheet <? 2)%nat; [reflexivity|].
    induction (getValues sheet) as [|row rows IH]; [reflexivity|].
    simpl.
    change (String.eqb (JS.trim (Row.employeeId row)) employeeId)
      with (ownedBy employeeId row).
    rewrite Hnot. exact IH.
Qed.

Lemma untrimmed_id_matches_no_row_witness :
  getUserStatus " E1 " Sample.statsLedger = UserStatus.Clear
  /\ getMonthlyLeaveStats (Date.make 2024 5 20 0 0) " E1 " Sample.statsLedger
     = zeroStats
  /\ checkForDuplicateRequests (H := Sample.services) " E1 " "2024-05-02"
       PERMISSION_SHEET_NAME "" Sample.statsLedger = false.
Proof.
  exact (untrimmed_id_matches_no_row (H := Sample.services)
           (Date.make 2024 5 20 0 0) " E1 " "2024-05-02" PERMISSION_SHEET_NAME
           "" Sample.statsLedger
           ltac:(intros Heq; vm_compute in Heq; discriminate Heq)).
Defined.

(** X8. Verification trims the id for the directory lookup but hands the
    untrimmed id to the status scan: an employee found under an id typed with
    surrounding white space is verified with status Clear, whereas the trimmed
    id gives the status the ledger holds. *)
Theorem verifyEmployeeAndGetStatus_untrimmed `{Services} (employeeId : string)
    (w : World) (employeeInfo : EmployeeInfo) :
  employeeId <> JS.trim employeeId ->
  JS.trim employeeId <> "" ->
  default (employeeSheet w) (employeeCache w) !! JS.trim employeeId
  = Some employeeInfo ->
  fst (verifyEmployeeAndGetStatus employeeId w)
  = Verified (name employeeInfo) (photoUrl employeeInfo) UserStatus.Clear
  /\ fst (verifyEmployeeAndGetStatus (JS.trim employeeId) w)
     = Verified (name employeeInfo) (photoUrl employeeInfo)
         (getUserStatus (JS.trim employeeId) (spreadsheet w)).
Proof.
  intros Hne Htrim Hknown.
  assert (Hid : employeeId <> "").
  { intros ->. apply Hne. reflexivity. }
  assert (Hcheck : forall e, JS.trim e = JS.trim employeeId -> e <> "" ->
            exists w', checkEmployeeId e w
                       = (EmployeeKnown (name employeeInfo)
                            (photoUrl employeeInfo), w')
                       /\ spreadsheet w' = spreadsheet w).
  { intros e He Hnonempty. unfold checkEmployeeId.
    rewrite He, (nonEmpty_true _ Hnonempty), (nonEmpty_true _ Htrim).
    cbn [negb orb].
    unfold JS.get.
    destruct (employeeCache w) as [cache|] eqn:Hcache;
      unfold default, from_option, id in Hknown;
      rewrite Hknown; eexists; split; reflexivity. }
  split.
  - destruct (Hcheck employeeId eq_refl Hid) as (w' & Hw' & Hss).
    unfold verifyEmployeeAndGetStatus.
    rewrite (nonEmpty_true _ Hid), Hw'. cbn [negb]. rewrite Hss.
    rewrite (getUserStatus_not_owned employeeId (spreadsheet w) Hid
               (fun row => untrimmed_not_owned _ row Hne)).
    reflexivity.
  - destruct (Hcheck (JS.trim employeeId) (trim_idem _) Htrim)
      as (w' & Hw' & Hss).
    unfold verifyEmployeeAndGetStatus.
    rewrite (nonEmpty_true _ Htrim), Hw'. cbn [negb]. rewrite Hss.
    unfold getUserStatus at 1. rewrite (nonEmpty_true _ Htrim). cbn [negb].
    unfold getUserStatus. rewrite (nonEmpty_true _ Htrim). cbn [negb].
    destruct (UserStatus.pendingRequest _); [reflexivity|].
    destruct (UserStatus.approvedUncheckedRequest _); [reflexivity|].
    destruct (UserStatus.adminCheckedInRequest _); [reflexivity|].
    destruct (UserStatus.rejectedRequest _) as [[rid reason]|]; reflexivity.
Qed.

Lemma verifyEmployeeAndGetStatus_untrimmed_witness :
  fst (verifyEmployeeAndGetStatus " E1 " (Scenario.staffed Sample.pendingLedger))
  = Verified "Dara" "https://drive.example/dara" UserStatus.Clear
  /\ fst (verifyEmployeeAndGetStatus "E1" (Scenario.staffed Sample.pendingLedger))
     = Verified "Dara" "https://drive.example/dara" (UserStatus.Pending "REQ-20").
Proof.
  destruct (verifyEmployeeAndGetStatus_untrimmed " E1 "
              (Scenario.staffed Sample.pendingLedger)
              (mkEmployeeInfo "Dara" "https://drive.example/dara")
              ltac:(intros Heq; vm_compute in Heq; discriminate Heq)
              ltac:(intros Heq; vm_compute in Heq; discriminate Heq)
              ltac:(vm_compute; reflexivity)) as [Huntrimmed Htrimmed].
  split; [exact Huntrimmed|].
  change (JS.trim " E1 ") with "E1" in Htrimmed. rewrite Htrimmed.
  vm_compute. reflexivity.
Defined.

(** ** Submission seen by the employee's status, the duplicate guard and
       the statistics *)

Lemma find_flat_map_cons {A B : Type} (p : B -> bool) (f f' : A -> list B)
    (names : list A) (name : A) (x : B) :
  List.find p (flat_map f names) = None ->
  (forall other, other <> name -> f' other = f other) ->
  f' name = x :: f name -> p x = true -> In name names ->
  (forall a b : A, {a = b} + {a <> b}) ->
  List.find p (flat_map f' names) = Some x.
Proof.
  intros Hnone Hother Hname Hp Hin Hdec.
  induction names as [|a names IH]; [destruct Hin|].
  cbn [flat_map] in Hnone |- *.
  destruct (Hdec a name) as [->|Hne].
  - rewrite Hname. simpl. rewrite Hp. reflexivity.
  - rewrite (Hother a Hne).
    assert (Hhead : List.find p (f a) = None).
    { apply find_None_iff. intros y Hy.
      apply (proj1 (find_None_iff _ _) Hnone). apply in_or_app. auto. }
    rewrite (find_app_None _ _ _ Hhead) in Hnone.
    rewrite (find_app_None _ _ _ Hhead).
    apply IH; [exact Hnone|]. destruct Hin as [Heq|Hin]; [congruence|exact Hin].
Qed.

(** X9. After a submission into a partition whose sheet has a header row,
    under an employee id without surrounding white space, the status of that
    employee is Pending; it names the new request when the employee had no
    Pending request before. *)
Theorem submitted_request_blocks_employee `{Services} (now : Millis)
    (leaveDetails : LeaveDetails.t) (w : World) (header : Row.t)
    (sheet : list Row.t) :
  let leaveType := LeaveDetails.leaveType leaveDetails in
  let employeeId := LeaveDetails.employeeId leaveDetails in
  let w' := snd (submitLeaveRequest now leaveDetails w) in
  In leaveType ALL_LEAVE_SHEETS ->
  employeeId <> "" -> JS.trim employeeId = employeeId ->
  spreadsheet w !! leaveType = Some (header :: sheet) ->
  (exists requestId,
      getUserStatus employeeId (spreadsheet w') = UserStatus.Pending requestId)
  /\ (firstOf employeeId isPending (spreadsheet w) = None ->
      getUserStatus employeeId (spreadsheet w')
      = UserStatus.Pending ("REQ-" +:+ pretty now)).
Proof.
  intros leaveType employeeId w' Hin Hemp Htrim Hs.
  assert (Htype : leaveType <> "").
  { intros Heq. rewrite Heq in Hin. vm_compute in Hin.
    destruct Hin as [Hin|[Hin|[Hin|[]]]]; discriminate Hin. }
  destruct (submitLeaveRequest_ledger now leaveDetails w Htype Hemp)
    as (selfieUrl & documentUrlsJson & paymentReceiptUrl & Hledger).
  fold leaveType in Hledger. fold w' in Hledger. rewrite Hs in Hledger.
  unfold default, from_option, id in Hledger.
  set (newRow := submittedRow now leaveDetails selfieUrl documentUrlsJson
                   paymentReceiptUrl) in *.
  assert (Hkind : ownedBy employeeId newRow && isPending newRow = true).
  { unfold ownedBy, isPending, newRow, submittedRow.
    cbn [Row.employeeId Row.status]. fold employeeId.
    rewrite Htrim, String.eqb_refl. reflexivity. }
  assert (Hrows : In newRow (userRows (spreadsheet w'))).
  { apply In_userRows, In_rowsOf.
    exists leaveType, ((header :: sheet) ++ [newRow])%list, (S (length sheet)).
    split; [exact Hin|]. split; [rewrite Hledger; apply lookup_insert_eq|].
    split; [|lia]. rewrite lookup_app_r by (simpl; lia).
    replace (S (length sheet) - length (header :: sheet))%nat with O
      by (simpl; lia).
    reflexivity. }
  rewrite (getUserStatus_first _ _ Hemp). unfold firstOf. split.
  - destruct (List.find _ (userRows (spreadsheet w'))) as [row|] eqn:Hfind;
      [eauto|].
    rewrite find_None_iff in Hfind. rewrite (Hfind newRow Hrows) in Hkind.
    discriminate.
  - intros Hnone. unfold firstOf, userRows in Hnone |- *.
    rewrite (find_flat_map_cons _ _ _ _ leaveType newRow Hnone).
    + reflexivity.
    + intros other Hother. rewrite Hledger, lookup_insert_ne by congruence.
      reflexivity.
    + rewrite Hledger, lookup_insert_eq, Hs. unfold getValues.
      change (drop 1 ((header :: sheet) ++ [newRow])%list)
        with (sheet ++ [newRow])%list.
      change (drop 1 (header :: sheet)) with sheet.
      rewrite rev_app_distr. reflexivity.
    + exact Hkind.
    + exact Hin.
    + intros a b. destruct (decide (a = b)); auto.
Qed.

Lemma submitted_request_blocks_employee_witness :
  getUserStatus "E123"
    (spreadsheet
       (snd (submitLeaveRequest Scenario.morning Scenario.leaveRequest
               Scenario.leaveWorld)))
  = UserStatus.Pending "REQ-1714636800000".
Proof.
  apply (submitted_request_blocks_employee Scenario.morning
           Scenario.leaveRequest Scenario.leaveWorld blankRow
           [Scenario.approvedLeave]);
    try (vm_compute; auto; fail); discriminate.
Defined.

Lemma duplicateIn_app (employeeId : string) (requestDate : option Millis)
    (currentRequestId : string) (data data' : list Row.t) :
  duplicateIn employeeId requestDate currentRequestId (data ++ data')
  = duplicateIn employeeId requestDate currentRequestId data
    || duplicateIn employeeId requestDate currentRequestId data'.
Proof.
  induction data as [|row data IH]; [reflexivity|]. simpl.
  destruct (String.eqb _ employeeId); [|exact IH].
  destruct (Date.sameTime _ _); [|exact IH].
  destruct (_ && _); [exact IH|reflexivity].
Qed.

(** X10. After a submission that names a category and an employee id, with
    a readable start date, into a sheet with a header row, the duplicate
    check, asked under the submitted employee id once trimmed (the id itself
    when it has no surrounding white space), flags a new request of the same
    category and start date, while an edit of the submitted request itself
    is judged as before the submission. *)
Theorem submitted_request_is_duplicate `{Services} (now : Millis)
    (leaveDetails : LeaveDetails.t) (w : World) (header : Row.t)
    (sheet : list Row.t) (day : Millis) :
  let leaveType := LeaveDetails.leaveType leaveDetails in
  let employeeId := LeaveDetails.employeeId leaveDetails in
  let startDate := LeaveDetails.startDate leaveDetails in
  let ss' := spreadsheet (snd (submitLeaveRequest now leaveDetails w)) in
  leaveType <> "" ->
  employeeId <> "" ->
  spreadsheet w !! leaveType = Some (header :: sheet) ->
  parseDate startDate = Some day ->
  checkForDuplicateRequests (JS.trim employeeId) startDate leaveType "" ss'
  = true
  /\ checkForDuplicateRequests (JS.trim employeeId) startDate leaveType
       ("REQ-" +:+ pretty now) ss'
     = checkForDuplicateRequests (JS.trim employeeId) startDate leaveType
         ("REQ-" +:+ pretty now) (spreadsheet w).
Proof.
  intros leaveType employeeId startDate ss' Htype Hemp Hs Hday.
  destruct (submitLeaveRequest_ledger now leaveDetails w Htype Hemp)
    as (selfieUrl & documentUrlsJson & paymentReceiptUrl & Hledger).
  fold leaveType in Hledger. fold ss' in Hledger. rewrite Hs in Hledger.
  unfold default, from_option, id in Hledger.
  set (newRow := submittedRow now leaveDetails selfieUrl documentUrlsJson
                   paymentReceiptUrl) in *.
  assert (Hcheck : forall requestId,
            checkForDuplicateRequests (JS.trim employeeId) startDate leaveType
              requestId ss'
            = duplicateIn (JS.trim employeeId)
                (option_map (Date.setHours 0 0) (parseDate startDate)) requestId
                sheet
              || duplicateIn (JS.trim employeeId)
                   (option_map (Date.setHours 0 0) (parseDate startDate))
                   requestId [newRow]).
  { intros requestId. unfold checkForDuplicateRequests.
    rewrite Hledger, lookup_insert_eq. unfold getLastRow, getValues.
    rewrite length_app. cbn [length].
    replace (S (length sheet) + 1 <? 2)%nat with false
      by (symmetry; apply Nat.ltb_ge; lia).
    change (drop 1 ((header :: sheet) ++ [newRow])%list)
      with (sheet ++ [newRow])%list.
    apply duplicateIn_app. }
  assert (Hown : String.eqb (JS.trim (Row.employeeId newRow))
                   (JS.trim employeeId) = true).
  { unfold newRow, submittedRow. cbn [Row.employeeId]. fold employeeId.
    apply String.eqb_refl. }
  assert (Hsame : Date.sameTime
                    (option_map (Date.setHours 0 0) (Row.startDate newRow))
                    (option_map (Date.setHours 0 0) (parseDate startDate))
                  = true).
  { unfold newRow, submittedRow. cbn [Row.startDate]. fold startDate.
    rewrite Hday. simpl. apply Z.eqb_refl. }
  split.
  - rewrite Hcheck. cbn [duplicateIn]. rewrite Hown, Hsame.
    cbn [JS.nonEmpty andb]. apply orb_true_r.
  - rewrite Hcheck. cbn [duplicateIn]. rewrite Hown, Hsame.
    replace (Row.requestId newRow) with ("REQ-" +:+ pretty now) by reflexivity.
    rewrite String.eqb_refl.
    change (JS.nonEmpty ("REQ-" +:+ pretty now)) with true.
    cbn [andb]. rewrite orb_false_r.
    unfold checkForDuplicateRequests. rewrite Hs.
    unfold getLastRow, getValues. cbn [length].
    change (drop 1 (header :: sheet)) with sheet.
    destruct sheet as [|row sheet]; reflexivity.
Qed.

Lemma submitted_request_is_duplicate_witness :
  let ss' := spreadsheet
               (snd (submitLeaveRequest Scenario.morning Scenario.leaveRequest
                       Scenario.leaveWorld)) in
  checkForDuplicateRequests (H := Sample.services) "E123" "2024-05-03"
    LEAVE_SHEET_NAME "" ss' = true
  /\ checkForDuplicateRequests (H := Sample.services) "E123" "2024-05-03"
       LEAVE_SHEET_NAME "REQ-1714636800000" ss' = false.
Proof.
  destruct (submitted_request_is_duplicate Scenario.morning
              Scenario.leaveRequest Scenario.leaveWorld blankRow
              [Scenario.approvedLeave] (Date.make 2024 5 3 0 0)
              ltac:(discriminate) ltac:(discriminate)
              ltac:(vm_compute; reflexivity) ltac:(vm_compute; reflexivity))
    as [Hnew Hedit].
  split; [exact Hnew|].
  etransitivity; [exact Hedit|]. vm_compute. reflexivity.
Defined.

(** X11. A candidate whose start date cannot be read is never a duplicate,
    also of rows whose own start date cannot be read. *)
Theorem unparsable_start_date_is_no_duplicate `{Services}
    (employeeId startDate leaveType requestId : string)
    (ss : gmap string (list Row.t)) :
  parseDate startDate = None ->
  checkForDuplicateRequests employeeId startDate leaveType requestId ss = false.
Proof.
  intros Hdate. unfold checkForDuplicateRequests.
  destruct (ss !! leaveType) as [sheet|]; [|reflexivity].
  destruct (getLastRow sheet <? 2)%nat; [reflexivity|].
  rewrite Hdate. simpl option_map.
  induction (getValues sheet) as [|row rows IH]; [reflexivity|].
  simpl. destruct (String.eqb _ employeeId); [|exact IH].
  destruct (option_map _ (Row.startDate row)); exact IH.
Qed.

Lemma unparsable_start_date_is_no_duplicate_witness :
  checkForDuplicateRequests (H := Sample.services) "E123" "tomorrow"
    LEAVE_SHEET_NAME "" Sample.leaveLedger = false.
Proof.
  exact (unparsable_start_date_is_no_duplicate (H := Sample.services) "E123"
           "tomorrow" LEAVE_SHEET_NAME "" Sample.leaveLedger
           ltac:(vm_compute; reflexivity)).
Defined.

(** X12. A submission that names a category and an employee leaves the monthly
    figures of every employee as they are, for every month: the new row is
    Pending and only Approved rows count. *)
Theorem submission_keeps_monthly_stats `{Services} (now asOf : Millis)
    (leaveDetails : LeaveDetails.t) (employeeId : string) (w : World) :
  LeaveDetails.leaveType leaveDetails <> "" ->
  LeaveDetails.employeeId leaveDetails <> "" ->
  getMonthlyLeaveStats asOf employeeId
    (spreadsheet (snd (submitLeaveRequest now leaveDetails w)))
  = getMonthlyLeaveStats asOf employeeId (spreadsheet w).
Proof.
  intros Htype Hemp.
  destruct (submitLeaveRequest_ledger now leaveDetails w Htype Hemp)
    as (selfieUrl & documentUrlsJson & paymentReceiptUrl & Hledger).
  rewrite Hledger. clear Hledger.
  set (leaveType := LeaveDetails.leaveType leaveDetails).
  set (newRow := submittedRow now leaveDetails selfieUrl documentUrlsJson
                   paymentReceiptUrl).
  unfold getMonthlyLeaveStats. generalize zeroStats.
  induction ALL_LEAVE_SHEETS as [|sheetName names IH]; intros stats;
    [reflexivity|].
  cbn [fold_left]. rewrite IH. f_equal.
  rewrite !countSheet_fold, lookup_insert.
  destruct (decide (leaveType = sheetName)) as [<-|Hne]; [|reflexivity].
  destruct (spreadsheet w !! leaveType) as [[|header sheet]|];
    cbn [default from_option id app]; try reflexivity.
  unfold getValues.
  change (drop 1 (header :: (sheet ++ [newRow])%list))
    with (sheet ++ [newRow])%list.
  change (drop 1 (header :: sheet)) with sheet.
  rewrite fold_left_app. cbn [fold_left].
  unfold countRow at 1. cbn [Row.status newRow submittedRow].
  rewrite andb_false_r.
  destruct (String.eqb _ employeeId); reflexivity.
Qed.

Lemma submission_keeps_monthly_stats_witness :
  getMonthlyLeaveStats (Date.make 2024 5 20 0 0) "E123"
    (spreadsheet
       (snd (submitLeaveRequest Scenario.morning Scenario.leaveRequest
               Scenario.leaveWorld)))
  = mkStats 1 (JS.Finite 1) 0 1.
Proof.
  rewrite (submission_keeps_monthly_stats Scenario.morning
             (Date.make 2024 5 20 0 0) Scenario.leaveRequest "E123"
             Scenario.leaveWorld ltac:(discriminate) ltac:(discriminate)).
  vm_compute. reflexivity.
Defined.

(** ** Telegram webhook *)

Lemma pretty_N_char_no_underscore (d : N) :
  Ascii.eqb (pretty_N_char d) "_" = false.
Proof.
  unfold pretty_N_char.
  repeat match goal with
         | |- context [match ?p with _ => _ end] => destruct p
         end; reflexivity.
Qed.

Lemma pretty_N_go_no_underscore (x : N) :
  forall s, Text.contains "_" s = false ->
            Text.contains "_" (pretty_N_go x s) = false.
Proof.
  induction (N.lt_wf_0 x) as [x _ IH]. intros s Hs.
  destruct (decide (x = 0)%N) as [->|Hx].
  - rewrite pretty_N_go_0. exact Hs.
  - rewrite pretty_N_go_step by lia. apply IH.
    + apply N.div_lt; lia.
    + cbn [Text.contains]. rewrite pretty_N_char_no_underscore. exact Hs.
Qed.

Lemma pretty_Z_no_underscore (z : Z) : Text.contains "_" (pretty z) = false.
Proof.
  assert (HN : forall p, Text.contains "_" (pretty (N.pos p)) = false).
  { intros p. unfold pretty, pretty_N.
    destruct (decide (N.pos p = 0%N)); [reflexivity|].
    apply pretty_N_go_no_underscore. reflexivity. }
  destruct z as [|p|p]; [reflexivity|apply HN|].
  change (pretty (Z.neg p)) with (String "-" (pretty (N.pos p))).
  cbn [Text.contains]. apply HN.
Qed.

Lemma split_no_separator (c : ascii) (s : string) :
  Text.contains c s = false -> Text.split c s = [s].
Proof.
  induction s as [|a s IH]; [reflexivity|]. cbn [Text.contains Text.split].
  intros Hs. apply orb_false_elim in Hs. destruct Hs as [Ha Hs].
  rewrite Ha, (IH Hs). reflexivity.
Qed.

Lemma split_append (c : ascii) (s rest : string) :
  Text.contains c s = false ->
  Text.split c (s +:+ String c rest) = s :: Text.split c rest.
Proof.
  induction s as [|a s IH].
  - intros _. change ("" +:+ String c rest) with (String c rest).
    cbn [Text.split]. rewrite Ascii.eqb_refl. reflexivity.
  - cbn [Text.contains]. intros Hs. apply orb_false_elim in Hs.
    destruct Hs as [Ha Hs].
    change (String a s +:+ String c rest) with (String a (s +:+ String c rest)).
    cbn [Text.split]. rewrite Ha, (IH Hs). reflexivity.
Qed.

Lemma keyboard_parts (action requestId : string) :
  Text.contains "_" action = false ->
  Text.contains "_" requestId = false ->
  Text.split "_" (action +:+ "_" +:+ requestId +:+ "_" +:+ Keyboard.adminKey)
  = [action; requestId; Keyboard.adminKey].
Proof.
  intros Haction Hid.
  change (action +:+ "_" +:+ requestId +:+ "_" +:+ Keyboard.adminKey)
    with (action +:+ String "_" (requestId +:+ String "_" Keyboard.adminKey)).
  rewrite (split_append _ _ _ Haction), (split_append _ _ _ Hid).
  reflexivity.
Qed.

Lemma doPost_button `{Services} (now : Millis) (requestId : string)
    (chatId messageId : Z) (text : string) (w : World) :
  Text.contains "_" requestId = false ->
  let approver := "គណៈគ្រប់គ្រង លោកគ្រូ ពៅ ដារ៉ូ" in
  doPost now
    (Some (CallbackQuery.mk (Keyboard.approve requestId) chatId messageId text))
    w
  = (let out := updateRequestStatus now requestId "Approved" approver "" w in
     (Some (buttonResult chatId messageId text "approve" approver (fst out)),
      snd out))
  /\ doPost now
       (Some (CallbackQuery.mk (Keyboard.reject requestId) chatId messageId text))
       w
     = (let out := updateRequestStatus now requestId "Rejected" approver
                     "Rejected via Telegram" w in
        (Some (buttonResult chatId messageId text "reject" approver (fst out)),
         snd out)).
Proof.
  intros Hid approver.
  assert (Hrole : ADMIN_ROLES !! Keyboard.adminKey = Some approver)
    by (vm_compute; reflexivity).
  split; unfold doPost, Keyboard.approve, Keyboard.reject;
    cbn [CallbackQuery.data CallbackQuery.chatId CallbackQuery.messageId
         CallbackQuery.text].
  - change ("approve_" +:+ requestId +:+ "_" +:+ Keyboard.adminKey)
      with ("approve" +:+ "_" +:+ requestId +:+ "_" +:+ Keyboard.adminKey).
    rewrite (keyboard_parts "approve" requestId eq_refl Hid).
    cbn [lookup list_lookup default from_option id mbind option_bind].
    rewrite Hrole. cbn [default from_option id mbind option_bind String.eqb
      Ascii.eqb Bool.eqb].
    destruct (updateRequestStatus now requestId "Approved" approver "" w)
      as [[info|e] w']; reflexivity.
  - change ("reject_" +:+ requestId +:+ "_" +:+ Keyboard.adminKey)
      with ("reject" +:+ "_" +:+ requestId +:+ "_" +:+ Keyboard.adminKey).
    rewrite (keyboard_parts "reject" requestId eq_refl Hid).
    cbn [lookup list_lookup default from_option id mbind option_bind].
    rewrite Hrole. cbn [default from_option id mbind option_bind String.eqb
      Ascii.eqb Bool.eqb].
    destruct (updateRequestStatus now requestId "Rejected" approver
                "Rejected via Telegram" w) as [[info|e] w']; reflexivity.
Qed.

(** X13. The callback data of the approve and reject buttons sent with a
    submission, posted back to the webhook, lead to exactly the decision
    Approved, or Rejected with reason [Rejected via Telegram], on the
    submitted request id in the name of the admin of the key in the buttons,
    and to the edit that reports its result. *)
Theorem telegram_button_round_trip `{Services} (submitted now : Millis)
    (chatId messageId : Z) (text : string) (w : World) :
  let requestId := "REQ-" +:+ pretty submitted in
  let approver := "គណៈគ្រប់គ្រង លោកគ្រូ ពៅ ដារ៉ូ" in
  doPost now
    (Some (CallbackQuery.mk (Keyboard.approve requestId) chatId messageId text))
    w
  = (let out := updateRequestStatus now requestId "Approved" approver "" w in
     (Some (buttonResult chatId messageId text "approve" approver (fst out)),
      snd out))
  /\ doPost now
       (Some (CallbackQuery.mk (Keyboard.reject requestId) chatId messageId text))
       w
     = (let out := updateRequestStatus now requestId "Rejected" approver
                     "Rejected via Telegram" w in
        (Some (buttonResult chatId messageId text "reject" approver (fst out)),
         snd out)).
Proof.
  intros requestId approver. apply doPost_button.
  unfold requestId. change ("REQ-" +:+ pretty submitted)
    with (String "R" (String "E" (String "Q" (String "-" (pretty submitted))))).
  cbn [Text.contains Ascii.eqb Bool.eqb orb]. apply pretty_Z_no_underscore.
Qed.

(** X14. A request submitted, under an id that no row carries yet, into a
    sheet with a header row and then approved with its Telegram button is
    stored as Approved by the admin of the button's key at the time of the
    press, and the status query reports it so; a second press changes
    nothing and is answered with already-processed. *)
Theorem telegram_approval_of_submitted_request `{Services}
    (submitted now later : Millis) (leaveDetails : LeaveDetails.t) (w : World)
    (header : Row.t) (sheet : list Row.t) (chatId messageId : Z)
    (text : string) :
  let leaveType := LeaveDetails.leaveType leaveDetails in
  let requestId := "REQ-" +:+ pretty submitted in
  let approver := "គណៈគ្រប់គ្រង លោកគ្រូ ពៅ ដារ៉ូ" in
  let press :=
    Some (CallbackQuery.mk (Keyboard.approve requestId) chatId messageId text) in
  let w1 := snd (submitLeaveRequest submitted leaveDetails w) in
  let w2 := snd (doPost now press w1) in
  let stored := getRow (Found.mk leaveType (length sheet + 2)) (spreadsheet w2) in
  In leaveType ALL_LEAVE_SHEETS ->
  LeaveDetails.employeeId leaveDetails <> "" ->
  spreadsheet w !! leaveType = Some (header :: sheet) ->
  findRequestRow (spreadsheet w) requestId = None ->
  fst (doPost now press w1)
  = Some (ActionDone chatId messageId text "approve" approver)
  /\ getRequestStatus requestId (spreadsheet w2)
     = RequestStatus.Plain "Approved" leaveType
  /\ Row.status stored = "Approved"
  /\ Row.approver stored = approver
  /\ Row.approvalTimestamp stored = Some now
  /\ doPost later press w2
     = (Some (ActionFailed chatId messageId text (Some AlreadyProcessed)), w2).
Proof.
  intros leaveType requestId approver press w1 w2 stored Hin Hemp Hs Hfresh.
  destruct (submitLeaveRequest_located submitted leaveDetails w header sheet
              Hin Hemp Hs Hfresh)
    as (selfieUrl & documentUrlsJson & paymentReceiptUrl & Hsheet & Hrow
        & Hfind & Hget).
  cbv zeta in Hsheet, Hrow, Hfind, Hget.
  fold leaveType requestId w1 in Hsheet, Hrow, Hfind, Hget.
  set (newRow := submittedRow submitted leaveDetails selfieUrl documentUrlsJson
                   paymentReceiptUrl) in *.
  set (found := Found.mk leaveType (length sheet + 2)) in *.
  assert (Hid : Text.contains "_" requestId = false).
  { unfold requestId. change ("REQ-" +:+ pretty submitted)
      with (String "R" (String "E" (String "Q" (String "-" (pretty submitted))))).
    cbn [Text.contains Ascii.eqb Bool.eqb orb]. apply pretty_Z_no_underscore. }
  assert (Hne : requestId <> "") by discriminate.
  pose proof (updateRequestStatus_located now requestId "Approved" approver ""
                w1 found _ newRow Hne ltac:(discriminate) Hfind Hsheet Hrow
                eq_refl) as Hdecide.
  destruct (doPost_button now requestId chatId messageId text w1 Hid)
    as [Hpress _].
  cbv zeta in Hpress. fold approver press in Hpress.
  assert (Hw2 : spreadsheet w2
                = <[Found.sheet found :=
                      <[(Found.row found - 1)%nat :=
                          decidedRow now "Approved" approver "" newRow]>
                        ((header :: sheet) ++ [newRow])%list]> (spreadsheet w1)).
  { unfold w2. rewrite Hpress, Hdecide. reflexivity. }
  assert (Hfind2 : findRequestRow (spreadsheet w2) requestId = Some found).
  { rewrite Hw2.
    rewrite (findRequestRow_insert _ _ _ _ newRow _ _ Hsheet Hrow) by reflexivity.
    exact Hfind. }
  assert (Hget2 : getRow found (spreadsheet w2)
                  = decidedRow now "Approved" approver "" newRow).
  { rewrite Hw2. apply (getRow_insert _ _ _ newRow _ Hrow). }
  split; [rewrite Hpress, Hdecide; reflexivity|].
  split; [unfold getRequestStatus; rewrite (nonEmpty_true _ Hne), Hfind2, Hget2;
          reflexivity|].
  unfold stored. fold found. rewrite Hget2.
  split; [reflexivity|]. split; [reflexivity|]. split; [reflexivity|].
  destruct (doPost_button later requestId chatId messageId text w2 Hid)
    as [Hagain _].
  cbv zeta in Hagain. fold approver press in Hagain. rewrite Hagain.
  unfold updateRequestStatus.
  rewrite (nonEmpty_true _ Hne), Hfind2, Hget2. reflexivity.
Qed.

Lemma telegram_approval_of_submitted_request_witness :
  let requestId := "REQ-1714636800000" in
  let press :=
    Some (CallbackQuery.mk (Keyboard.approve requestId) 1487065922 77 "new") in
  let w1 := snd (submitLeaveRequest Scenario.morning Scenario.newRequest
                   Scenario.world) in
  let w2 := snd (doPost Scenario.noon press w1) in
  fst (doPost Scenario.noon press w1)
  = Some (ActionDone 1487065922 77 "new" "approve"
            "គណៈគ្រប់គ្រង លោកគ្រូ ពៅ ដារ៉ូ")
  /\ getRequestStatus requestId (spreadsheet w2)
     = RequestStatus.Plain "Approved" PERMISSION_SHEET_NAME
  /\ doPost (Scenario.noon + 1) press w2
     = (Some (ActionFailed 1487065922 77 "new" (Some AlreadyProcessed)), w2).
Proof.
  destruct (telegram_approval_of_submitted_request Scenario.morning
              Scenario.noon (Scenario.noon + 1) Scenario.newRequest
              Scenario.world blankRow [Scenario.pendingRequest] 1487065922 77
              "new"
              ltac:(vm_compute; auto) ltac:(discriminate)
              ltac:(vm_compute; reflexivity) ltac:(vm_compute; reflexivity))
    as (Hedit & Hstatus & _ & _ & _ & Hagain).
  split; [exact Hedit|]. split; [exact Hstatus|exact Hagain].
Defined.



(** ** Details of one request *)

Lemma getLeaveRequestDetails_checked_in (timezoneOffset : Z)
    (requestId : string) (ss : gmap string (list Row.t)) (found : Found.t)
    (t : Millis) :
  requestId <> "" ->
  findRequestRow ss requestId = Some found ->
  Row.checkInTimestamp (getRow found ss) = Some t ->
  getLeaveRequestDetails timezoneOffset requestId ss
  = match Row.startDate (getRow found ss), Row.endDate (getRow found ss) with
    | Some _, Some _ => Details.RowIsNotDefined
    | _, _ => Details.InvalidTimeValue
    end.
Proof.
  intros Hne Hfind Hcheck. unfold getLeaveRequestDetails.
  rewrite (nonEmpty_true _ Hne), Hfind, Hcheck. cbn [negb].
  destruct (Row.startDate _); [|reflexivity].
  destruct (Row.endDate _); reflexivity.
Qed.

(** X16. Once a request has a check-in time, by the employee or by an admin,
    the details query fails: with a reference error on the undeclared [row]
    when both dates of the row are readable, with the range error of the date
    formatting otherwise. *)
Theorem details_unavailable_after_check_in `{Services} (timezoneOffset : Z)
    (now : Millis) (w : World) :
  (forall requestId adminRole found,
      requestId <> "" -> adminRole <> "" ->
      findRequestRow (spreadsheet w) requestId = Some found ->
      let row := getRow found (spreadsheet w) in
      getLeaveRequestDetails timezoneOffset requestId
        (spreadsheet (snd (adminSubmitCheckIn now requestId adminRole w)))
      = match Row.startDate row, Row.endDate row with
        | Some _, Some _ => Details.RowIsNotDefined
        | _, _ => Details.InvalidTimeValue
        end)
  /\ (forall checkInData found,
        validCheckIn checkInData ->
        findRequestRow (spreadsheet w) (CheckInData.requestId checkInData)
        = Some found ->
        let row := getRow found (spreadsheet w) in
        getLeaveRequestDetails timezoneOffset (CheckInData.requestId checkInData)
          (spreadsheet (snd (submitCheckIn now checkInData w)))
        = match Row.startDate row, Row.endDate row with
          | Some _, Some _ => Details.RowIsNotDefined
          | _, _ => Details.InvalidTimeValue
          end).
Proof.
  split.
  - intros requestId adminRole found Hne Hrole Hfind row.
    destruct (findRequestRow_located _ _ _ Hfind) as (sheet & Hs & Hr & _).
    fold row in Hr.
    rewrite (adminSubmitCheckIn_located now requestId adminRole w found sheet
               row Hne Hrole Hfind Hs Hr).
    cbn [snd spreadsheet].
    rewrite (getLeaveRequestDetails_checked_in timezoneOffset requestId _ found
               now Hne).
    + rewrite (getRow_insert _ _ _ row _ Hr). reflexivity.
    + rewrite (findRequestRow_insert _ _ _ _ row _ _ Hs Hr) by reflexivity.
      exact Hfind.
    + rewrite (getRow_insert _ _ _ row _ Hr). reflexivity.
  - intros checkInData found Hvalid Hfind row.
    destruct (findRequestRow_located _ _ _ Hfind) as (sheet & Hs & Hr & _).
    fold row in Hr.
    destruct (submitCheckIn_located now checkInData w found sheet row Hvalid
                Hfind Hs Hr) as (url & d' & _ & Hout).
    rewrite Hout. cbn [snd spreadsheet].
    assert (Hne : CheckInData.requestId checkInData <> "")
      by (destruct Hvalid as [Hne _]; exact Hne).
    rewrite (getLeaveRequestDetails_checked_in timezoneOffset _ _ found now Hne).
    + rewrite (getRow_insert _ _ _ row _ Hr). reflexivity.
    + rewrite (findRequestRow_insert _ _ _ _ row _ _ Hs Hr) by reflexivity.
      exact Hfind.
    + rewrite (getRow_insert _ _ _ row _ Hr). reflexivity.
Qed.

Lemma details_unavailable_after_check_in_witness :
  getLeaveRequestDetails (7 * Date.MS_PER_HOUR) "REQ-30"
    (spreadsheet
       (snd (adminSubmitCheckIn Scenario.noon "REQ-30" "Admin"
               (Sample.world Sample.approvedLedger []))))
  = Details.RowIsNotDefined.
Proof.
  exact (proj1 (details_unavailable_after_check_in (H := Sample.services)
                  (7 * Date.MS_PER_HOUR) Scenario.noon
                  (Sample.world Sample.approvedLedger []))
           "REQ-30" "Admin" (Found.mk PERMISSION_SHEET_NAME 2)
           ltac:(discriminate) ltac:(discriminate)
           ltac:(vm_compute; reflexivity)).
Defined.

(** ** Employee check *)

(** X17. A successful decision drops the cached employee directory: the next
    employee check reads the directory sheet and answers from it, whatever
    the cache held - an id the sheet holds with its name and photo, an id
    that names a member every object inherits like a known one without
    photo, any other id as unknown - and caches the directory again. *)
Theorem decision_refreshes_directory `{Services} (now : Millis)
    (requestId newStatus approverRole rejectionReason employeeId info : string)
    (w : World) :
  fst (updateRequestStatus now requestId newStatus approverRole
         rejectionReason w) = Success info ->
  JS.trim employeeId <> "" ->
  let w1 := snd (updateRequestStatus now requestId newStatus approverRole
                   rejectionReason w) in
  fst (checkEmployeeId employeeId w1)
  = match employeeSheet w !! JS.trim employeeId with
    | Some employeeInfo =>
        EmployeeKnown (name employeeInfo) (photoUrl employeeInfo)
    | None =>
        if JS.isObjectPrototypeMember (JS.trim employeeId)
        then EmployeeInherited (JS.memberName (JS.trim employeeId))
        else EmployeeIdUnknown
    end
  /\ employeeCache (snd (checkEmployeeId employeeId w1))
     = Some (employeeSheet w).
Proof.
  intros Hok Htrim w1.
  assert (Hw1 : employeeCache w1 = None /\ employeeSheet w1 = employeeSheet w).
  { unfold w1. unfold updateRequestStatus in Hok |- *.
    destruct (negb (JS.nonEmpty requestId) || negb (JS.nonEmpty newStatus));
      [discriminate Hok|].
    destruct (findRequestRow (spreadsheet w) requestId) as [found|];
      [|discriminate Hok].
    destruct (negb (String.eqb (Row.status (getRow found (spreadsheet w)))
                      "Pending")); [discriminate Hok|].
    cbv zeta. destruct (String.eqb newStatus "Rejected" && JS.nonEmpty _);
      world_step; split; reflexivity. }
  destruct Hw1 as [Hcache Hsheet].
  assert (Hid : employeeId <> "").
  { intros ->. apply Htrim. reflexivity. }
  unfold checkEmployeeId.
  rewrite (nonEmpty_true _ Hid), (nonEmpty_true _ Htrim), Hcache, Hsheet.
  cbn [negb orb]. unfold JS.get.
  destruct (employeeSheet w !! JS.trim employeeId);
    [|destruct (JS.isObjectPrototypeMember (JS.trim employeeId))];
    split; try reflexivity; world_step; reflexivity.
Qed.

Lemma decision_refreshes_directory_witness :
  let w1 := snd (updateRequestStatus Scenario.noon "REQ-20" "Approved" "Admin"
                   "" (Scenario.staffed Sample.pendingLedger)) in
  fst (checkEmployeeId "E1" w1)
  = EmployeeKnown "Dara" "https://drive.example/dara"
  /\ fst (checkEmployeeId "constructor" w1) = EmployeeInherited (Some "Object")
  /\ fst (checkEmployeeId "E2" w1) = EmployeeIdUnknown
  /\ employeeCache w1 = None.
Proof.
  assert (Hcheck := fun employeeId =>
            decision_refreshes_directory Scenario.noon "REQ-20" "Approved"
              "Admin" "" employeeId "Request REQ-20 status updated."
              (Scenario.staffed Sample.pendingLedger)
              ltac:(vm_compute; reflexivity)).
  split.
  { exact (proj1 (Hcheck "E1"
                    ltac:(intros Heq; vm_compute in Heq; discriminate Heq))). }
  split.
  { exact (proj1 (Hcheck "constructor"
                    ltac:(intros Heq; vm_compute in Heq; discriminate Heq))). }
  split.
  { exact (proj1 (Hcheck "E2"
                    ltac:(intros Heq; vm_compute in Heq; discriminate Heq))). }
  vm_compute. reflexivity.
Defined.

(** ** Decisions and the monthly statistics *)

Lemma ALL_LEAVE_SHEETS_NoDup : NoDup ALL_LEAVE_SHEETS.
Proof.
  unfold ALL_LEAVE_SHEETS. repeat constructor; rewrite ?list_elem_of_In;
    cbn [In]; intros Hin;
    repeat (destruct Hin as [Hin|Hin]; [discriminate Hin|]); exact Hin.
Qed.

Lemma rowsOf_skip (names : list string) (ss : gmap string (list Row.t))
    (sheetName : string) (sheet : list Row.t) :
  ~ In sheetName names ->
  rowsOf names (<[sheetName := sheet]> ss) = rowsOf names ss.
Proof.
  induction names as [|name names IH]; [reflexivity|]. intros Hnot.
  unfold rowsOf in *. cbn [flat_map].
  rewrite lookup_insert_ne by (intros ->; apply Hnot; left; reflexivity).
  rewrite IH by (intros Hin; apply Hnot; right; exact Hin). reflexivity.
Qed.

Lemma rowsOf_insert (names : list string) (ss : gmap string (list Row.t))
    (sheetName : string) (sheet : list Row.t) (i : nat) (row : Row.t) :
  NoDup names -> In sheetName names ->
  ss !! sheetName = Some sheet -> sheet !! i = Some row -> (1 <= i)%nat ->
  exists above below,
    rowsOf names ss = (above ++ row :: below)%list
    /\ forall row',
         rowsOf names (<[sheetName := <[i := row']> sheet]> ss)
         = (above ++ row' :: below)%list.
Proof.
  intros Hnodup Hin Hs Hr Hi.
  induction names as [|name names IH]; [destruct Hin|].
  apply NoDup_cons in Hnodup. destruct Hnodup as [Hfresh Hnodup].
  rewrite list_elem_of_In in Hfresh.
  unfold rowsOf in *. cbn [flat_map].
  destruct (decide (name = sheetName)) as [->|Hne].
  - exists (drop 1 (take i sheet)), (drop (S i) sheet ++ rowsOf names ss)%list.
    assert (Hlen : (1 <= length (take i sheet))%nat).
    { rewrite length_take_le; [exact Hi|].
      apply lookup_lt_Some in Hr. lia. }
    split.
    + rewrite Hs. unfold getValues.
      rewrite <- (take_drop_middle sheet i row Hr) at 1.
      rewrite drop_app_le by exact Hlen.
      rewrite <- app_assoc. reflexivity.
    + intros row'. rewrite lookup_insert_eq. unfold getValues.
      rewrite insert_take_drop by (eapply lookup_lt_Some; exact Hr).
      rewrite drop_app_le by exact Hlen.
      rewrite <- app_assoc. cbn [app]. f_equal. f_equal. f_equal.
      apply (rowsOf_skip names ss sheetName _ Hfresh).
  - destruct Hin as [Heq|Hin]; [congruence|].
    destruct (IH Hnodup Hin) as (above & below & Hrows & Hrows').
    exists (match ss !! name with
            | Some other => getValues other
            | None => []
            end ++ above)%list, below.
    split.
    + rewrite Hrows, app_assoc. reflexivity.
    + intros row'. rewrite lookup_insert_ne by congruence.
      rewrite Hrows', app_assoc. reflexivity.
Qed.

Lemma getMonthlyLeaveStats_counted (now : Millis) (employeeId : string)
    (ss : gmap string (list Row.t)) :
  getMonthlyLeaveStats now employeeId ss =
  let counted := List.filter (qualifies now employeeId) (scannedRows ss) in
  mkStats (length counted) (sumDays JS.zero counted)
    (length (List.filter (hasLeaveType PERMISSION_SHEET_NAME) counted))
    (length (List.filter (hasLeaveType LEAVE_SHEET_NAME) counted)).
Proof. rewrite getMonthlyLeaveStats_fold, countRow_fold. reflexivity. Qed.

(** X18. Approving a Pending request that starts in the month asked for adds
    one request to the monthly figures of its employee, and one to the figure
    of its category; rejecting it leaves the figures as they are. *)
Theorem decision_counts_in_monthly_stats `{Services} (now asOf : Millis)
    (requestId actor reason : string) (w : World) (found : Found.t) :
  let row := getRow found (spreadsheet w) in
  let employeeId := JS.trim (Row.employeeId row) in
  let statsAfter newStatus :=
    getMonthlyLeaveStats asOf employeeId
      (spreadsheet
         (snd (updateRequestStatus now requestId newStatus actor reason w))) in
  let before := getMonthlyLeaveStats asOf employeeId (spreadsheet w) in
  requestId <> "" ->
  findRequestRow (spreadsheet w) requestId = Some found ->
  Row.status row = "Pending" ->
  sameMonth (Row.startDate row) asOf = true ->
  totalRequests (statsAfter "Approved") = S (totalRequests before)
  /\ permissionCount (statsAfter "Approved")
     = (permissionCount before
        + if hasLeaveType PERMISSION_SHEET_NAME row then 1 else 0)%nat
  /\ leaveCount (statsAfter "Approved")
     = (leaveCount before
        + if hasLeaveType LEAVE_SHEET_NAME row then 1 else 0)%nat
  /\ statsAfter "Rejected" = before.
Proof.
  intros row employeeId statsAfter before Hne Hfind Hst Hmonth.
  destruct (findRequestRow_located _ _ _ Hfind)
    as (sheet & Hs & Hr & _ & Hrow & Hin).
  fold row in Hr.
  destruct (rowsOf_insert ALL_LEAVE_SHEETS (spreadsheet w) (Found.sheet found)
              sheet (Found.row found - 1)%nat row ALL_LEAVE_SHEETS_NoDup Hin Hs
              Hr ltac:(lia)) as (above & below & Hrows & Hrows').
  assert (Hafter : forall newStatus, newStatus <> "" ->
            statsAfter newStatus
            = let counted :=
                List.filter (qualifies asOf employeeId)
                  (above ++ decidedRow now newStatus actor reason row :: below) in
              mkStats (length counted) (sumDays JS.zero counted)
                (length (List.filter (hasLeaveType PERMISSION_SHEET_NAME) counted))
                (length (List.filter (hasLeaveType LEAVE_SHEET_NAME) counted))).
  { intros newStatus Hnew. unfold statsAfter.
    rewrite (updateRequestStatus_located now requestId newStatus actor reason w
               found sheet row Hne Hnew Hfind Hs Hr Hst).
    cbn [snd spreadsheet]. rewrite getMonthlyLeaveStats_counted.
    unfold scannedRows. rewrite Hrows'. reflexivity. }
  assert (Hbefore : before
            = let counted :=
                List.filter (qualifies asOf employeeId) (above ++ row :: below) in
              mkStats (length counted) (sumDays JS.zero counted)
                (length (List.filter (hasLeaveType PERMISSION_SHEET_NAME) counted))
                (length (List.filter (hasLeaveType LEAVE_SHEET_NAME) counted))).
  { unfold before. rewrite getMonthlyLeaveStats_counted.
    unfold scannedRows. rewrite Hrows. reflexivity. }
  assert (Hpending : qualifies asOf employeeId row = false).
  { unfold qualifies. rewrite Hst. apply andb_false_r. }
  assert (Happroved : qualifies asOf employeeId
                        (decidedRow now "Approved" actor reason row) = true).
  { unfold qualifies, decidedRow, employeeId.
    cbn [Row.employeeId Row.startDate Row.status].
    rewrite String.eqb_refl, Hmonth. reflexivity. }
  assert (Hrejected : qualifies asOf employeeId
                        (decidedRow now "Rejected" actor reason row) = false).
  { unfold qualifies, decidedRow. cbn [Row.status]. apply andb_false_r. }
  rewrite (Hafter "Approved") by discriminate.
  rewrite (Hafter "Rejected") by discriminate.
  rewrite Hbefore. cbv zeta.
  rewrite !List.filter_app. cbn [List.filter].
  rewrite Hpending, Happroved, Hrejected.
  cbn [totalRequests permissionCount leaveCount List.filter].
  change (hasLeaveType PERMISSION_SHEET_NAME
            (decidedRow now "Approved" actor reason row))
    with (hasLeaveType PERMISSION_SHEET_NAME row).
  change (hasLeaveType LEAVE_SHEET_NAME
            (decidedRow now "Approved" actor reason row))
    with (hasLeaveType LEAVE_SHEET_NAME row).
  repeat split.
  - rewrite !length_app. cbn [length]. lia.
  - destruct (hasLeaveType PERMISSION_SHEET_NAME row);
      rewrite !length_app; cbn [length]; lia.
  - destruct (hasLeaveType LEAVE_SHEET_NAME row);
      rewrite !length_app; cbn [length]; lia.
Qed.

Lemma decision_counts_in_monthly_stats_witness :
  let asOf := Date.make 2024 5 20 0 0 in
  let statsAfter newStatus :=
    getMonthlyLeaveStats asOf "E1"
      (spreadsheet
         (snd (updateRequestStatus Scenario.noon "REQ-20" newStatus "Admin" ""
                 Scenario.world))) in
  totalRequests (getMonthlyLeaveStats asOf "E1" (spreadsheet Scenario.world)) = O
  /\ totalRequests (statsAfter "Approved") = 1%nat
  /\ permissionCount (statsAfter "Approved") = 1%nat
  /\ statsAfter "Rejected" = zeroStats.
Proof.
  destruct (decision_counts_in_monthly_stats Scenario.noon
              (Date.make 2024 5 20 0 0) "REQ-20" "Admin" "" Scenario.world
              (Found.mk PERMISSION_SHEET_NAME 2)
              ltac:(discriminate) ltac:(vm_compute; reflexivity)
              ltac:(vm_compute; reflexivity) ltac:(vm_compute; reflexivity))
    as (Htotal & Hpermission & _ & Hrejected).
  split; [vm_compute; reflexivity|].
  split; [exact Htotal|]. split; [exact Hpermission|exact Hrejected].
Defined.

(** ** Admin dashboard *)

Lemma countRequest_step (timezoneOffset : Z) (now : Millis)
    (stats : DashboardStats) (req : Request.t) :
  countRequest timezoneOffset now stats req
  = mkDashboardStats
      (pending stats + Nat.b2n (hasStatus "Pending" req))
      (approved stats + Nat.b2n (hasStatus "Approved" req))
      (rejected stats + Nat.b2n (hasStatus "Rejected" req))
      (checkedIn stats + Nat.b2n (hasCheckIn req))
      (overdueTime stats + Nat.b2n (isOverdueTime timezoneOffset now req))
      (overdueDay stats + Nat.b2n (isOverdueDay timezoneOffset now req))
      (total stats).
Proof.
  unfold countRequest, isOverdueTime, isOverdueDay, isOpen, hasStatus,
    hasCheckIn.
  destruct (String.eqb_spec (Request.status req) "Pending") as [Hp|Hp].
  - rewrite Hp. cbn [String.eqb Ascii.eqb Bool.eqb]. rewrite !andb_false_r.
    cbn [andb Nat.b2n].
    destruct (Date.present _); cbn [Nat.b2n]; f_equal; lia.
  - destruct (String.eqb_spec (Request.status req) "Approved") as [Ha|Ha].
    + rewrite Ha. cbn [String.eqb Ascii.eqb Bool.eqb]. rewrite !andb_true_r.
      destruct (Date.present _); cbn [negb Nat.b2n]; rewrite ?andb_false_r;
        cbn [andb Nat.b2n]; [f_equal; lia|].
      rewrite !andb_true_r.
      destruct (String.eqb _ PERMISSION_SHEET_NAME); cbn [andb Nat.b2n];
        [|f_equal; lia].
      destruct (Z.ltb_spec (dateOnly timezoneOffset (Request.startDate req))
                  (Date.setHours 0 0 now)) as [Hlt|Hge];
        destruct (Z.eqb_spec (dateOnly timezoneOffset (Request.startDate req))
                    (Date.setHours 0 0 now)) as [Heq|Hneq];
        cbn [negb andb Nat.b2n]; try lia;
        destruct (Date.setHours 18 0 now <? now); cbn [Nat.b2n];
        f_equal; lia.
    + rewrite !andb_false_r. cbn [andb Nat.b2n].
      destruct (String.eqb (Request.status req) "Rejected");
        destruct (Date.present _); cbn [Nat.b2n]; f_equal; lia.
Qed.

Lemma countOf_cons (p : Request.t -> bool) (req : Request.t)
    (reqs : list Request.t) :
  countOf p (req :: reqs) = (Nat.b2n (p req) + countOf p reqs)%nat.
Proof. unfold countOf. cbn [List.filter]. destruct (p req); reflexivity. Qed.

Lemma getDashboardStats_fold (timezoneOffset : Z) (now : Millis)
    (reqs : list Request.t) :
  forall stats,
  fold_left (countRequest timezoneOffset now) reqs stats
  = mkDashboardStats
      (pending stats + countOf (hasStatus "Pending") reqs)
      (approved stats + countOf (hasStatus "Approved") reqs)
      (rejected stats + countOf (hasStatus "Rejected") reqs)
      (checkedIn stats + countOf hasCheckIn reqs)
      (overdueTime stats + countOf (isOverdueTime timezoneOffset now) reqs)
      (overdueDay stats + countOf (isOverdueDay timezoneOffset now) reqs)
      (total stats).
Proof.
  induction reqs as [|req reqs IH]; intros stats.
  - destruct stats. unfold countOf. cbn. f_equal; lia.
  - cbn [fold_left]. rewrite IH, countRequest_step, !countOf_cons.
    cbn [pending approved rejected checkedIn overdueTime overdueDay total].
    f_equal; lia.
Qed.

Lemma countOf_le (p q : Request.t -> bool) (reqs : list Request.t) :
  (forall req, p req = true -> q req = true) ->
  (countOf p reqs <= countOf q reqs)%nat.
Proof.
  intros Hpq. induction reqs as [|req reqs IH]; [reflexivity|].
  rewrite !countOf_cons. specialize (Hpq req).
  destruct (p req), (q req); cbn [Nat.b2n]; try lia;
    discriminate Hpq; reflexivity.
Qed.

Lemma countOf_sum (p q r : Request.t -> bool) (reqs : list Request.t) :
  (forall req, p req = true -> r req = true /\ q req = false) ->
  (forall req, q req = true -> r req = true) ->
  (countOf p reqs + countOf q reqs <= countOf r reqs)%nat.
Proof.
  intros Hp Hq. induction reqs as [|req reqs IH]; [reflexivity|].
  rewrite !countOf_cons. specialize (Hp req). specialize (Hq req).
  destruct (p req), (q req), (r req); cbn [Nat.b2n]; try lia;
    try (destruct Hp as [Hr Hq']; [reflexivity|]; discriminate);
    try (discriminate Hq; reflexivity).
Qed.

Lemma countOf_length (p : Request.t -> bool) (reqs : list Request.t) :
  (countOf p reqs <= length reqs)%nat.
Proof.
  induction reqs as [|req reqs IH]; [reflexivity|].
  rewrite countOf_cons. cbn [length]. destruct (p req); cbn [Nat.b2n]; lia.
Qed.

Lemma countOf_all (reqs : list Request.t) :
  countOf (fun _ => true) reqs = length reqs.
Proof.
  unfold countOf. induction reqs as [|req reqs IH]; [reflexivity|].
  cbn [List.filter length]. rewrite IH. reflexivity.
Qed.

Lemma countOf_three (p q r : Request.t -> bool) (reqs : list Request.t) :
  (forall req, p req = true -> q req = false /\ r req = false) ->
  (forall req, q req = true -> r req = false) ->
  (countOf p reqs + countOf q reqs + countOf r reqs <= length reqs)%nat.
Proof.
  intros Hp Hq. induction reqs as [|req reqs IH]; [reflexivity|].
  rewrite !countOf_cons. cbn [length]. specialize (Hp req). specialize (Hq req).
  destruct (p req), (q req), (r req); cbn [Nat.b2n]; try lia;
    try (destruct Hp as [Hq' Hr']; [reflexivity|]; discriminate);
    try (discriminate Hq; reflexivity).
Qed.

Lemma hasStatus_exclusive (s s' : string) (req : Request.t) :
  s <> s' -> hasStatus s req = true -> hasStatus s' req = false.
Proof.
  unfold hasStatus. intros Hne Hs. apply String.eqb_eq in Hs.
  apply String.eqb_neq. congruence.
Qed.

(** X19. The dashboard figures are counts over the listed requests: the total
    is their number, each other figure the number of requests of its kind.
    Pending, Approved and Rejected together never exceed the total, the two
    overdue figures together never exceed the Approved Permission requests
    without check-in, and these together with the checked-in ones never exceed
    the total. *)
Theorem getDashboardStats_counts (timezoneOffset : Z) (now : Millis)
    (reqs : list Request.t) :
  let stats := getDashboardStats timezoneOffset now reqs in
  total stats = length reqs
  /\ pending stats = countOf (hasStatus "Pending") reqs
  /\ approved stats = countOf (hasStatus "Approved") reqs
  /\ rejected stats = countOf (hasStatus "Rejected") reqs
  /\ checkedIn stats = countOf hasCheckIn reqs
  /\ overdueDay stats = countOf (isOverdueDay timezoneOffset now) reqs
  /\ overdueTime stats = countOf (isOverdueTime timezoneOffset now) reqs
  /\ (pending stats + approved stats + rejected stats <= total stats)%nat
  /\ (overdueTime stats + overdueDay stats <= countOf isOpen reqs)%nat
  /\ (countOf isOpen reqs + checkedIn stats <= total stats)%nat
  /\ (countOf isOpen reqs <= approved stats)%nat.
Proof.
  intros stats. unfold stats, getDashboardStats.
  rewrite getDashboardStats_fold.
  cbn [pending approved rejected checkedIn overdueTime overdueDay total].
  rewrite !Nat.add_0_l.
  do 7 (split; [reflexivity|]).
  split; [|split; [|split]].
  - apply countOf_three.
    + intros req Hp. split; apply (hasStatus_exclusive "Pending");
        try discriminate; exact Hp.
    + intros req Ha. apply (hasStatus_exclusive "Approved");
        [discriminate|exact Ha].
  - apply countOf_sum.
    + intros req Ht. unfold isOverdueTime, isOverdueDay in *.
      apply andb_prop in Ht. destruct Ht as [Ht _].
      apply andb_prop in Ht. destruct Ht as [Hopen Heq].
      split; [exact Hopen|]. rewrite Hopen. cbn [andb].
      apply Z.eqb_eq in Heq. apply Z.ltb_ge. lia.
    + intros req Hd. unfold isOverdueDay in Hd.
      apply andb_prop in Hd. destruct Hd as [Hopen _]. exact Hopen.
  - pose proof (countOf_sum isOpen hasCheckIn (fun _ => true) reqs) as Hsum.
    rewrite countOf_all in Hsum. apply Hsum; [|reflexivity].
    intros req Hopen. split; [reflexivity|]. unfold isOpen in Hopen.
    apply andb_prop in Hopen. destruct Hopen as [_ Hck].
    apply negb_true_iff in Hck. exact Hck.
  - apply countOf_le. intros req Hopen. unfold isOpen in Hopen.
    apply andb_prop in Hopen. destruct Hopen as [Hopen _].
    apply andb_prop in Hopen. destruct Hopen as [_ Ha]. exact Ha.
Qed.

Lemma dateOnly_not_midnight (timezoneOffset : Z) (now : Millis) (day : Z) :
  timezoneOffset mod Date.MS_PER_DAY <> 0 ->
  (dateOnly timezoneOffset day =? Date.setHours 0 0 now) = false.
Proof.
  intros Hoffset. apply Z.eqb_neq. intros Heq. apply Hoffset.
  unfold dateOnly, Date.setHours in Heq.
  replace timezoneOffset
    with ((Date.dayNumber now - day) * Date.MS_PER_DAY) by lia.
  apply Z.mod_mul. discriminate.
Qed.

(** X20. The start date of a listed request is read back as midnight UTC and
    compared with local midnight: unless the script's time zone is a whole
    number of days from UTC, no request is ever counted as overdue by time,
    and the filter of that name selects nothing. *)
Theorem overdueTime_needs_utc `{Services} (timezoneOffset : Z) (now : Millis) :
  timezoneOffset mod Date.MS_PER_DAY <> 0 ->
  (forall reqs, overdueTime (getDashboardStats timezoneOffset now reqs) = O)
  /\ (forall reqs,
        List.filter (passesFilter timezoneOffset now "OverdueTime") reqs = [])
  /\ (forall options w dashboard,
        fst (getAdminDashboardData timezoneOffset now options w)
        = Some dashboard ->
        overdueTime (Dashboard.stats dashboard) = O
        /\ (DashboardOptions.filter options = "OverdueTime" ->
            Dashboard.requests dashboard = []
            /\ Dashboard.totalRequests dashboard = O)).
Proof.
  intros Hoffset.
  assert (Hnever : forall req, isOverdueTime timezoneOffset now req = false).
  { intros req. unfold isOverdueTime.
    rewrite (dateOnly_not_midnight _ _ _ Hoffset).
    rewrite andb_false_r. reflexivity. }
  assert (Hstats : forall reqs,
            overdueTime (getDashboardStats timezoneOffset now reqs) = O).
  { intros reqs. unfold getDashboardStats. rewrite getDashboardStats_fold.
    cbn [overdueTime]. unfold countOf.
    induction reqs as [|req reqs IH]; [reflexivity|].
    cbn [List.filter]. rewrite Hnever. exact IH. }
  assert (Hfilter : forall reqs,
            List.filter (passesFilter timezoneOffset now "OverdueTime") reqs
            = []).
  { intros reqs. induction reqs as [|req reqs IH]; [reflexivity|].
    cbn [List.filter]. rewrite IH.
    unfold passesFilter. cbn [String.eqb Ascii.eqb Bool.eqb].
    rewrite (dateOnly_not_midnight _ _ _ Hoffset).
    rewrite andb_false_r. reflexivity. }
  split; [exact Hstats|]. split; [exact Hfilter|].
  intros options w dashboard. unfold getAdminDashboardData.
  destruct (getLeaveRequests timezoneOffset w) as [[data|] w1];
    [|discriminate].
  cbn [fst]. intros [= <-]. cbn [Dashboard.stats Dashboard.requests
    Dashboard.totalRequests].
  split; [apply Hstats|]. intros ->. cbn [JS.nonEmpty].
  rewrite Hfilter. unfold slice. rewrite drop_nil, take_nil.
  split; reflexivity.
Qed.

Lemma overdueTime_needs_utc_witness :
  overdueTime (getDashboardStats Scenario.zone Scenario.evening
                 [Scenario.openRequest]) = O
  /\ overdueTime (getDashboardStats 0 Scenario.evening [Scenario.openRequest])
     = 1%nat.
Proof.
  split; [|vm_compute; reflexivity].
  exact (proj1 (overdueTime_needs_utc (H := Sample.services) Scenario.zone
                  Scenario.evening ltac:(vm_compute; discriminate))
           [Scenario.openRequest]).
Defined.

(** X21. The date text of a request is the UTC date of its stored start date.
    The default date filter keeps the Pending requests and those whose date
    text is the UTC date of local midnight: in a zone ahead of UTC by up to a
    day this is the day before the local date, in a zone at or behind UTC by
    less than a day the local date. *)
Theorem today_filter_day (timezoneOffset : Z) (now : Millis)
    (req : Request.t) :
  (forall day, utcDay timezoneOffset (dateOnly timezoneOffset day) = day)
  /\ (0 < timezoneOffset <= Date.MS_PER_DAY ->
      passesDateFilter timezoneOffset now TodayAndPending req
      = (Request.startDate req =? Date.dayNumber now - 1)
        || hasStatus "Pending" req)
  /\ (- Date.MS_PER_DAY < timezoneOffset <= 0 ->
      passesDateFilter timezoneOffset now TodayAndPending req
      = (Request.startDate req =? Date.dayNumber now)
        || hasStatus "Pending" req).
Proof.
  assert (Hday : forall k r, 0 <= r < Date.MS_PER_DAY ->
            (k * Date.MS_PER_DAY + r) / Date.MS_PER_DAY = k).
  { intros k r Hr. rewrite Z.add_comm, Z.div_add by discriminate.
    rewrite Z.div_small by exact Hr. reflexivity. }
  split; [|split].
  - intros day. unfold utcDay, dateOnly, Date.dayNumber.
    replace (day * Date.MS_PER_DAY + timezoneOffset - timezoneOffset)
      with (day * Date.MS_PER_DAY + 0) by lia.
    apply Hday. unfold Date.MS_PER_DAY. lia.
  - intros Heast. unfold passesDateFilter, utcDay, Date.setHours, hasStatus.
    f_equal. f_equal. unfold Date.dayNumber at 1.
    replace (Date.dayNumber now * Date.MS_PER_DAY + 0 * Date.MS_PER_HOUR
             + 0 * Date.MS_PER_MINUTE - timezoneOffset)
      with ((Date.dayNumber now - 1) * Date.MS_PER_DAY
            + (Date.MS_PER_DAY - timezoneOffset)) by lia.
    apply Hday. lia.
  - intros Hwest. unfold passesDateFilter, utcDay, Date.setHours, hasStatus.
    f_equal. f_equal. unfold Date.dayNumber at 1.
    replace (Date.dayNumber now * Date.MS_PER_DAY + 0 * Date.MS_PER_HOUR
             + 0 * Date.MS_PER_MINUTE - timezoneOffset)
      with (Date.dayNumber now * Date.MS_PER_DAY + (- timezoneOffset)) by lia.
    apply Hday. lia.
Qed.

Lemma today_filter_day_witness :
  passesDateFilter Scenario.zone Scenario.evening TodayAndPending
    Scenario.openRequest = false
  /\ passesDateFilter 0 Scenario.evening TodayAndPending Scenario.openRequest
     = true.
Proof.
  destruct (today_filter_day Scenario.zone Scenario.evening
              Scenario.openRequest) as (_ & Heast & _).
  destruct (today_filter_day 0 Scenario.evening Scenario.openRequest)
    as (_ & _ & Hutc).
  rewrite Heast by (vm_compute; split; [reflexivity|discriminate]).
  rewrite Hutc by (vm_compute; split; [reflexivity|discriminate]).
  vm_compute. split; reflexivity.
Defined.

Lemma toRequests_app (timezoneOffset : Z) (employeeMap : gmap string EmployeeInfo)
    (rows rows' : list Row.t) :
  toRequests timezoneOffset employeeMap (rows ++ rows')
  = match toRequests timezoneOffset employeeMap rows,
          toRequests timezoneOffset employeeMap rows' with
    | Some reqs, Some reqs' => Some (reqs ++ reqs')%list
    | _, _ => None
    end.
Proof.
  induction rows as [|row rows IH]; cbn [app toRequests].
  - destruct (toRequests timezoneOffset employeeMap rows'); reflexivity.
  - destruct (toRequest timezoneOffset employeeMap row); [|reflexivity].
    rewrite IH.
    destruct (toRequests timezoneOffset employeeMap rows); [|reflexivity].
    destruct (toRequests timezoneOffset employeeMap rows'); reflexivity.
Qed.

Lemma collectRequests_rows (timezoneOffset : Z)
    (employeeMap : gmap string EmployeeInfo) (names : list string)
    (ss : gmap string (list Row.t)) :
  forall allRequests,
  collectRequests timezoneOffset employeeMap names ss allRequests
  = option_map (app allRequests)
      (toRequests timezoneOffset employeeMap (rowsOf names ss)).
Proof.
  induction names as [|sheetName names IH]; intros allRequests.
  - cbn. rewrite app_nil_r. reflexivity.
  - cbn [collectRequests]. unfold rowsOf. cbn [flat_map].
    fold (rowsOf names ss). rewrite toRequests_app.
    destruct (ss !! sheetName) as [sheet|]; [|cbn [toRequests]; rewrite IH;
      destruct (toRequests _ _ (rowsOf names ss)); reflexivity].
    destruct (1 <? getLastRow sheet)%nat eqn:Hlast.
    + destruct (toRequests timezoneOffset employeeMap (getValues sheet));
        [|reflexivity].
      rewrite IH.
      destruct (toRequests _ _ (rowsOf names ss)); cbn [option_map];
        [rewrite app_assoc|]; reflexivity.
    + rewrite (getValues_short _ Hlast). cbn [toRequests]. rewrite IH.
      destruct (toRequests _ _ (rowsOf names ss)); reflexivity.
Qed.

Lemma getLeaveRequests_rows `{Services} (timezoneOffset : Z) (w : World) :
  fst (getLeaveRequests timezoneOffset w)
  = option_map (sortDescending Request.timestamp)
      (toRequests timezoneOffset (directoryOf w) (scannedRows (spreadsheet w)))
  /\ spreadsheet (snd (getLeaveRequests timezoneOffset w)) = spreadsheet w.
Proof.
  unfold getLeaveRequests, directoryOf, scannedRows.
  destruct (employeeCache w) as [cache|]; cbn [default from_option id];
    world_step; rewrite collectRequests_rows;
    destruct (toRequests _ _ (rowsOf ALL_LEAVE_SHEETS (spreadsheet w)));
    split; reflexivity.
Qed.

Lemma toRequests_None (timezoneOffset : Z)
    (employeeMap : gmap string EmployeeInfo) (rows : list Row.t) (row : Row.t) :
  In row rows -> toRequest timezoneOffset employeeMap row = None ->
  toRequests timezoneOffset employeeMap rows = None.
Proof.
  intros Hin Hrow. induction rows as [|r rows IH]; [destruct Hin|].
  cbn [toRequests]. destruct Hin as [->|Hin]; [rewrite Hrow; reflexivity|].
  rewrite (IH Hin). destruct (toRequest _ _ r); reflexivity.
Qed.

(** X22. One data row with an empty or unreadable start or end date makes the
    whole request listing fail, and with it the dashboard, whatever the
    options. *)
Theorem invalid_date_breaks_dashboard `{Services} (timezoneOffset : Z)
    (now : Millis) (options : DashboardOptions.t) (w : World) (row : Row.t) :
  In row (scannedRows (spreadsheet w)) ->
  Row.startDate row = None \/ Row.endDate row = None ->
  fst (getLeaveRequests timezoneOffset w) = None
  /\ fst (getAdminDashboardData timezoneOffset now options w) = None.
Proof.
  intros Hin Hdate.
  assert (Hrow : toRequest timezoneOffset (directoryOf w) row = None).
  { unfold toRequest. destruct Hdate as [-> | ->]; [reflexivity|].
    destruct (Row.startDate row); reflexivity. }
  assert (Hlist : fst (getLeaveRequests timezoneOffset w) = None).
  { rewrite (proj1 (getLeaveRequests_rows timezoneOffset w)).
    rewrite (toRequests_None _ _ _ _ Hin Hrow). reflexivity. }
  split; [exact Hlist|]. unfold getAdminDashboardData.
  destruct (getLeaveRequests timezoneOffset w) as [[data|] w1];
    [discriminate Hlist|reflexivity].
Qed.

Lemma invalid_date_breaks_dashboard_witness :
  fst (getLeaveRequests Scenario.zone (Scenario.staffed Scenario.brokenLedger))
  = None
  /\ fst (getAdminDashboardData Scenario.zone Scenario.evening
            Scenario.secondPage (Scenario.staffed Scenario.brokenLedger))
     = None.
Proof.
  apply (invalid_date_breaks_dashboard Scenario.zone Scenario.evening
           Scenario.secondPage (Scenario.staffed Scenario.brokenLedger)
           (Row.set_startDate None Scenario.pendingRequest)).
  - vm_compute. right. left. reflexivity.
  - left. reflexivity.
Defined.

Lemma insertDescending_perm {A : Type} (key : A -> Z) (x : A) (l : list A) :
  Permutation (insertDescending key x l) (x :: l).
Proof.
  induction l as [|y l IH]; cbn [insertDescending]; [reflexivity|].
  destruct (key x <? key y); [|reflexivity].
  rewrite IH. apply perm_swap.
Qed.

Lemma sortDescending_perm {A : Type} (key : A -> Z) (l : list A) :
  Permutation (sortDescending key l) l.
Proof.
  induction l as [|x l IH]; [reflexivity|].
  unfold sortDescending in *. cbn [foldr].
  rewrite insertDescending_perm. apply perm_skip. exact IH.
Qed.

Lemma insertDescending_sorted {A : Type} (key : A -> Z) (x : A) (l : list A) :
  sortedDescending key l -> sortedDescending key (insertDescending key x l).
Proof.
  induction l as [|y l IH]; cbn [insertDescending sortedDescending].
  - intros _. split; [intros y []|exact I].
  - intros [Hy Hl]. destruct (Z.ltb_spec (key x) (key y)) as [Hlt|Hge];
      cbn [sortedDescending].
    + split; [|apply IH; exact Hl].
      intros z Hz.
      apply (Permutation_in _ (insertDescending_perm key x l)) in Hz.
      destruct Hz as [<-|Hz]; [lia|apply Hy; exact Hz].
    + split; [|split; assumption].
      intros z [<-|Hz]; [exact Hge|]. specialize (Hy z Hz). lia.
Qed.

Lemma sortDescending_sorted {A : Type} (key : A -> Z) (l : list A) :
  sortedDescending key (sortDescending key l).
Proof.
  induction l as [|x l IH]; [exact I|].
  unfold sortDescending in *. cbn [foldr].
  apply insertDescending_sorted. exact IH.
Qed.

Lemma toRequests_Some (timezoneOffset : Z)
    (employeeMap : gmap string EmployeeInfo) (rows : list Row.t) :
  forall reqs,
  toRequests timezoneOffset employeeMap rows = Some reqs ->
  Forall2 (fun row req => toRequest timezoneOffset employeeMap row = Some req)
    rows reqs.
Proof.
  induction rows as [|row rows IH]; cbn [toRequests]; intros reqs.
  - intros [= <-]. constructor.
  - destruct (toRequest timezoneOffset employeeMap row) as [req|] eqn:Hrow;
      [|discriminate].
    destruct (toRequests timezoneOffset employeeMap rows) as [reqs'|];
      [|discriminate].
    intros [= <-]. constructor; [exact Hrow|]. apply IH. reflexivity.
Qed.

Lemma Forall2_In_r {A B : Type} (P : A -> B -> Prop) (l : list A)
    (k : list B) (y : B) :
  Forall2 P l k -> In y k -> exists x, In x l /\ P x y.
Proof.
  induction 1 as [|x y' l k Hxy _ IH]; intros Hin; [destruct Hin|].
  destruct Hin as [<-|Hin]; [exists x; split; [left; reflexivity|exact Hxy]|].
  destruct (IH Hin) as (x' & Hx' & HP). exists x'. split; [right|]; assumption.
Qed.

Lemma Forall2_In_l {A B : Type} (P : A -> B -> Prop) (l : list A)
    (k : list B) (x : A) :
  Forall2 P l k -> In x l -> exists y, In y k /\ P x y.
Proof.
  induction 1 as [|x' y l k Hxy _ IH]; intros Hin; [destruct Hin|].
  destruct Hin as [<-|Hin]; [exists y; split; [left; reflexivity|exact Hxy]|].
  destruct (IH Hin) as (y' & Hy' & HP). exists y'. split; [right|]; assumption.
Qed.

(** X23. A listing that succeeds holds exactly the data rows of the three
    partitions, one request for each, ordered from the newest submission to
    the oldest. *)
Theorem getLeaveRequests_newest_first `{Services} (timezoneOffset : Z)
    (w : World) (data : list Request.t) :
  fst (getLeaveRequests timezoneOffset w) = Some data ->
  sortedDescending Request.timestamp data
  /\ length data = length (scannedRows (spreadsheet w))
  /\ (forall req,
        In req data
        <-> exists row, In row (scannedRows (spreadsheet w))
                        /\ toRequest timezoneOffset (directoryOf w) row
                           = Some req).
Proof.
  rewrite (proj1 (getLeaveRequests_rows timezoneOffset w)).
  destruct (toRequests timezoneOffset (directoryOf w)
              (scannedRows (spreadsheet w))) as [reqs|] eqn:Hreqs;
    [|discriminate].
  cbn [option_map]. intros [= <-].
  apply toRequests_Some in Hreqs.
  pose proof (sortDescending_perm Request.timestamp reqs) as Hperm.
  split; [apply sortDescending_sorted|]. split.
  - rewrite (Permutation_length Hperm).
    symmetry. eapply Forall2_length. exact Hreqs.
  - intros req. split.
    + intros Hin. apply (Permutation_in _ Hperm) in Hin.
      exact (Forall2_In_r _ _ _ _ Hreqs Hin).
    + intros (row & Hrow & Hconv).
      destruct (Forall2_In_l _ _ _ _ Hreqs Hrow) as (req' & Hreq' & Hconv').
      rewrite Hconv in Hconv'. injection Hconv' as <-.
      apply (Permutation_in _ (Permutation_sym Hperm)). exact Hreq'.
Qed.

Lemma getLeaveRequests_newest_first_witness :
  let data :=
    default [] (fst (getLeaveRequests Scenario.zone
                       (Scenario.staffed Sample.statsLedger))) in
  sortedDescending Request.timestamp data
  /\ map Request.requestId data
     = ["REQ-15"; "REQ-14"; "REQ-11"; "REQ-12"; "REQ-10"; "REQ-13"].
Proof.
  intros data. split; [|vm_compute; reflexivity].
  assert (Hdata : fst (getLeaveRequests Scenario.zone
                         (Scenario.staffed Sample.statsLedger)) = Some data)
    by (vm_compute; reflexivity).
  exact (proj1 (getLeaveRequests_newest_first Scenario.zone
                  (Scenario.staffed Sample.statsLedger) data Hdata)).
Defined.

Lemma slice_page {A : Type} (page limit : Z) (l : list A) :
  1 <= page -> 1 <= limit ->
  slice ((page - 1) * limit) (page * limit) l
  = take (Z.to_nat limit) (drop (Z.to_nat ((page - 1) * limit)) l).
Proof.
  intros Hpage Hlimit. unfold slice.
  assert (Hstart : 0 <= (page - 1) * limit) by nia.
  assert (Hend : 0 <= page * limit) by nia.
  replace ((page - 1) * limit <? 0) with false by (symmetry; apply Z.ltb_ge; lia).
  replace (page * limit <? 0) with false by (symmetry; apply Z.ltb_ge; lia).
  destruct (Z.le_gt_cases (Z.of_nat (length l)) ((page - 1) * limit))
    as [Hout|Hin].
  - rewrite (drop_ge l (Z.to_nat ((page - 1) * limit))) by lia.
    rewrite take_nil.
    rewrite !Z.min_r by lia. rewrite Z.sub_diag. reflexivity.
  - rewrite (Z.min_l ((page - 1) * limit)) by lia.
    destruct (Z.le_gt_cases (page * limit) (Z.of_nat (length l)))
      as [Hfull|Hlast].
    + rewrite Z.min_l by lia. f_equal. lia.
    + rewrite Z.min_r by lia.
      rewrite !take_ge; [reflexivity| |]; rewrite length_drop; lia.
Qed.

(** X24. For a page number and a page size of at least 1, the dashboard
    returns the requests that pass the filters from position (page-1)*limit
    on, at most limit of them and in the order of the listing; the total is
    the number of requests that pass, and the number of pages is the least one
    that holds them all. *)
Theorem dashboard_pages `{Services} (timezoneOffset : Z) (now : Millis)
    (options : DashboardOptions.t) (w : World) (data : list Request.t)
    (page limit : Z) :
  fst (getLeaveRequests timezoneOffset w) = Some data ->
  DashboardOptions.page options = Some page -> 1 <= page ->
  DashboardOptions.limit options = Some limit -> 1 <= limit ->
  let selected := selectedRequests timezoneOffset now options data in
  let start := Z.to_nat ((page - 1) * limit) in
  exists dashboard,
    fst (getAdminDashboardData timezoneOffset now options w) = Some dashboard
    /\ Dashboard.requests dashboard = take (Z.to_nat limit) (drop start selected)
    /\ (forall j, (j < Z.to_nat limit)%nat ->
          Dashboard.requests dashboard !! j = selected !! (start + j)%nat)
    /\ Dashboard.currentPage dashboard = page
    /\ Dashboard.totalRequests dashboard = length selected
    /\ (Dashboard.totalPages dashboard - 1) * limit
       < Z.of_nat (length selected)
       <= Dashboard.totalPages dashboard * limit.
Proof.
  intros Hdata Hpage Hp Hlimit Hl selected start.
  unfold getAdminDashboardData.
  destruct (getLeaveRequests timezoneOffset w) as [listed w1].
  cbn [fst] in Hdata. subst listed. rewrite Hpage, Hlimit.
  replace (page =? 0) with false by (symmetry; apply Z.eqb_neq; lia).
  replace (limit =? 0) with false by (symmetry; apply Z.eqb_neq; lia).
  eexists. split; [reflexivity|].
  cbn [Dashboard.requests Dashboard.currentPage Dashboard.totalRequests
       Dashboard.totalPages].
  fold (selectedRequests timezoneOffset now options data). fold selected.
  rewrite (slice_page page limit selected Hp Hl). fold start.
  split; [reflexivity|]. split.
  - intros j Hj. rewrite lookup_take_lt by exact Hj. apply lookup_drop.
  - split; [reflexivity|]. split; [reflexivity|].
    pose proof (Z.div_mod (- Z.of_nat (length selected)) limit ltac:(lia))
      as Hdiv.
    pose proof (Z.mod_pos_bound (- Z.of_nat (length selected)) limit ltac:(lia))
      as Hmod.
    nia.
Qed.

Lemma dashboard_pages_witness :
  let out :=
    fst (getAdminDashboardData Scenario.zone Scenario.evening
           Scenario.secondPage (Scenario.staffed Sample.statsLedger)) in
  option_map (fun d => map Request.requestId (Dashboard.requests d)) out
  = Some ["REQ-11"; "REQ-12"]
  /\ option_map Dashboard.totalPages out = Some 3
  /\ option_map Dashboard.totalRequests out = Some 6%nat.
Proof.
  pose (data := default [] (fst (getLeaveRequests Scenario.zone
                                   (Scenario.staffed Sample.statsLedger)))).
  destruct (dashboard_pages Scenario.zone Scenario.evening Scenario.secondPage
              (Scenario.staffed Sample.statsLedger) data 2 2
              ltac:(vm_compute; reflexivity) eq_refl ltac:(lia) eq_refl
              ltac:(lia))
    as (dashboard & Hout & Hrequests & _ & _ & Htotal & Hpages).
  assert (Hlen : length (selectedRequests Scenario.zone Scenario.evening
                           Scenario.secondPage data) = 6%nat)
    by (vm_compute; reflexivity).
  cbv zeta. rewrite Hout. cbn [option_map].
  rewrite Hrequests, Htotal. rewrite Hlen in Hpages.
  split; [vm_compute; reflexivity|]. split; [|rewrite Hlen; reflexivity].
  f_equal. lia.
Defined.

(** ** Reach of the escalation scanner *)

Lemma checkForOverdueCheckIns_effect `{Services} (now : Millis) (w : World) :
  let values := rowsOf [PERMISSION_SHEET_NAME] (spreadsheet w) in
  let employeeMap := default (employeeSheet w) (employeeCache w) in
  sent (checkForOverdueCheckIns now w)
  = (sent w ++ flat_map (notificationsFor employeeMap now) values)%list
  /\ spreadsheet (checkForOverdueCheckIns now w)
     = match spreadsheet w !! PERMISSION_SHEET_NAME with
       | Some (header :: _) =>
           <[PERMISSION_SHEET_NAME := header :: map (scanRow now) values]>
             (spreadsheet w)
       | _ => spreadsheet w
       end.
Proof.
  intros values employeeMap. unfold values, rowsOf. cbn [flat_map].
  rewrite app_nil_r.
  destruct (spreadsheet w !! PERMISSION_SHEET_NAME) as [[|header rows]|] eqn:Hs.
  - unfold checkForOverdueCheckIns.
    destruct (employeeCache w); world_step; rewrite Hs; simpl;
      rewrite app_nil_r; split; reflexivity.
  - destruct (checkForOverdueCheckIns_run now w header rows Hs) as [Hss Hsent].
    rewrite Hss, Hsent. split; reflexivity.
  - unfold checkForOverdueCheckIns.
    destruct (employeeCache w); world_step; rewrite Hs; simpl;
      rewrite app_nil_r; split; reflexivity.
Qed.

(** X25. The scanner reads and writes the Permission sheet only: whatever
    another sheet holds, also Approved requests long overdue, the messages
    sent are the same and that sheet is left as it is. *)
Theorem overdue_scan_ignores_other_sheets `{Services} (now : Millis)
    (w : World) (sheetName : string) (sheet : list Row.t) :
  sheetName <> PERMISSION_SHEET_NAME ->
  let w' := with_spreadsheet (<[sheetName := sheet]> (spreadsheet w)) w in
  sent (checkForOverdueCheckIns now w') = sent (checkForOverdueCheckIns now w)
  /\ spreadsheet (checkForOverdueCheckIns now w')
     = <[sheetName := sheet]> (spreadsheet (checkForOverdueCheckIns now w)).
Proof.
  intros Hname w'.
  destruct (checkForOverdueCheckIns_effect now w) as [Hsent Hss].
  destruct (checkForOverdueCheckIns_effect now w') as [Hsent' Hss'].
  rewrite Hsent, Hss, Hsent', Hss'. unfold w', rowsOf. world_step.
  cbn [flat_map]. rewrite lookup_insert_ne by exact Hname.
  split; [reflexivity|].
  destruct (spreadsheet w !! PERMISSION_SHEET_NAME) as [[|header rows]|];
    try reflexivity.
  apply insert_insert_ne. congruence.
Qed.

Lemma overdue_scan_ignores_other_sheets_witness :
  let w :=
    Scenario.staffed
      {[ PERMISSION_SHEET_NAME := [blankRow; Sample.fullDayRequest] ]} in
  let w' :=
    with_spreadsheet
      (<[LEAVE_SHEET_NAME := [blankRow; Scenario.approvedLeave]]>
         (spreadsheet w)) w in
  LEAVE_SHEET_NAME <> PERMISSION_SHEET_NAME
  /\ sent (checkForOverdueCheckIns Scenario.evening w')
     = sent (checkForOverdueCheckIns Scenario.evening w)
  /\ length (sent (checkForOverdueCheckIns Scenario.evening w)) = 1%nat.
Proof.
  assert (Hname : LEAVE_SHEET_NAME <> PERMISSION_SHEET_NAME)
    by (vm_compute; discriminate).
  split; [exact Hname|]. split; [|vm_compute; reflexivity].
  exact (proj1 (overdue_scan_ignores_other_sheets Scenario.evening
                  (Scenario.staffed
                     {[ PERMISSION_SHEET_NAME :=
                          [blankRow; Sample.fullDayRequest] ]})
                  LEAVE_SHEET_NAME [blankRow; Scenario.approvedLeave] Hname)).
Defined.

(** X26. A scan at any time sends nothing and changes no cell when no
    request of the Permission sheet is both Approved and without a check-in
    time. *)
Theorem overdue_scan_silent_without_open_requests `{Services} (now : Millis)
    (w : World) :
  (forall row, In row (rowsOf [PERMISSION_SHEET_NAME] (spreadsheet w)) ->
     Row.status row <> "Approved" \/ Row.checkInTimestamp row <> None) ->
  sent (checkForOverdueCheckIns now w) = sent w
  /\ spreadsheet (checkForOverdueCheckIns now w) = spreadsheet w.
Proof.
  intros Hclosed.
  destruct (checkForOverdueCheckIns_effect now w) as [Hsent Hss].
  rewrite Hsent, Hss.
  set (values := rowsOf [PERMISSION_SHEET_NAME] (spreadsheet w)) in *.
  assert (Hnone : forall row, In row values -> escalation now row = None).
  { intros row Hin. apply escalation_skipped, Hclosed, Hin. }
  split.
  - replace (flat_map _ values) with (@nil Message);
      [apply app_nil_r|].
    clearbody values. clear Hss Hsent Hclosed.
    induction values as [|row values IH]; [reflexivity|].
    cbn [flat_map]. unfold notificationsFor at 1.
    rewrite (Hnone row) by (left; reflexivity).
    apply IH. intros r Hr. apply Hnone. right. exact Hr.
  - destruct (spreadsheet w !! PERMISSION_SHEET_NAME) as [[|header rows]|] eqn:Hs;
      try reflexivity.
    assert (Hvalues : values = rows).
    { unfold values, rowsOf. cbn [flat_map]. rewrite Hs, app_nil_r.
      reflexivity. }
    replace (map (scanRow now) values) with rows.
    + apply insert_id. exact Hs.
    + rewrite <- Hvalues. clearbody values. clear Hss Hsent Hclosed Hvalues.
      induction values as [|row values IH]; [reflexivity|].
      cbn [map]. unfold scanRow at 1.
      rewrite (Hnone row) by (left; reflexivity).
      f_equal. apply IH. intros r Hr. apply Hnone. right. exact Hr.
Qed.

Lemma overdue_scan_silent_without_open_requests_witness :
  let w := Scenario.staffed Sample.checkedInLedger in
  sent (checkForOverdueCheckIns Scenario.evening w) = sent w
  /\ spreadsheet (checkForOverdueCheckIns Scenario.evening w) = spreadsheet w.
Proof.
  apply (overdue_scan_silent_without_open_requests Scenario.evening
           (Scenario.staffed Sample.checkedInLedger)).
  intros row Hin. vm_compute in Hin.
  destruct Hin as [<-|[]]. right. discriminate.
Defined.
